(** * update_patch9: the patch-manifest updater

    A shallow embedding of [scripts/update_patch9.py] and the properties of
    its four parts: the change-report reader ([get_changes]), the manifest
    reader ([current_patchfile]), the manifest updater
    ([update_file_entries]) and the publisher ([commit_and_push_file]).

    Conventions of the embedding.
    - A Python [str] is a [string]; its characters are the code points
      0..255.  Whitespace is what [str.isspace] accepts in that range;
      [int] skips less than that around a literal.
    - A text file is its decoded content.  Reading goes through Python's
      universal-newline translation, writing leaves ["\n"] as it is (POSIX).
    - An uncaught exception is the [Raise] case of [result].  The files are
      assumed to exist.
    - The interpreter refuses, unless it is set otherwise, to convert more
      than 4300 digits between a text and an integer.  [int] and [str] are
      modelled without that limit; the theorems that say when the updater
      returns, or which exception it raises, are stated for identifiers
      within the limit ([within_digit_limit]).
    - The arguments of a command are passed to the operating system in
      UTF-8, which encodes every code point; a NUL character cannot be
      passed.
    - A [dict] is the list of its items in insertion order, keys unique.
    - The iteration order of a [set] is not fixed by the language: it is a
      parameter, of type [SetIteration]. *)

From Stdlib Require Import String Ascii List ZArith Lia Bool Sorted.
From Stdlib Require Import DecimalString DecimalPos Permutation.
Import ListNotations.

Local Open Scope string_scope.
Local Open Scope list_scope.

(** ** Exceptions *)

Inductive exn : Type :=
| ValueError_unpack (expected got : nat)
    (* not enough values to unpack (expected 2, got 1) *)
| ValueError_int (literal : string)
    (* invalid literal for int() with base 10 *)
| ValueError_null_byte
    (* embedded null byte *)
| CalledProcessError (cmd : list string) (returncode : Z)
| OSError (cmd : list string).


Inductive result (A : Type) : Type :=
| Ok (a : A)
| Raise (e : exn).
Arguments Ok {A} a.
Arguments Raise {A} e.

Definition bind {A B : Type} (r : result A) (k : A -> result B) : result B :=
  match r with
  | Ok a => k a
  | Raise e => Raise e
  end.

Notation "x <- r ;; k" := (bind r (fun x => k))
  (at level 61, r at next level, right associativity).
Notation "' p <- r ;; k" := (bind r (fun x => match x with p => k end))
  (at level 61, p pattern, r at next level, right associativity).

(** [for x in xs: body], the loop state passed along; an exception in the
    body ends the loop. *)
Fixpoint for_each {A S : Type} (xs : list A) (body : A -> S -> result S)
    (s : S) : result S :=
  match xs with
  | [] => Ok s
  | x :: xs' => s' <- body x s ;; for_each xs' body s'
  end.

(** ** The Python builtins the script uses *)

Module Py.

Definition LF : ascii := "010"%char.
Definition CR : ascii := "013"%char.
Definition TAB : ascii := "009"%char.
Definition nl : string := String LF "".

(** [str.isspace] on one character. *)
Definition isspace (c : ascii) : bool :=
  let n := N_of_ascii c in
  ((9 <=? n) && (n <=? 13) || (28 <=? n) && (n <=? 32)
   || (n =? 133) || (n =? 160))%N.

Fixpoint lstrip (s : string) : string :=
  match s with
  | "" => ""
  | String c s' => if isspace c then lstrip s' else s
  end.

Fixpoint rstrip (s : string) : string :=
  match s with
  | "" => ""
  | String c s' =>
      match rstrip s' with
      | "" => if isspace c then "" else String c ""
      | r => String c r
      end
  end.

(** [s.strip()] *)
Definition strip (s : string) : string := rstrip (lstrip s).

(** [s.startswith(p)] *)
Fixpoint startswith (s p : string) : bool :=
  match p, s with
  | "", _ => true
  | String _ _, "" => false
  | String a p', String b s' => Ascii.eqb a b && startswith s' p'
  end.

(** [s.endswith(p)] *)
Fixpoint endswith (s p : string) : bool :=
  String.eqb s p ||
  match s with
  | "" => false
  | String _ s' => endswith s' p
  end.

(** [sep in s] for a one-character [sep]. *)
Fixpoint contains (sep : ascii) (s : string) : bool :=
  match s with
  | "" => false
  | String c s' => Ascii.eqb c sep || contains sep s'
  end.

(** [s.split(sep, 1)] for a one-character [sep]: one element when [sep]
    does not occur, else the text before and the text after its first
    occurrence. *)
Fixpoint split1 (s : string) (sep : ascii) : list string :=
  match s with
  | "" => [""]
  | String c s' =>
      if Ascii.eqb c sep then [""; s']
      else match split1 s' sep with
           | [] => [String c ""]
           | h :: t => String c h :: t
           end
  end.

(** [a, b = l] *)
Definition unpack2 (l : list string) : result (string * string) :=
  match l with
  | [a; b] => Ok (a, b)
  | _ => Raise (ValueError_unpack 2 (length l))
  end.

(** [os.path.basename] of [posixpath]: the text after the last slash. *)
Fixpoint basename (p : string) : string :=
  match p with
  | "" => ""
  | String c p' =>
      if contains "/" p' then basename p'
      else if Ascii.eqb c "/" then p' else p
  end.

(** Universal newlines on input: ["\r\n"] and a lone ["\r"] are read as
    ["\n"].  [after_cr] tells that the previous character was ["\r"]. *)
Fixpoint universal_newlines (after_cr : bool) (s : string) : string :=
  match s with
  | "" => ""
  | String c s' =>
      if Ascii.eqb c CR then String LF (universal_newlines true s')
      else if Ascii.eqb c LF then
        if after_cr then universal_newlines false s'
        else String LF (universal_newlines false s')
      else String c (universal_newlines false s')
  end.

(** The lines of a translated text, each with its ["\n"] except possibly
    the last. *)
Fixpoint lines_of (s : string) : list string :=
  match s with
  | "" => []
  | String c s' =>
      if Ascii.eqb c LF then nl :: lines_of s'
      else match lines_of s' with
           | [] => [String c ""]
           | l :: ls => String c l :: ls
           end
  end.

(** [f.readlines()], and [for line in f], of a file opened in text mode. *)
Definition readlines (text : string) : list string :=
  lines_of (universal_newlines false text).

(** [f.writelines(lines)] into a file just truncated. *)
Definition writelines (lines : list string) : string :=
  String.concat "" lines.

(** *** [int(s)] and [str(n)] *)

Definition is_digit (c : ascii) : bool :=
  let n := N_of_ascii c in ((48 <=? n) && (n <=? 57))%N.

Definition digit_value (c : ascii) : Z := Z.of_N (N_of_ascii c) - 48.

(** Decimal digits, single underscores allowed between two digits.
    [prev] tells that the previous character was a digit. *)
Fixpoint parse_digits (acc : Z) (prev : bool) (s : string) : option Z :=
  match s with
  | "" => if prev then Some acc else None
  | String c s' =>
      if is_digit c then parse_digits (10 * acc + digit_value c) true s'
      else if Ascii.eqb c "_" then
        if prev then parse_digits acc false s' else None
      else None
  end.

(** The whitespace [int] skips around a literal: the C whitespace,
    and, of the characters from 128 on, those [str.isspace] accepts.
    The separators 28..31 are whitespace for [str.strip] and not for
    [int]. *)
Definition int_isspace (c : ascii) : bool :=
  let n := N_of_ascii c in
  ((9 <=? n) && (n <=? 13) || (n =? 32) || (n =? 133) || (n =? 160))%N.

Fixpoint int_lstrip (s : string) : string :=
  match s with
  | "" => ""
  | String c s' => if int_isspace c then int_lstrip s' else s
  end.

Fixpoint int_rstrip (s : string) : string :=
  match s with
  | "" => ""
  | String c s' =>
      match int_rstrip s' with
      | "" => if int_isspace c then "" else String c ""
      | r => String c r
      end
  end.

Definition int (s : string) : result Z :=
  let of_option (o : option Z) :=
    match o with
    | Some z => Ok z
    | None => Raise (ValueError_int s)
    end in
  match int_rstrip (int_lstrip s) with
  | String "-" d => of_option (option_map Z.opp (parse_digits 0 false d))
  | String "+" d => of_option (parse_digits 0 false d)
  | d => of_option (parse_digits 0 false d)
  end.

(** [str(n)], as an f-string formats an [int]. *)
Definition str (n : Z) : string := NilZero.string_of_int (Z.to_int n).

(** [max(xs, default=d)] *)
Definition max_default (xs : list Z) (d : Z) : Z :=
  match xs with
  | [] => d
  | x :: xs' => fold_left Z.max xs' x
  end.

End Py.

Import Py.

(** ** Dictionaries and sets *)

(** A [dict] of strings: its items in insertion order.  Assigning to a key
    that is present keeps the key's position. *)
Definition dict : Type := list (string * string).

Fixpoint dict_set (d : dict) (k v : string) : dict :=
  match d with
  | [] => [(k, v)]
  | (k', v') :: d' =>
      if String.eqb k' k then (k', v) :: d' else (k', v') :: dict_set d' k v
  end.

Fixpoint dict_get (d : dict) (k : string) : option string :=
  match d with
  | [] => None
  | (k', v') :: d' => if String.eqb k' k then Some v' else dict_get d' k
  end.

(** [k in d] *)
Definition dict_mem (d : dict) (k : string) : bool :=
  match dict_get d k with
  | Some _ => true
  | None => false
  end.

Definition keys (d : dict) : list string := map fst d.
Definition values (d : dict) : list string := map snd d.

(** A [set] of strings is given by the elements put into it; [x in s] is
    membership among them. *)
Definition pyset : Type := list string.

Definition set_mem (x : string) (s : pyset) : bool :=
  existsb (String.eqb x) s.

(** Iterating over a set yields each of its elements once, in an order the
    language leaves open (it follows the hashes of the elements, which for
    strings change from one run of the interpreter to the next). *)
Record SetIteration : Type := {
  iter : pyset -> list string;
  iter_NoDup : forall s, NoDup (iter s);
  iter_In : forall s x, In x (iter s) <-> In x s
}.

(** ** The script *)

(** A change record, as [get_changes] builds it: [(filename, status)]. *)
Definition change : Type := (string * string)%type.

Definition get_changes_body (line : string) (output : list change)
    : result (list change) :=
  let stripped_line := strip line in
  if negb (String.eqb stripped_line "") then
    '(status, filename) <- unpack2 (split1 stripped_line TAB) ;;
    if endswith filename ".rgz" || endswith filename ".gpf" then
      Ok (output ++ [(basename filename, status)])
    else Ok output
  else Ok output.

(** [get_changes()], of the content of [CHANGED_FILES]. *)
Definition get_changes (changed_files : string) : result (list change) :=
  for_each (readlines changed_files) get_changes_body [].

Definition current_patchfile_body (line : string) (current : dict)
    : result dict :=
  if negb (startswith (strip line) "//") then
    '(num, file) <- unpack2 (split1 line " ") ;;
    Ok (dict_set current num (strip file))
  else Ok current.

(** [current_patchfile()], of the content of [PATCH_FILE]. *)
Definition current_patchfile (patch_file : string) : result dict :=
  for_each (readlines patch_file) current_patchfile_body [].

(** The comprehensions that sort the changes by status. *)
Definition with_status (st : string) (github_changes : list change)
    : list string :=
  map fst (filter (fun c => String.eqb (snd c) st) github_changes).

(** The body of the loop over [reversed(valid_entries.items())]. *)
Definition find_last_occurrences_body (deleted_files modified_files : pyset)
    (last_occurrences : dict) (item : string * string) : dict :=
  let '(num, filename) := item in
  if set_mem filename deleted_files || set_mem filename modified_files then
    if negb (dict_mem last_occurrences filename)
    then dict_set last_occurrences filename num
    else last_occurrences
  else last_occurrences.

Definition find_last_occurrences (deleted_files modified_files : pyset)
    (valid_entries : dict) : dict :=
  fold_left (find_last_occurrences_body deleted_files modified_files)
            (rev valid_entries) [].

(** [map(int, ks)] consumed to its end: the first key that is no integer
    literal raises. *)
Fixpoint map_int (ks : list string) : result (list Z) :=
  match ks with
  | [] => Ok []
  | k :: ks' => n <- int k ;; ns <- map_int ks' ;; Ok (n :: ns)
  end.

Definition update_line (last_occurrences : dict) (line : string)
    (updated_lines : list string) : result (list string) :=
  let stripped_line := strip line in
  if startswith stripped_line "//" then Ok (updated_lines ++ [line])
  else
    '(num, filename) <- unpack2 (split1 stripped_line " ") ;;
    if match dict_get last_occurrences filename with
       | Some n => String.eqb n num
       | None => false
       end
    then Ok (updated_lines ++ [("//" ++ line)%string])
    else Ok (updated_lines ++ [line]).

(** One of the two loops that append the new entries; the state is
    [(updated_lines, next_number)]. *)
Definition append_entries (filenames : list string)
    (st : list string * Z) : list string * Z :=
  fold_left
    (fun '(updated_lines, next_number) filename =>
       (updated_lines ++ [(nl ++ str next_number ++ " " ++ filename)%string],
        next_number + 1)%Z)
    filenames st.

(** [update_file_entries(file_path, valid_entries, github_changes)]: from
    the content of the file to the content written back.  The file is
    opened for writing only after everything else, so an exception leaves
    it as it was. *)
Definition update_file_entries (SI : SetIteration) (file : string)
    (valid_entries : dict) (github_changes : list change) : result string :=
  let lines := readlines file in
  let deleted_files : pyset := with_status "D" github_changes in
  let added_files := with_status "A" github_changes in
  let modified_files : pyset := with_status "M" github_changes in
  let last_occurrences :=
    find_last_occurrences deleted_files modified_files valid_entries in
  ids <- map_int (keys valid_entries) ;;
  let next_number := (max_default ids 0 + 1)%Z in
  updated_lines <- for_each lines (update_line last_occurrences) [] ;;
  let st := append_entries added_files (updated_lines, next_number) in
  let st := append_entries (iter SI modified_files) st in
  Ok (writelines (fst st)).

(** *** The publisher *)

(** The version-control command runner is outside the program: it is a
    function from the state of the world and a command line to what
    [subprocess.run] observes and the new state of the world. *)
Inductive outcome : Type :=
| Exited (returncode : Z)
| NotStarted.   (* the executable could not be launched *)

(** What the publisher does that can be seen from outside: its calls of
    [subprocess.run], each with the command line passed, whether or not
    the command could be started, and what it prints. *)
Inductive event : Type :=
| Called (cmd : list string)
| Printed (text : string)
| PrintedError (text : string) (e : exn).

(** An argument with a NUL character cannot be passed to a process. *)
Definition has_nul (cmd : list string) : bool :=
  existsb (contains "000"%char) cmd.

Section Publisher.

Variable world : Type.
Variable runner : world -> list string -> outcome * world.

(** The state the publisher threads: the world and the log of its calls
    and of what it printed. *)
Definition pstate : Type := (world * list event)%type.

(** [subprocess.run(cmd, check=True)].  The arguments are converted
    before anything is launched: a NUL character in one of them raises
    [ValueError], and the runner is not reached.  Otherwise the command
    is handed to the runner; with [check=True] a status other than 0
    raises [CalledProcessError], and a command that could not be launched
    raises [OSError]. *)
Definition subprocess_run (cmd : list string) (st : pstate)
    : result unit * pstate :=
  let '(w, log) := st in
  if has_nul cmd then (Raise ValueError_null_byte, (w, log ++ [Called cmd]))
  else
    let '(o, w') := runner w cmd in
    let st' := (w', log ++ [Called cmd]) in
    match o with
    | Exited 0 => (Ok tt, st')
    | Exited rc => (Raise (CalledProcessError cmd rc), st')
    | NotStarted => (Raise (OSError cmd), st')
    end.

Definition print (e : event) (st : pstate) : result unit * pstate :=
  (Ok tt, (fst st, snd st ++ [e])).

(** Sequencing of statements; an exception skips what follows. *)
Definition seq (a b : pstate -> result unit * pstate) (st : pstate)
    : result unit * pstate :=
  match a st with
  | (Ok _, st') => b st'
  | (Raise e, st') => (Raise e, st')
  end.

(** [try: body except subprocess.CalledProcessError as e: handler(e)] *)
Definition try_except_CalledProcessError
    (body : pstate -> result unit * pstate)
    (handler : exn -> pstate -> result unit * pstate) (st : pstate)
    : result unit * pstate :=
  match body st with
  | (Raise (CalledProcessError cmd rc), st') =>
      handler (CalledProcessError cmd rc) st'
  | r => r
  end.

(** The five command lines, in the order they are run. *)
Definition git_commands (file_path commit_message : string)
    : list (list string) :=
  [ ["git"; "config"; "--global"; "user.name"; "github-actions"];
    ["git"; "config"; "--global"; "user.email"; "github-actions@github.com"];
    ["git"; "add"; file_path];
    ["git"; "commit"; "-m"; commit_message];
    ["git"; "push"] ].

Definition commit_and_push_file (file_path commit_message : string)
    : pstate -> result unit * pstate :=
  try_except_CalledProcessError
    (seq (subprocess_run
            ["git"; "config"; "--global"; "user.name"; "github-actions"])
    (seq (subprocess_run
            ["git"; "config"; "--global"; "user.email";
             "github-actions@github.com"])
    (seq (subprocess_run ["git"; "add"; file_path])
    (seq (subprocess_run ["git"; "commit"; "-m"; commit_message])
    (seq (subprocess_run ["git"; "push"])
         (print
            (Printed
               ("Successfully committed and pushed " ++ file_path)%string)))))))
    (fun e => print (PrintedError "Error committing and pushing file:" e)).

End Publisher.

(** The script's [__main__] up to the publisher: both files read, then the
    manifest rewritten. *)
Definition update_manifest (SI : SetIteration)
    (changed_files patch_file : string) : result string :=
  changes <- get_changes changed_files ;;
  entries <- current_patchfile patch_file ;;
  update_file_entries SI patch_file entries changes.

(** ** Two iteration orders *)

(** The distinct elements in the order they first occur. *)
Fixpoint distinct (xs : list string) : list string :=
  match xs with
  | [] => []
  | x :: xs' => x :: filter (fun y => negb (String.eqb y x)) (distinct xs')
  end.

(** Elements come out in the order they were first put in. *)
Definition insertion_order : SetIteration.
Proof.
  refine {| iter := distinct |}.
  - intro s. induction s as [|a s IH]; simpl; constructor.
    + rewrite filter_In, negb_true_iff, String.eqb_neq. tauto.
    + now apply NoDup_filter.
  - intros s x. induction s as [|a s IH]; simpl; [tauto|].
    rewrite filter_In, IH, negb_true_iff, String.eqb_neq.
    destruct (string_dec a x) as [->|Hne]; [tauto|].
    split; [tauto|]. intros [H|H]; [auto|right; split; [exact H|congruence]].
Defined.

(** Elements come out in the opposite order. *)
Definition reverse_order : SetIteration.
Proof.
  refine {| iter := fun s => rev (distinct s) |}.
  - intro s. apply NoDup_rev, (iter_NoDup insertion_order).
  - intros s x. rewrite <- in_rev. apply (iter_In insertion_order).
Defined.

(** *** The script as a whole *)

Definition CHANGED_FILES : string := "changed_files.txt".
Definition PATCH_FILE : string := "patch/patchlist/patch9.txt".

(** The two files the script works on, by their content. *)
Record files : Type := {
  changed_files_txt : string;
  patch9_txt : string
}.

Section Main.

Variable world : Type.

(** The commands see the files as they are when they are run. *)
Variable runner : files -> world -> list string -> outcome * world.

(** The [__main__] block: the result or exception of the script, the files
    it leaves and the state of the publisher.  An exception of the readers
    or of the updater ends the script before the file is written and
    before any command. *)
Definition main (SI : SetIteration) (fs : files) (w : world)
    : result unit * files * pstate world :=
  match update_manifest SI (changed_files_txt fs) (patch9_txt fs) with
  | Raise e => (Raise e, fs, (w, []))
  | Ok out =>
      let fs' := {| changed_files_txt := changed_files_txt fs;
                    patch9_txt := out |} in
      let '(r, st) :=
        commit_and_push_file world (runner fs') PATCH_FILE
                             "Update patch file [skip ci]" (w, []) in
      (r, fs', st)
  end.

End Main.

(** ** Notions the properties are stated with *)

(** A line the readers and the updater take for a comment. *)
Definition is_comment (line : string) : bool := startswith (strip line) "//".

(** A line without anything but whitespace. *)
Definition is_blank (line : string) : bool := String.eqb (strip line) "".

(** The entry the manifest reader takes from a line: the identifier is the
    text before the first space, the filename the stripped text after. *)
Definition line_entry (line : string) (e : string * string) : Prop :=
  exists rest,
    line = (fst e ++ " " ++ rest)%string /\
    contains " " (fst e) = false /\ snd e = strip rest.

(** [v] is the value of the last of the [entries] that have key [k]. *)
Definition last_value (entries : list (string * string)) (k v : string)
    : Prop :=
  exists before after,
    entries = before ++ (k, v) :: after /\ ~ In k (map fst after).

(** [(num, filename)] is the last item of the mapping with that
    filename, in the mapping's iteration order. *)
Definition is_last_occurrence (valid_entries : dict) (filename num : string)
    : Prop :=
  exists before after,
    valid_entries = before ++ (num, filename) :: after /\
    ~ In filename (values after).

(** The assignments [d[k] = v] for the entries in turn. *)
Definition assign (d : dict) (entries : list (string * string)) : dict :=
  fold_left (fun d e => dict_set d (fst e) (snd e)) entries d.

(** The value the last of the entries with key [k] has, if any. *)
Fixpoint lookup_last (entries : list (string * string)) (k : string)
    : option string :=
  match entries with
  | [] => None
  | (k', v) :: entries' =>
      match lookup_last entries' k with
      | Some w => Some w
      | None => if String.eqb k' k then Some v else None
      end
  end.

(** The lines written for new entries with the identifiers [n], [n+1],
    ... *)
Fixpoint new_entries (n : Z) (filenames : list string) : list string :=
  match filenames with
  | [] => []
  | f :: fs => (nl ++ str n ++ " " ++ f)%string :: new_entries (n + 1) fs
  end.

(** The number of change records [(filename, status)]. *)
Definition records (status filename : string) (changes : list change)
    : nat :=
  length (filter (fun c => String.eqb (fst c) filename
                           && String.eqb (snd c) status) changes).

(** The mapping read the other way round: from filename to identifier. *)
Definition by_filename (valid_entries : dict) : list (string * string) :=
  map (fun e => (snd e, fst e)) valid_entries.

(** [filename] is deleted or modified in the change list. *)
Definition outdated (changes : list change) (filename : string) : Prop :=
  In (filename, "D") changes \/ In (filename, "M") changes.

(** The updater deactivates [line]: it is no comment, it reads
    [num filename] once stripped, the filename is deleted or modified and
    [(num, filename)] is that filename's last item in the mapping. *)
Definition deactivated (valid_entries : dict) (changes : list change)
    (line num filename : string) : Prop :=
  is_comment line = false /\
  strip line = (num ++ " " ++ filename)%string /\
  contains " " num = false /\
  outdated changes filename /\
  is_last_occurrence valid_entries filename num.

(** What the updater writes for a line of the manifest. *)
Definition rewritten (valid_entries : dict) (changes : list change)
    (line line' : string) : Prop :=
  (exists num filename,
      deactivated valid_entries changes line num filename) /\
  line' = ("//" ++ line)%string
  \/
  ~ (exists num filename,
        deactivated valid_entries changes line num filename) /\
  line' = line.

(** A line kept as it is or commented out. *)
Definition kept_or_commented (line line' : string) : Prop :=
  line' = line \/ line' = ("//" ++ line)%string.

(** A change record for one of the two kinds of file the reader lets
    through. *)
Definition asset (c : change) : Prop :=
  endswith (fst c) ".rgz" = true \/ endswith (fst c) ".gpf" = true.

(** A line the updater can take in: a comment, or a line with a space
    once stripped. *)
Definition well_formed_line (line : string) : bool :=
  is_comment line || contains " " (strip line).

(** A key that [int] accepts. *)
Definition int_literal (k : string) : Prop := exists n, int k = Ok n.

(** The interpreter's default limit on the digits of a conversion
    between a text and an integer. *)
Definition max_str_digits : Z := 4300.

(** Keys shorter than the limit and fewer than [2 ^ 64] change records:
    every key the updater reads then has fewer digits than the limit, and
    every identifier it writes, which is at most the greatest key plus
    one plus the number of the records, has no more digits than the
    limit ([within_digit_limit_sound]). *)
Definition within_digit_limit (valid_entries : dict)
    (changes : list change) : Prop :=
  Forall (fun k => (Z.of_nat (String.length k) < max_str_digits)%Z)
         (keys valid_entries) /\
  (Z.of_nat (length changes) < 2 ^ 64)%Z.

(** A text of whitespace only. *)
Fixpoint all_space (s : string) : bool :=
  match s with
  | "" => true
  | String c s' => isspace c && all_space s'
  end.

(** A text of digits. *)
Fixpoint all_digits (s : string) : bool :=
  match s with
  | "" => true
  | String c s' => is_digit c && all_digits s'
  end.

(** The commands [cmds], run in turn from the world [w], all exit with
    status 0 and leave the world [w']; to be run at all, a command is to
    be free of NUL characters. *)
Fixpoint all_succeed {world : Type}
    (runner : world -> list string -> outcome * world)
    (w : world) (cmds : list (list string)) (w' : world) : Prop :=
  match cmds with
  | [] => w' = w
  | cmd :: cmds' =>
      has_nul cmd = false /\
      exists w1, runner w cmd = (Exited 0, w1) /\
                 all_succeed runner w1 cmds' w'
  end.

(** A runner whose fifth command, counted by the world, exits with
    status 1. *)
Definition push_fails (w : nat) (cmd : list string) : outcome * nat :=
  (if Nat.eqb w 4 then Exited 1 else Exited 0, S w).

(** A runner on a machine without the executable: no command can be
    launched. *)
Definition git_missing (w : nat) (cmd : list string) : outcome * nat :=
  (NotStarted, w).

(** ** Further notions *)

(** A status the updater acts on. *)
Definition known_status (c : change) : bool :=
  String.eqb (snd c) "D" || String.eqb (snd c) "A" || String.eqb (snd c) "M".

(** A line of the change report the reader can take in: blank, or with a
    tab once stripped. *)
Definition report_line_ok (line : string) : bool :=
  is_blank line || contains TAB (strip line).

(** A line of the manifest the reader can take in: a comment, or a line
    with a space. *)
Definition manifest_line_ok (line : string) : bool :=
  is_comment line || contains " " line.

(** A runner that cannot launch its third command. *)
Definition add_not_started (w : nat) (cmd : list string) : outcome * nat :=
  (if Nat.eqb w 2 then NotStarted else Exited 0, S w).

(** The commands [subprocess.run] was called on, by a log, and the
    messages of the log. *)
Definition commands_of (log : list event) : list (list string) :=
  flat_map (fun e => match e with Called cmd => [cmd] | _ => [] end) log.

Definition messages_of (log : list event) : list event :=
  filter (fun e => match e with Called _ => false | _ => true end) log.

(** A manifest line written tidily: a comment, or an identifier, one
    space and a filename, with no whitespace before the identifier nor
    between the space and the filename. *)
Definition tidy_line (line : string) : Prop :=
  is_comment line = true \/
  exists num rest,
    line = (num ++ " " ++ rest)%string /\ contains " " num = false /\
    lstrip line = line /\ lstrip rest = rest /\ strip rest <> "".

(** What the script writes for a line of a tidy manifest, in terms of
    the entry the reader takes from the line. *)
Definition rewritten_entry (valid_entries : dict) (changes : list change)
    (line line' : string) : Prop :=
  if is_comment line then line' = line
  else
    exists num f,
      line_entry line (num, f) /\
      (outdated changes f /\ is_last_occurrence valid_entries f num /\
       line' = ("//" ++ line)%string
       \/
       ~ (outdated changes f /\ is_last_occurrence valid_entries f num) /\
       line' = line).

(** A status and a path as a report line holds them: no newline or
    carriage return, no tab in the status, no whitespace before the
    status nor after the path. *)
Definition plain_record (status path : string) : Prop :=
  status <> "" /\ lstrip status = status /\ contains TAB status = false /\
  path <> "" /\ rstrip path = path /\
  contains LF (status ++ path) = false /\
  contains CR (status ++ path) = false.

(** A line the next run can take in: a comment, or a line the updater
    accepts whose text before the first space is an integer literal. *)
Definition readable_line (line : string) : Prop :=
  is_comment line = true \/
  well_formed_line line = true /\
  exists num rest,
    line = (num ++ " " ++ rest)%string /\ contains " " num = false /\
    int_literal num.

(** A line that ends with its newline, and a line left open. *)
Definition terminated (line : string) : Prop :=
  exists body, contains LF body = false /\ line = (body ++ nl)%string.

Definition open_line (line : string) : Prop :=
  line <> "" /\ contains LF line = false.

(** Lines of which all but the last end with a newline and the last is
    left open. *)
Fixpoint open_ended (lines : list string) : Prop :=
  match lines with
  | [] => False
  | line :: lines' =>
      match lines' with
      | [] => open_line line
      | _ :: _ => terminated line /\ open_ended lines'
      end
  end.

(** The new entries without the newline before each. *)
Fixpoint entry_bodies (n : Z) (filenames : list string) : list string :=
  match filenames with
  | [] => []
  | f :: fs => (str n ++ " " ++ f)%string :: entry_bodies (n + 1) fs
  end.

(** The open line [line] and the texts [bodies], each put after a
    newline, as lines. *)
Fixpoint shift (line : string) (bodies : list string) : list string :=
  match bodies with
  | [] => [line]
  | b :: bs => (line ++ nl)%string :: shift b bs
  end.

(** The lines of the text written from open-ended [lines] and new
    entries. *)
Fixpoint reline (lines bodies : list string) : list string :=
  match lines with
  | [] => []
  | line :: lines' =>
      match lines' with
      | [] => shift line bodies
      | _ :: _ => line :: reline lines' bodies
      end
  end.

(** ** Facts about the builtins *)

Lemma bind_Ok {A B : Type} (r : result A) (k : A -> result B) (b : B) :
  bind r k = Ok b -> exists a, r = Ok a /\ k a = Ok b.
Proof. destruct r as [a|e]; simpl; [eauto | discriminate]. Qed.

Lemma for_each_app {A S : Type} (xs ys : list A) (body : A -> S -> result S)
    (s : S) :
  for_each (xs ++ ys) body s = s' <- for_each xs body s ;; for_each ys body s'.
Proof.
  revert s. induction xs as [|x xs IH]; intro s; simpl; [reflexivity|].
  destruct (body x s) as [s'|e]; simpl; [apply IH | reflexivity].
Qed.

(** A loop whose body can only raise [e], and does raise it on one of the
    elements whatever the state, raises [e]. *)
Lemma for_each_raises {A S : Type} (body : A -> S -> result S) (e : exn)
    (xs : list A) (x : A) (s : S) :
  (forall y t e', body y t = Raise e' -> e' = e) ->
  In x xs -> (forall t, body x t = Raise e) ->
  for_each xs body s = Raise e.
Proof.
  intros Honly Hin Hx. revert s.
  induction xs as [|y xs IH]; intro s; [destruct Hin|].
  simpl. destruct (body y s) as [s'|e'] eqn:Hy; simpl.
  - destruct Hin as [->|Hin]; [rewrite Hx in Hy; discriminate | now apply IH].
  - f_equal. eapply Honly, Hy.
Qed.


Lemma for_each_filter {A S : Type} (body : A -> S -> result S)
    (keep : A -> bool) (xs : list A) (s : S) :
  (forall x t, keep x = false -> body x t = Ok t) ->
  for_each xs body s = for_each (filter keep xs) body s.
Proof.
  intro Hskip. revert s. induction xs as [|x xs IH]; intro s; [reflexivity|].
  simpl. destruct (keep x) eqn:Hk; simpl.
  - destruct (body x s); simpl; [apply IH | reflexivity].
  - rewrite (Hskip _ _ Hk). simpl. apply IH.
Qed.

Module PyFacts.

Lemma append_nil_r (s : string) : (s ++ "")%string = s.
Proof. induction s as [|c s IH]; simpl; [reflexivity | now rewrite IH]. Qed.

Lemma append_assoc (a b c : string) :
  ((a ++ b) ++ c)%string = (a ++ (b ++ c))%string.
Proof. induction a as [|x a IH]; simpl; [reflexivity | now rewrite IH]. Qed.

Lemma writelines_cons (l : string) (ls : list string) :
  writelines (l :: ls) = (l ++ writelines ls)%string.
Proof.
  unfold writelines. destruct ls as [|l' ls]; simpl;
    [now rewrite append_nil_r | reflexivity].
Qed.

Lemma writelines_app (xs ys : list string) :
  writelines (xs ++ ys) = (writelines xs ++ writelines ys)%string.
Proof.
  induction xs as [|x xs IH]; [reflexivity|].
  rewrite <- app_comm_cons, !writelines_cons, IH. now rewrite append_assoc.
Qed.

(** Reading the lines loses nothing of the translated text. *)
Lemma writelines_lines_of (s : string) : writelines (lines_of s) = s.
Proof.
  induction s as [|c s IH]; [reflexivity|].
  simpl. destruct (Ascii.eqb_spec c LF) as [->|Hc].
  - now rewrite writelines_cons, IH.
  - destruct (lines_of s) as [|l ls].
    + simpl in IH. now rewrite <- IH.
    + rewrite writelines_cons in *. simpl. now rewrite IH.
Qed.

(** *** [split] *)

Lemma split1_no_sep (s : string) (sep : ascii) :
  contains sep s = false -> split1 s sep = [s].
Proof.
  induction s as [|c s IH]; simpl; [reflexivity|].
  intro H. apply orb_false_iff in H as [Hc Hs].
  rewrite Hc, (IH Hs). reflexivity.
Qed.

Lemma split1_sep (s : string) (sep : ascii) :
  contains sep s = true ->
  exists a b, split1 s sep = [a; b] /\ s = (a ++ String sep b)%string
              /\ contains sep a = false.
Proof.
  induction s as [|c s IH]; simpl; [discriminate|].
  destruct (Ascii.eqb_spec c sep) as [->|Hc]; simpl.
  - intros _. exists "", s. auto.
  - intro H. destruct (IH H) as (a & b & E & -> & Ha).
    rewrite E. exists (String c a), b. simpl.
    repeat split; auto.
    apply Ascii.eqb_neq in Hc. now rewrite Hc.
Qed.

Lemma unpack2_split1_Ok (s : string) (sep : ascii) (a b : string) :
  unpack2 (split1 s sep) = Ok (a, b) ->
  s = (a ++ String sep b)%string /\ contains sep a = false.
Proof.
  destruct (contains sep s) eqn:Hc.
  - destruct (split1_sep _ _ Hc) as (a' & b' & -> & -> & Ha).
    simpl. intros [= -> ->]. auto.
  - rewrite (split1_no_sep _ _ Hc). discriminate.
Qed.

Lemma unpack2_split1_Raise (s : string) (sep : ascii) (e : exn) :
  unpack2 (split1 s sep) = Raise e ->
  e = ValueError_unpack 2 1 /\ contains sep s = false.
Proof.
  destruct (contains sep s) eqn:Hc.
  - destruct (split1_sep _ _ Hc) as (a' & b' & -> & _). discriminate.
  - rewrite (split1_no_sep _ _ Hc). simpl. intros [= <-]. auto.
Qed.

Lemma unpack2_split1_no_sep (s : string) (sep : ascii) :
  contains sep s = false ->
  unpack2 (split1 s sep) = Raise (ValueError_unpack 2 1).
Proof. intro H. now rewrite (split1_no_sep _ _ H). Qed.

(** *** [strip] keeps a part of the text *)

Lemma contains_lstrip (c : ascii) (s : string) :
  contains c (lstrip s) = true -> contains c s = true.
Proof.
  induction s as [|a s IH]; simpl; [discriminate|].
  destruct (isspace a); simpl; [|tauto].
  intro H. rewrite (IH H). apply orb_true_r.
Qed.

Lemma contains_rstrip (c : ascii) (s : string) :
  contains c (rstrip s) = true -> contains c s = true.
Proof.
  induction s as [|a s IH]; simpl; [discriminate|].
  destruct (rstrip s) as [|b r].
  - destruct (isspace a); simpl; [discriminate|].
    rewrite orb_false_r. intros ->. reflexivity.
  - simpl in *. intro H. apply orb_true_iff in H as [H|H].
    + now rewrite H.
    + rewrite (IH H). apply orb_true_r.
Qed.

Lemma contains_strip (c : ascii) (s : string) :
  contains c s = false -> contains c (strip s) = false.
Proof.
  intro H. destruct (contains c (strip s)) eqn:E; [|reflexivity].
  apply contains_rstrip, contains_lstrip in E. congruence.
Qed.

End PyFacts.
Import PyFacts.

(** ** Dictionaries *)

Lemma distinct_In (xs : list string) (x : string) :
  In x (distinct xs) <-> In x xs.
Proof. exact (iter_In insertion_order xs x). Qed.

Lemma distinct_NoDup (xs : list string) : NoDup (distinct xs).
Proof. exact (iter_NoDup insertion_order xs). Qed.

Lemma filter_comm {A : Type} (p q : A -> bool) (l : list A) :
  filter p (filter q l) = filter q (filter p l).
Proof.
  induction l as [|b l IH]; [reflexivity|].
  simpl. destruct (p b) eqn:Hp, (q b) eqn:Hq; simpl;
    rewrite ?Hp, ?Hq, IH; reflexivity.
Qed.

Lemma filter_without (p : string -> bool) (a : string) (l : list string) :
  p a = false ->
  filter p (filter (fun y => negb (String.eqb y a)) l) = filter p l.
Proof.
  intro Hp. induction l as [|b l IH]; [reflexivity|].
  simpl. destruct (String.eqb_spec b a) as [->|Hne]; simpl.
  - now rewrite Hp.
  - now rewrite IH.
Qed.

Lemma distinct_filter (p : string -> bool) (xs : list string) :
  filter p (distinct xs) = distinct (filter p xs).
Proof.
  induction xs as [|a xs IH]; [reflexivity|].
  simpl. destruct (p a) eqn:Hp; simpl.
  - now rewrite filter_comm, IH.
  - now rewrite filter_without, IH.
Qed.

Lemma distinct_app_seen (xs ys : list string) (k : string) :
  In k xs -> distinct (xs ++ k :: ys) = distinct (xs ++ ys).
Proof.
  induction xs as [|a xs IH]; [intros []|].
  intros [->|Hin]; simpl; f_equal.
  - rewrite !distinct_filter, !filter_app. simpl.
    now rewrite String.eqb_refl.
  - now rewrite IH.
Qed.

Lemma dict_get_set (d : dict) (k v k' : string) :
  dict_get (dict_set d k v) k' =
  if String.eqb k k' then Some v else dict_get d k'.
Proof.
  induction d as [|[a b] d IH]; simpl; [reflexivity|].
  destruct (String.eqb_spec a k) as [->|Hak]; simpl.
  - destruct (String.eqb k k'); reflexivity.
  - rewrite IH. destruct (String.eqb_spec a k') as [->|Hak'].
    + destruct (String.eqb_spec k k'); [congruence | reflexivity].
    + reflexivity.
Qed.

Lemma dict_get_None (d : dict) (k : string) :
  dict_get d k = None <-> ~ In k (keys d).
Proof.
  induction d as [|[a b] d IH]; simpl; [tauto|].
  destruct (String.eqb_spec a k) as [->|Hak].
  - split; [discriminate | tauto].
  - rewrite IH. tauto.
Qed.

Lemma keys_dict_set (d : dict) (k v : string) :
  keys (dict_set d k v) = if dict_mem d k then keys d else keys d ++ [k].
Proof.
  unfold dict_mem.
  induction d as [|[a b] d IH]; simpl; [reflexivity|].
  destruct (String.eqb a k); simpl; [reflexivity|].
  rewrite IH. destruct (dict_get d k); reflexivity.
Qed.

Lemma dict_set_fresh (d : dict) (k v : string) :
  ~ In k (keys d) -> dict_set d k v = d ++ [(k, v)].
Proof.
  induction d as [|[a b] d IH]; simpl; [reflexivity|].
  intro H. destruct (String.eqb_spec a k) as [->|Hak]; [tauto|].
  rewrite IH; tauto.
Qed.

Lemma keys_assign (d : dict) (es : list (string * string)) :
  distinct (keys (assign d es)) = distinct (keys d ++ map fst es).
Proof.
  revert d. induction es as [|[k v] es IH]; intro d; simpl.
  - now rewrite app_nil_r.
  - unfold assign in *. simpl. rewrite IH, keys_dict_set.
    unfold dict_mem. destruct (dict_get d k) eqn:E.
    + symmetry. apply distinct_app_seen.
      destruct (in_dec string_dec k (keys d)) as [Hin|Hout]; [exact Hin|].
      apply dict_get_None in Hout. congruence.
    + now rewrite <- app_assoc.
Qed.

Lemma NoDup_keys_dict_set (d : dict) (k v : string) :
  NoDup (keys d) -> NoDup (keys (dict_set d k v)).
Proof.
  intro H. rewrite keys_dict_set. unfold dict_mem.
  destruct (dict_get d k) eqn:E; [exact H|].
  apply dict_get_None in E.
  apply NoDup_app; [exact H | repeat constructor; simpl; tauto |].
  intros x Hx [<-|[]]. tauto.
Qed.

Lemma NoDup_keys_assign (d : dict) (es : list (string * string)) :
  NoDup (keys d) -> NoDup (keys (assign d es)).
Proof.
  revert d. induction es as [|[k v] es IH]; intros d H; [exact H|].
  apply IH, NoDup_keys_dict_set, H.
Qed.

Lemma distinct_NoDup_id (xs : list string) : NoDup xs -> distinct xs = xs.
Proof.
  induction 1 as [|a xs Ha _ IH]; [reflexivity|].
  simpl. rewrite IH. f_equal.
  apply forallb_filter_id, forallb_forall. intros x Hx.
  apply negb_true_iff, String.eqb_neq. congruence.
Qed.

Lemma dict_get_assign (d : dict) (es : list (string * string)) (k : string) :
  dict_get (assign d es) k =
  match lookup_last es k with
  | Some v => Some v
  | None => dict_get d k
  end.
Proof.
  revert d. induction es as [|[a b] es IH]; intro d; [reflexivity|].
  unfold assign in *. simpl. rewrite IH, dict_get_set.
  destruct (lookup_last es k); [reflexivity|].
  destruct (String.eqb a k); reflexivity.
Qed.

Lemma lookup_last_None (es : list (string * string)) (k : string) :
  lookup_last es k = None <-> ~ In k (map fst es).
Proof.
  induction es as [|[a b] es IH]; simpl; [tauto|].
  destruct (lookup_last es k) eqn:E.
  - split; [discriminate|]. intro H. exfalso.
    assert (Hn : ~ In k (map fst es)) by tauto.
    apply IH in Hn. discriminate.
  - destruct (String.eqb_spec a k) as [->|Hak].
    + split; [discriminate | tauto].
    + split; [|reflexivity]. intros _ [H|H]; [congruence|].
      now apply IH in H.
Qed.

Lemma lookup_last_spec (es : list (string * string)) (k v : string) :
  lookup_last es k = Some v <-> last_value es k v.
Proof.
  unfold last_value. induction es as [|[a b] es IH]; simpl.
  - split; [discriminate|]. intros (before & after & E & _).
    destruct before; discriminate.
  - destruct (lookup_last es k) as [w|] eqn:E.
    + split.
      * intros [= ->]. destruct (proj1 IH eq_refl) as (bf & af & -> & Hn).
        exists ((a, b) :: bf), af. auto.
      * intros (bf & af & Heq & Hn). destruct bf as [|x bf]; simpl in Heq.
        -- injection Heq as -> -> ->.
           apply lookup_last_None in Hn. congruence.
        -- injection Heq as <- ->. apply IH. eauto.
    + apply lookup_last_None in E.
      destruct (String.eqb_spec a k) as [->|Hak].
      * split.
        -- intros [= ->]. exists [], es. auto.
        -- intros (bf & af & Heq & Hn). destruct bf as [|x bf]; simpl in Heq.
           ++ now injection Heq as -> ->.
           ++ injection Heq as <- ->. exfalso. apply E.
              rewrite map_app. apply in_or_app. right. now left.
      * split; [discriminate|].
        intros (bf & af & Heq & Hn). destruct bf as [|x bf]; simpl in Heq.
        -- injection Heq as -> ->. congruence.
        -- injection Heq as <- ->. exfalso. apply E.
           rewrite map_app. apply in_or_app. right. now left.
Qed.

Lemma assign_NoDup (d : dict) (es : list (string * string)) :
  NoDup (keys d ++ map fst es) -> assign d es = d ++ es.
Proof.
  revert d. induction es as [|[k v] es IH]; intros d H; simpl.
  - now rewrite app_nil_r.
  - unfold assign in *. simpl.
    assert (Hk : ~ In k (keys d)).
    { intro Hin. apply NoDup_remove_2 in H. apply H, in_or_app. now left. }
    rewrite (dict_set_fresh _ _ _ Hk), IH.
    + now rewrite <- app_assoc.
    + unfold keys in *. rewrite map_app, <- app_assoc. exact H.
Qed.

(** ** The change-report reader *)

Lemma get_changes_body_blank (line : string) (output : list change) :
  is_blank line = true -> get_changes_body line output = Ok output.
Proof.
  unfold is_blank, get_changes_body. intros ->. reflexivity.
Qed.

Lemma get_changes_body_Raise (line : string) (output : list change)
    (e : exn) :
  get_changes_body line output = Raise e -> e = ValueError_unpack 2 1.
Proof.
  unfold get_changes_body.
  destruct (negb (strip line =? "")%string); [|discriminate].
  destruct (unpack2 (split1 (strip line) TAB)) as [[status filename]|e']
    eqn:E; simpl.
  - destruct (endswith filename ".rgz" || endswith filename ".gpf");
      discriminate.
  - intros [= <-]. now apply unpack2_split1_Raise in E.
Qed.

Lemma get_changes_body_no_tab (line : string) (output : list change) :
  is_blank line = false -> contains TAB line = false ->
  get_changes_body line output = Raise (ValueError_unpack 2 1).
Proof.
  unfold is_blank, get_changes_body. intros -> Htab. simpl.
  now rewrite (unpack2_split1_no_sep _ _ (contains_strip _ _ Htab)).
Qed.

(** C6.  The change-report reader passes over blank lines: its result is
    that of its loop over the non-blank lines alone.  And when some
    non-blank line of the report holds no tab, the reader raises the
    unpacking [ValueError], which nothing catches, so that the script
    ends with it: the line is never passed over. *)
Theorem get_changes_blank_lines_and_missing_tab (changed_files : string) :
  get_changes changed_files =
    for_each (filter (fun line => negb (is_blank line))
                     (readlines changed_files))
             get_changes_body []
  /\
  (forall line,
      In line (readlines changed_files) ->
      is_blank line = false -> contains TAB line = false ->
      get_changes changed_files = Raise (ValueError_unpack 2 1) /\
      forall SI patch_file,
        update_manifest SI changed_files patch_file
        = Raise (ValueError_unpack 2 1)).
Proof.
  split.
  - apply for_each_filter. intros line output H.
    apply get_changes_body_blank. now apply negb_false_iff in H.
  - intros line Hin Hblank Htab.
    assert (H : get_changes changed_files = Raise (ValueError_unpack 2 1)).
    { apply for_each_raises with (x := line); [|exact Hin|].
      - exact get_changes_body_Raise.
      - intro output. now apply get_changes_body_no_tab. }
    split; [exact H|]. intros SI patch_file.
    unfold update_manifest. now rewrite H.
Qed.

(** A report with a blank line and then a line without a tab. *)
Lemma get_changes_missing_tab_witness :
  get_changes ("A" ++ String TAB "x.rgz" ++ nl ++ nl ++ "M x.gpf" ++ nl)
  = Raise (ValueError_unpack 2 1).
Proof.
  apply (proj2 (get_changes_blank_lines_and_missing_tab
                  ("A" ++ String TAB "x.rgz" ++ nl ++ nl ++ "M x.gpf" ++ nl))
               ("M x.gpf" ++ nl)%string).
  - vm_compute. tauto.
  - reflexivity.
  - reflexivity.
Defined.

(** ** The manifest reader *)

Lemma current_patchfile_body_comment (line : string) (current : dict) :
  negb (is_comment line) = false ->
  current_patchfile_body line current = Ok current.
Proof.
  unfold is_comment, current_patchfile_body. intros ->. reflexivity.
Qed.

Lemma current_patchfile_body_Raise (line : string) (current : dict)
    (e : exn) :
  current_patchfile_body line current = Raise e -> e = ValueError_unpack 2 1.
Proof.
  unfold current_patchfile_body.
  destruct (negb (startswith (strip line) "//")); [|discriminate].
  destruct (unpack2 (split1 line " ")) as [[num file]|e'] eqn:E; simpl.
  - discriminate.
  - intros [= <-]. now apply unpack2_split1_Raise in E.
Qed.

Lemma current_patchfile_body_no_space (line : string) (current : dict) :
  is_comment line = false -> contains " " line = false ->
  current_patchfile_body line current = Raise (ValueError_unpack 2 1).
Proof.
  unfold is_comment, current_patchfile_body. intros -> Hsp. simpl.
  now rewrite (unpack2_split1_no_sep _ _ Hsp).
Qed.

(** A line that begins with two slashes is a comment. *)
Lemma startswith_slashes_is_comment (line : string) :
  startswith line "//" = true -> is_comment line = true.
Proof.
  unfold is_comment, strip.
  destruct line as [|a [|b rest]]; try discriminate.
  - cbn [startswith]. now rewrite andb_false_r.
  - cbn [startswith]. intro H. apply andb_true_iff in H as [Ha H].
    apply andb_true_iff in H as [Hb _].
    apply Ascii.eqb_eq in Ha as <-. apply Ascii.eqb_eq in Hb as <-.
    simpl. destruct (rstrip rest); reflexivity.
Qed.

(** The loop over lines that are no comments assigns their entries. *)
Lemma current_patchfile_loop (lines : list string) (d current : dict) :
  Forall (fun line => is_comment line = false) lines ->
  for_each lines current_patchfile_body d = Ok current ->
  exists entries,
    Forall2 line_entry lines entries /\ current = assign d entries.
Proof.
  intro Hact. revert d.
  induction Hact as [|line lines Hline _ IH]; intros d; simpl.
  - intros [= <-]. exists []. split; [constructor | reflexivity].
  - intro H. apply bind_Ok in H as (d' & Hbody & Hrest).
    unfold current_patchfile_body in Hbody. fold (is_comment line) in Hbody.
    rewrite Hline in Hbody. simpl in Hbody.
    apply bind_Ok in Hbody as ([num file] & Hsplit & [= <-]).
    apply unpack2_split1_Ok in Hsplit as [Heq Hnum].
    destruct (IH _ Hrest) as (entries & Hall & ->).
    exists ((num, strip file) :: entries). split; [|reflexivity].
    constructor; [|exact Hall]. exists file. simpl. auto.
Qed.

(** C7.  The manifest reader passes over comment lines, among them the
    lines that begin with two slashes; when it returns,
    the other lines each read [identifier filename] and the mapping holds
    their identifiers in the order of the file (an identifier met again
    keeps its place and takes the later filename), so that with
    identifiers all different the items are the entries of the file in
    order.  When a line that is no comment holds no space, the reader
    raises the unpacking [ValueError]. *)
Theorem current_patchfile_order_and_missing_space (patch_file : string) :
  (forall line, startswith line "//" = true -> is_comment line = true) /\
  (forall current,
      current_patchfile patch_file = Ok current ->
      exists entries,
        Forall2 line_entry
          (filter (fun line => negb (is_comment line)) (readlines patch_file))
          entries /\
        keys current = distinct (map fst entries) /\
        (forall k v, dict_get current k = Some v <-> last_value entries k v) /\
        (NoDup (map fst entries) -> current = entries))
  /\
  (forall line,
      In line (readlines patch_file) ->
      is_comment line = false -> contains " " line = false ->
      current_patchfile patch_file = Raise (ValueError_unpack 2 1)).
Proof.
  split; [exact startswith_slashes_is_comment|]. split.
  - intros current H. unfold current_patchfile in H.
    rewrite (for_each_filter _ (fun line => negb (is_comment line))) in H
      by (intros; now apply current_patchfile_body_comment).
    apply current_patchfile_loop in H as (entries & Hall & ->).
    + exists entries. repeat split.
      * exact Hall.
      * rewrite <- (distinct_NoDup_id (keys (assign [] entries))).
        -- apply keys_assign.
        -- apply NoDup_keys_assign. constructor.
      * rewrite dict_get_assign. intro H.
        apply lookup_last_spec.
        destruct (lookup_last entries k); [exact H | discriminate].
      * intro H. apply lookup_last_spec in H.
        rewrite dict_get_assign, H. reflexivity.
      * intro H. now apply assign_NoDup.
    + apply Forall_forall. intros line Hin.
      apply filter_In in Hin as [_ Hin]. now apply negb_true_iff in Hin.
  - intros line Hin Hcom Hsp.
    apply for_each_raises with (x := line); [|exact Hin|].
    + exact current_patchfile_body_Raise.
    + intro d. now apply current_patchfile_body_no_space.
Qed.

(** A manifest with a comment line, read in order. *)
Lemma current_patchfile_order_witness :
  exists entries,
    Forall2 line_entry ["1 a.rgz" ++ nl; "3 b.gpf"]%string entries /\
    keys [("1", "a.rgz"); ("3", "b.gpf")] = distinct (map fst entries) /\
    (forall k v,
        dict_get [("1", "a.rgz"); ("3", "b.gpf")] k = Some v <->
        last_value entries k v) /\
    (NoDup (map fst entries) -> [("1", "a.rgz"); ("3", "b.gpf")] = entries).
Proof.
  apply (proj1 (proj2 (current_patchfile_order_and_missing_space
                         ("1 a.rgz" ++ nl ++ "//2 a.rgz" ++ nl ++ "3 b.gpf")))).
  reflexivity.
Defined.

(** ** The manifest updater: its parts *)

Lemma set_mem_In (x : string) (s : pyset) : set_mem x s = true <-> In x s.
Proof.
  unfold set_mem. rewrite existsb_exists. split.
  - intros (y & Hin & Heq). apply String.eqb_eq in Heq. now subst.
  - intro H. exists x. split; [exact H | apply String.eqb_refl].
Qed.

Lemma with_status_In (st f : string) (changes : list change) :
  In f (with_status st changes) <-> In (f, st) changes.
Proof.
  unfold with_status. rewrite in_map_iff. split.
  - intros ([f' st'] & <- & H). apply filter_In in H as [H E].
    simpl in *. apply String.eqb_eq in E. now subst.
  - intro H. exists (f, st). split; [reflexivity|].
    apply filter_In. split; [exact H | apply String.eqb_refl].
Qed.

Lemma outdated_set_mem (changes : list change) (f : string) :
  set_mem f (with_status "D" changes) || set_mem f (with_status "M" changes)
  = true <-> outdated changes f.
Proof.
  unfold outdated.
  rewrite orb_true_iff, !set_mem_In, !with_status_In. reflexivity.
Qed.

Lemma is_last_occurrence_by_filename (ve : dict) (f num : string) :
  is_last_occurrence ve f num <-> last_value (by_filename ve) f num.
Proof.
  unfold is_last_occurrence, last_value, by_filename, values. split.
  - intros (bf & af & -> & Hn).
    exists (map (fun e => (snd e, fst e)) bf),
      (map (fun e => (snd e, fst e)) af).
    rewrite map_app, map_map. simpl. auto.
  - intros (bf & af & Heq & Hn).
    apply (f_equal (map (fun e : string * string => (snd e, fst e)))) in Heq.
    rewrite map_map, map_app in Heq. simpl in Heq.
    rewrite (map_ext _ (fun e => e)) in Heq by (now intros []).
    rewrite map_id in Heq. subst ve.
    eexists _, _. split; [reflexivity|].
    now rewrite map_map.
Qed.

Lemma is_last_occurrence_unique (ve : dict) (f num num' : string) :
  is_last_occurrence ve f num -> is_last_occurrence ve f num' -> num = num'.
Proof.
  rewrite !is_last_occurrence_by_filename, <- !lookup_last_spec. congruence.
Qed.

Lemma is_last_occurrence_In (ve : dict) (f num : string) :
  is_last_occurrence ve f num -> In (num, f) ve.
Proof.
  intros (bf & af & -> & _). apply in_or_app. right. now left.
Qed.

(** The reverse scan records, for a deleted or modified filename, the
    identifier of its last item, and nothing else. *)
Lemma find_last_occurrences_get (changes : list change) (ve : dict)
    (f : string) :
  dict_get (find_last_occurrences (with_status "D" changes)
                                  (with_status "M" changes) ve) f =
  if set_mem f (with_status "D" changes) || set_mem f (with_status "M" changes)
  then lookup_last (by_filename ve) f else None.
Proof.
  unfold find_last_occurrences.
  set (D := with_status "D" changes). set (M := with_status "M" changes).
  induction ve as [|[num g] ve IH]; simpl.
  - now destruct (set_mem f D || set_mem f M).
  - rewrite fold_left_app. simpl.
    set (lo := fold_left (find_last_occurrences_body D M) (rev ve) []) in *.
    destruct (set_mem g D || set_mem g M) eqn:Hg.
    + unfold dict_mem. destruct (dict_get lo g) eqn:Hlo; simpl.
      * rewrite IH.
        destruct (set_mem f D || set_mem f M) eqn:Hf; [|reflexivity].
        destruct (lookup_last (by_filename ve) f) eqn:El; [reflexivity|].
        destruct (String.eqb_spec g f) as [->|Hne]; [|reflexivity].
        rewrite IH in Hlo. discriminate.
      * rewrite dict_get_set.
        destruct (String.eqb_spec g f) as [->|Hne].
        -- rewrite Hg. rewrite Hlo, Hg in IH. now rewrite <- IH.
        -- rewrite IH.
           destruct (set_mem f D || set_mem f M); [|reflexivity].
           now destruct (lookup_last (by_filename ve) f).
    + rewrite IH.
      destruct (set_mem f D || set_mem f M) eqn:Hf; [|reflexivity].
      destruct (lookup_last (by_filename ve) f); [reflexivity|].
      destruct (String.eqb_spec g f) as [->|Hne]; [congruence | reflexivity].
Qed.

Lemma find_last_occurrences_spec (changes : list change) (ve : dict)
    (f num : string) :
  dict_get (find_last_occurrences (with_status "D" changes)
                                  (with_status "M" changes) ve) f = Some num
  <-> outdated changes f /\ is_last_occurrence ve f num.
Proof.
  rewrite find_last_occurrences_get, is_last_occurrence_by_filename,
    <- lookup_last_spec, <- outdated_set_mem.
  destruct (set_mem f _ || set_mem f _); split;
    try tauto; try discriminate. intros [? _]. discriminate.
Qed.

(** A stripped line reads [num filename] in one way only. *)
Lemma split_unique (a b a' b' : string) (sep : ascii) :
  (a ++ String sep b)%string = (a' ++ String sep b')%string ->
  contains sep a = false -> contains sep a' = false -> a = a' /\ b = b'.
Proof.
  revert a'. induction a as [|c a IH]; intros [|c' a']; simpl.
  - intros [= ->]. auto.
  - intros [= <- _] _ H. rewrite Ascii.eqb_refl in H. discriminate.
  - intros [= -> _] H. rewrite Ascii.eqb_refl in H. discriminate.
  - intros [= <- Heq] H H'.
    apply orb_false_iff in H as [_ H]. apply orb_false_iff in H' as [_ H'].
    destruct (IH _ Heq H H') as [-> ->]. auto.
Qed.

Lemma update_line_Raise (lo : dict) (line : string) (acc : list string)
    (e : exn) :
  update_line lo line acc = Raise e -> e = ValueError_unpack 2 1.
Proof.
  unfold update_line.
  destruct (startswith (strip line) "//"); [discriminate|].
  destruct (unpack2 (split1 (strip line) " ")) as [[num f]|e'] eqn:E; simpl.
  - destruct (match dict_get lo f with Some n => _ | None => _ end);
      discriminate.
  - intros [= <-]. now apply unpack2_split1_Raise in E.
Qed.

Lemma update_line_rewritten (changes : list change) (ve : dict)
    (line : string) (acc acc' : list string) :
  update_line (find_last_occurrences (with_status "D" changes)
                                     (with_status "M" changes) ve)
              line acc = Ok acc' ->
  exists line', acc' = acc ++ [line'] /\ rewritten ve changes line line'.
Proof.
  unfold update_line. fold (is_comment line).
  set (lo := find_last_occurrences _ _ _).
  destruct (is_comment line) eqn:Hcom.
  - intros [= <-]. exists line. split; [reflexivity|]. right.
    split; [|reflexivity]. intros (num & f & Hc & _). congruence.
  - intro H. apply bind_Ok in H as ([num f] & Hsplit & H).
    apply unpack2_split1_Ok in Hsplit as [Heq Hnum].
    destruct (dict_get lo f) as [n|] eqn:Hlo.
    + destruct (String.eqb_spec n num) as [->|Hne].
      * injection H as <-. eexists. split; [reflexivity|]. left.
        split; [|reflexivity]. exists num, f.
        apply find_last_occurrences_spec in Hlo as [Hout Hlast].
        repeat split; assumption.
      * injection H as <-. eexists. split; [reflexivity|]. right.
        split; [|reflexivity].
        intros (num' & f' & _ & Heq' & Hnum' & Hout & Hlast).
        rewrite Heq in Heq'.
        destruct (split_unique _ _ _ _ _ Heq' Hnum Hnum') as [<- <-].
        assert (Hget : dict_get lo f = Some num)
          by (apply find_last_occurrences_spec; auto).
        congruence.
    + injection H as <-. eexists. split; [reflexivity|]. right.
      split; [|reflexivity].
      intros (num' & f' & _ & Heq' & Hnum' & Hout & Hlast).
      rewrite Heq in Heq'.
      destruct (split_unique _ _ _ _ _ Heq' Hnum Hnum') as [<- <-].
      assert (Hget : dict_get lo f = Some num)
        by (apply find_last_occurrences_spec; auto).
      congruence.
Qed.

Lemma update_lines_rewritten (changes : list change) (ve : dict)
    (lines acc updated : list string) :
  for_each lines
    (update_line (find_last_occurrences (with_status "D" changes)
                                        (with_status "M" changes) ve))
    acc = Ok updated ->
  exists new, updated = acc ++ new /\ Forall2 (rewritten ve changes) lines new.
Proof.
  revert acc. induction lines as [|line lines IH]; intro acc; simpl.
  - intros [= <-]. exists []. split; [now rewrite app_nil_r | constructor].
  - intro H. apply bind_Ok in H as (acc' & Hline & Hrest).
    apply update_line_rewritten in Hline as (line' & -> & Hrw).
    apply IH in Hrest as (new & -> & Hall).
    exists (line' :: new). split; [now rewrite <- app_assoc | now constructor].
Qed.

Lemma append_entries_new_entries (filenames : list string)
    (updated : list string) (n : Z) :
  append_entries filenames (updated, n) =
  (updated ++ new_entries n filenames,
   (n + Z.of_nat (length filenames))%Z).
Proof.
  unfold append_entries.
  revert updated n. induction filenames as [|f fs IH]; intros updated n.
  - simpl. now rewrite app_nil_r, Z.add_0_r.
  - cbn [fold_left new_entries length]. rewrite IH, <- app_assoc.
    f_equal. lia.
Qed.

Lemma new_entries_app (n : Z) (xs ys : list string) :
  new_entries n (xs ++ ys) =
  new_entries n xs ++ new_entries (n + Z.of_nat (length xs)) ys.
Proof.
  revert n. induction xs as [|x xs IH]; intro n; simpl.
  - now rewrite Z.add_0_r.
  - rewrite IH. do 3 f_equal. lia.
Qed.

Lemma new_entries_length (n : Z) (fs : list string) :
  length (new_entries n fs) = length fs.
Proof.
  revert n. induction fs as [|f fs IH]; intro n; simpl; [|rewrite IH];
    reflexivity.
Qed.

Lemma new_entries_nth (n : Z) (fs : list string) (k : nat) (f : string) :
  nth_error fs k = Some f ->
  nth_error (new_entries n fs) k
  = Some (nl ++ str (n + Z.of_nat k) ++ " " ++ f)%string.
Proof.
  revert n k. induction fs as [|g fs IH]; intros n [|k];
    cbn [nth_error new_entries]; try discriminate.
  - intros [= ->]. now rewrite Z.add_0_r.
  - intro H. rewrite (IH _ _ H).
    now replace (n + 1 + Z.of_nat k)%Z with (n + Z.of_nat (S k))%Z by lia.
Qed.

(** What the updater returns, when it returns. *)
Lemma update_file_entries_Ok (SI : SetIteration) (file : string) (ve : dict)
    (changes : list change) (out : string) :
  update_file_entries SI file ve changes = Ok out <->
  exists ids updated,
    map_int (keys ve) = Ok ids /\
    for_each (readlines file)
      (update_line (find_last_occurrences (with_status "D" changes)
                                          (with_status "M" changes) ve))
      [] = Ok updated /\
    out = writelines
            (updated ++
             new_entries (max_default ids 0 + 1)
               (with_status "A" changes ++ iter SI (with_status "M" changes))).
Proof.
  unfold update_file_entries. split.
  - intro H. apply bind_Ok in H as (ids & Hids & H).
    apply bind_Ok in H as (updated & Hup & H).
    exists ids, updated. repeat split; try assumption.
    rewrite !append_entries_new_entries in H. simpl in H.
    injection H as <-. now rewrite new_entries_app, app_assoc.
  - intros (ids & updated & -> & -> & ->). simpl.
    rewrite !append_entries_new_entries. simpl.
    now rewrite new_entries_app, app_assoc.
Qed.

(** ** [str] and [int] *)

Module IntStr.

Lemma string_of_uint_digits (d : Decimal.uint) :
  all_digits (NilEmpty.string_of_uint d) = true.
Proof. induction d; simpl; auto. Qed.

Lemma is_digit_not_space (c : ascii) : is_digit c = true -> isspace c = false.
Proof.
  unfold is_digit, isspace. intro H.
  apply andb_true_iff in H as [H1 H2].
  apply N.leb_le in H1. apply N.leb_le in H2.
  repeat match goal with
         | |- context [(?a <=? ?b)%N] =>
             destruct (N.leb_spec a b)
         | |- context [(?a =? ?b)%N] =>
             destruct (N.eqb_spec a b)
         end; simpl; try reflexivity; lia.
Qed.

Lemma is_digit_not_int_space (c : ascii) :
  is_digit c = true -> int_isspace c = false.
Proof.
  unfold is_digit, int_isspace. intro H.
  apply andb_true_iff in H as [H1 H2].
  apply N.leb_le in H1. apply N.leb_le in H2.
  repeat match goal with
         | |- context [(?a <=? ?b)%N] =>
             destruct (N.leb_spec a b)
         | |- context [(?a =? ?b)%N] =>
             destruct (N.eqb_spec a b)
         end; simpl; try reflexivity; lia.
Qed.

Lemma int_rstrip_digits (s : string) :
  all_digits s = true -> int_rstrip s = s.
Proof.
  induction s as [|c s IH]; [reflexivity|].
  simpl. intro H. apply andb_true_iff in H as [Hc Hs].
  rewrite (IH Hs), (is_digit_not_int_space _ Hc). now destruct s.
Qed.

Lemma int_strip_digits (s : string) :
  all_digits s = true -> int_rstrip (int_lstrip s) = s.
Proof.
  intro H.
  destruct s as [|c s]; [reflexivity|].
  pose proof H as H'. simpl in H'. apply andb_true_iff in H' as [Hc _].
  cbn [int_lstrip]. rewrite (is_digit_not_int_space _ Hc).
  now apply int_rstrip_digits.
Qed.

Lemma parse_digits_acc (d : Decimal.uint) (p : positive) :
  parse_digits (Zpos p) true (NilEmpty.string_of_uint d)
  = Some (Zpos (Pos.of_uint_acc d p)).
Proof.
  revert p. induction d; intro p; [reflexivity|..];
    cbn [NilEmpty.string_of_uint parse_digits Pos.of_uint_acc];
    match goal with
    | |- context [is_digit ?c] =>
        change (is_digit c) with true; cbv iota;
        match goal with
        | |- parse_digits ?z true _ = Some (Zpos (Pos.of_uint_acc _ ?q)) =>
            replace z with (Zpos q)
              by (unfold digit_value; simpl N_of_ascii; lia)
        end
    end; apply IHd.
Qed.

Lemma parse_digits_of_uint (d : Decimal.uint) (prev : bool) :
  d <> Decimal.Nil \/ prev = true ->
  parse_digits 0 prev (NilEmpty.string_of_uint d)
  = Some (Z.of_N (Pos.of_uint d)).
Proof.
  revert prev. induction d; intros prev H;
    cbn [NilEmpty.string_of_uint parse_digits Pos.of_uint].
  - destruct H as [H | ->]; [congruence | reflexivity].
  - change (is_digit "0") with true. cbv iota.
    change (10 * 0 + digit_value "0")%Z with 0%Z. apply IHd. now right.
  - apply (parse_digits_acc d 1).
  - apply (parse_digits_acc d 2).
  - apply (parse_digits_acc d 3).
  - apply (parse_digits_acc d 4).
  - apply (parse_digits_acc d 5).
  - apply (parse_digits_acc d 6).
  - apply (parse_digits_acc d 7).
  - apply (parse_digits_acc d 8).
  - apply (parse_digits_acc d 9).
Qed.

Lemma parse_digits_to_uint (p : positive) :
  parse_digits 0 false (NilEmpty.string_of_uint (Pos.to_uint p))
  = Some (Zpos p).
Proof.
  rewrite parse_digits_of_uint by (left; apply Unsigned.to_uint_nonnil).
  now rewrite Unsigned.of_to.
Qed.

Lemma string_of_to_uint (p : positive) :
  NilZero.string_of_uint (Pos.to_uint p)
  = NilEmpty.string_of_uint (Pos.to_uint p).
Proof.
  unfold NilZero.string_of_uint.
  pose proof (Unsigned.to_uint_nonnil p).
  now destruct (Pos.to_uint p).
Qed.

(** The identifier written for a number reads back as that number. *)
Lemma int_str (n : Z) : int (str n) = Ok n.
Proof.
  unfold str. destruct n as [|p|p]; [reflexivity|..];
    cbn [Z.to_int NilZero.string_of_int]; rewrite string_of_to_uint.
  - unfold int.
    rewrite int_strip_digits by apply string_of_uint_digits.
    pose proof (parse_digits_to_uint p) as H.
    pose proof (string_of_uint_digits (Pos.to_uint p)) as Hd.
    destruct (NilEmpty.string_of_uint (Pos.to_uint p)) as [|c s];
      [discriminate|].
    simpl in Hd. apply andb_true_iff in Hd as [Hc _].
    destruct c as [[] [] [] [] [] [] [] []]; try discriminate Hc;
      now rewrite H.
  - unfold int.
    assert (Hs : int_rstrip
                   (int_lstrip
                      (String "-" (NilEmpty.string_of_uint (Pos.to_uint p))))
                 = String "-" (NilEmpty.string_of_uint (Pos.to_uint p))).
    { cbn [int_lstrip]. change (int_isspace "-") with false. cbv iota.
      cbn [int_rstrip].
      rewrite int_rstrip_digits by apply string_of_uint_digits.
      change (int_isspace "-") with false.
      now destruct (NilEmpty.string_of_uint (Pos.to_uint p)). }
    rewrite Hs, parse_digits_to_uint. reflexivity.
Qed.

End IntStr.

Lemma rewritten_kept_or_commented (ve : dict) (changes : list change)
    (line line' : string) :
  rewritten ve changes line line' -> kept_or_commented line line'.
Proof. intros [[_ ->]|[_ ->]]; [right | left]; reflexivity. Qed.

Lemma Forall2_weaken {A B : Type} (P Q : A -> B -> Prop) (xs : list A)
    (ys : list B) :
  (forall x y, P x y -> Q x y) -> Forall2 P xs ys -> Forall2 Q xs ys.
Proof. intros H. induction 1; constructor; auto. Qed.

(** The updater's result taken apart: the identifiers of the mapping, the
    lines of the file rewritten, the new entries. *)
Lemma update_file_entries_inv (SI : SetIteration) (file : string) (ve : dict)
    (changes : list change) (out : string) :
  update_file_entries SI file ve changes = Ok out ->
  exists ids updated,
    map_int (keys ve) = Ok ids /\
    Forall2 (rewritten ve changes) (readlines file) updated /\
    out = writelines
            (updated ++
             new_entries (max_default ids 0 + 1)
               (with_status "A" changes ++ iter SI (with_status "M" changes))).
Proof.
  intro H. apply update_file_entries_Ok in H as (ids & updated & Hi & Hu & ->).
  apply update_lines_rewritten in Hu as (new & -> & Hall).
  exists ids, new. auto.
Qed.

(** A set of one element is iterated in one way. *)
Lemma iter_singleton (SI : SetIteration) (x : string) : iter SI [x] = [x].
Proof.
  pose proof (iter_NoDup SI [x]) as Hnd.
  pose proof (iter_In SI [x]) as Hin.
  destruct (iter SI [x]) as [|a [|b l]].
  - exfalso. apply (Hin x). now left.
  - f_equal. destruct (proj1 (Hin a)) as [->|[]]; [now left | reflexivity].
  - exfalso.
    assert (Ha : a = x)
      by (destruct (proj1 (Hin a)) as [->|[]]; [now left | reflexivity]).
    assert (Hb : b = x)
      by (destruct (proj1 (Hin b)) as [->|[]];
          [right; now left | reflexivity]).
    subst. inversion Hnd as [|? ? Hn _]. apply Hn. now left.
Qed.

Lemma iter_empty (SI : SetIteration) : iter SI [] = [].
Proof.
  pose proof (iter_In SI []) as Hin.
  destruct (iter SI []) as [|a l]; [reflexivity|].
  exfalso. apply (Hin a). now left.
Qed.

(** ** The manifest updater: deactivation *)

Lemma Forall2_In_l {A B : Type} (P : A -> B -> Prop) (xs : list A)
    (ys : list B) (x : A) :
  Forall2 P xs ys -> In x xs -> exists y, In y ys /\ P x y.
Proof.
  induction 1 as [|a b xs ys Hp _ IH]; intros Hin; [destruct Hin|].
  destruct Hin as [->|Hin].
  - exists b. split; [now left | exact Hp].
  - destruct (IH Hin) as (y & Hy & Hpy). exists y.
    split; [now right | exact Hpy].
Qed.

Lemma StronglySorted_app_lt (l1 l2 : list Z) (x : Z) :
  StronglySorted Z.lt (l1 ++ x :: l2) -> Forall (fun y => (y < x)%Z) l1.
Proof.
  induction l1 as [|a l1 IH]; intro H; [constructor|].
  simpl in H. apply StronglySorted_inv in H as [Hs Ha].
  constructor; [|now apply IH].
  rewrite Forall_forall in Ha. apply Ha, in_or_app. right. now left.
Qed.

(** With identifiers that increase along the mapping, the last item of a
    filename is the one with the highest identifier. *)
Lemma is_last_occurrence_highest (ve : dict) (ids : list Z)
    (f num num' : string) (n n' : Z) :
  Forall2 (fun k i => int k = Ok i) (keys ve) ids ->
  StronglySorted Z.lt ids ->
  is_last_occurrence ve f num -> In (num', f) ve ->
  int num = Ok n -> int num' = Ok n' -> (n' <= n)%Z.
Proof.
  intros Hids Hsorted (bf & af & -> & Hn) Hin Hnum Hnum'.
  unfold keys in Hids. rewrite map_app in Hids. simpl in Hids.
  apply Forall2_app_inv_l in Hids as (i1 & i2 & Hbf & Haf & ->).
  inversion Haf as [|? n0 ? i3 Hn0 _]; subst.
  assert (n0 = n) by congruence. subst n0.
  apply in_app_or in Hin as [Hin|[Hin|Hin]].
  - apply (in_map fst) in Hin. simpl in Hin.
    destruct (Forall2_In_l _ _ _ _ Hbf Hin) as (y & Hy & Hpy).
    assert (y = n') by congruence. subst y.
    apply StronglySorted_app_lt in Hsorted.
    rewrite Forall_forall in Hsorted. specialize (Hsorted _ Hy). lia.
  - injection Hin as ->. assert (n' = n) by congruence. lia.
  - exfalso. apply Hn. unfold values.
    change f with (snd (num', f)). now apply in_map.
Qed.

(** C1, as amended.  When the updater returns, what it wrote is the lines
    of the manifest, each in its place, followed by new entries.  A line
    is written with ["//"] before it exactly when it is no comment, reads
    [num filename] once stripped, the filename is deleted or modified, and
    [(num, filename)] is the last item with that filename in the
    mapping's iteration order; every other line is written as it was.
    There is one such item at most for a filename, and none for a
    filename that is no value of the mapping, which therefore has no line
    deactivated.  When the identifiers of the mapping increase along its
    iteration order, that last item has the highest identifier among the
    items of its filename. *)
Theorem update_file_entries_deactivates_last_occurrence (SI : SetIteration)
    (file : string) (valid_entries : dict) (changes : list change)
    (out : string) :
  update_file_entries SI file valid_entries changes = Ok out ->
  exists updated appended,
    out = writelines (updated ++ appended) /\
    Forall2 (rewritten valid_entries changes) (readlines file) updated /\
    (forall line num filename,
        deactivated valid_entries changes line num filename ->
        In (num, filename) valid_entries /\
        forall num',
          is_last_occurrence valid_entries filename num' -> num' = num) /\
    (forall filename,
        ~ In filename (values valid_entries) ->
        forall line num,
          ~ deactivated valid_entries changes line num filename) /\
    (forall ids filename num num' n n',
        Forall2 (fun k i => int k = Ok i) (keys valid_entries) ids ->
        StronglySorted Z.lt ids ->
        is_last_occurrence valid_entries filename num ->
        In (num', filename) valid_entries ->
        int num = Ok n -> int num' = Ok n' -> (n' <= n)%Z).
Proof.
  intro H. apply update_file_entries_inv in H as (ids & updated & _ & Hrw & ->).
  eexists updated, _. split; [reflexivity|]. split; [exact Hrw|].
  split; [|split].
  - intros line num f (_ & _ & _ & _ & Hlast). split.
    + now apply is_last_occurrence_In.
    + intros num' Hlast'. eapply is_last_occurrence_unique; eassumption.
  - intros f Hout line num (_ & _ & _ & _ & Hlast).
    apply Hout. apply is_last_occurrence_In in Hlast.
    unfold values. change f with (snd (num, f)). now apply in_map.
  - intros ids' f num num' n n'. apply is_last_occurrence_highest.
Qed.

(** A file name listed twice: the later line is the one commented out. *)
Lemma update_file_entries_deactivates_witness :
  exists updated appended,
    ("1 a.rgz" ++ nl ++ "//2 a.rgz")%string = writelines (updated ++ appended)
    /\
    Forall2 (rewritten [("1", "a.rgz"); ("2", "a.rgz")] [("a.rgz", "D")])
            (readlines ("1 a.rgz" ++ nl ++ "2 a.rgz")) updated.
Proof.
  destruct (update_file_entries_deactivates_last_occurrence insertion_order
              ("1 a.rgz" ++ nl ++ "2 a.rgz")
              [("1", "a.rgz"); ("2", "a.rgz")] [("a.rgz", "D")]
              ("1 a.rgz" ++ nl ++ "//2 a.rgz") eq_refl)
    as (updated & appended & Hout & Hrw & _).
  exists updated, appended. split; assumption.
Defined.

(** C1 as it was stated fails: with the higher identifier on the earlier
    line, the line deactivated is the one with the lower identifier, and
    the highest-numbered occurrence stays active. *)
Lemma highest_numbered_occurrence_stays_active :
  current_patchfile ("2 a.rgz" ++ nl ++ "1 a.rgz")
    = Ok [("2", "a.rgz"); ("1", "a.rgz")] /\
  int "2" = Ok 2%Z /\ int "1" = Ok 1%Z /\
  update_file_entries insertion_order ("2 a.rgz" ++ nl ++ "1 a.rgz")
    [("2", "a.rgz"); ("1", "a.rgz")] [("a.rgz", "D")]
    = Ok ("2 a.rgz" ++ nl ++ "//1 a.rgz")%string /\
  update_file_entries insertion_order ("2 a.rgz" ++ nl ++ "1 a.rgz")
    [("2", "a.rgz"); ("1", "a.rgz")] [("a.rgz", "D")]
    <> Ok ("//2 a.rgz" ++ nl ++ "1 a.rgz")%string.
Proof. repeat split. discriminate. Qed.

(** C2.  On the manifest with the lines [1 a.rgz] and [2 b.gpf] and the
    report of [a.rgz] modified and [c.rgz] added, the readers return the
    two entries and the two records, and the updater writes, for every
    iteration order of the sets, the lines [//1 a.rgz], [2 b.gpf],
    [3 c.rgz], [4 a.rgz] in this order. *)
Theorem update_file_entries_scenario (SI : SetIteration) :
  current_patchfile ("1 a.rgz" ++ nl ++ "2 b.gpf")
    = Ok [("1", "a.rgz"); ("2", "b.gpf")] /\
  get_changes ("M" ++ String TAB "path/a.rgz" ++ nl ++
               "A" ++ String TAB "path/c.rgz" ++ nl)
    = Ok [("a.rgz", "M"); ("c.rgz", "A")] /\
  update_file_entries SI ("1 a.rgz" ++ nl ++ "2 b.gpf")
    [("1", "a.rgz"); ("2", "b.gpf")] [("a.rgz", "M"); ("c.rgz", "A")]
    = Ok ("//1 a.rgz" ++ nl ++ "2 b.gpf" ++ nl ++
          "3 c.rgz" ++ nl ++ "4 a.rgz")%string /\
  readlines ("//1 a.rgz" ++ nl ++ "2 b.gpf" ++ nl ++
             "3 c.rgz" ++ nl ++ "4 a.rgz")
    = [ "//1 a.rgz" ++ nl; "2 b.gpf" ++ nl; "3 c.rgz" ++ nl; "4 a.rgz" ]%string.
Proof.
  repeat split.
  apply update_file_entries_Ok.
  exists [1; 2]%Z, ["//1 a.rgz" ++ nl; "2 b.gpf"]%string.
  repeat split.
  change (with_status "M" [("a.rgz", "M"); ("c.rgz", "A")]) with ["a.rgz"].
  rewrite iter_singleton. reflexivity.
Qed.

(** ** The manifest updater: new entries *)

Lemma int_Raise (s : string) (e : exn) :
  int s = Raise e -> e = ValueError_int s.
Proof.
  unfold int.
  destruct (int_rstrip (int_lstrip s)) as [|c d]; [|destruct c as [[] [] [] [] [] [] [] []]];
    simpl;
    repeat match goal with
           | |- context [parse_digits ?a ?b ?c] =>
               destruct (parse_digits a b c); simpl
           end;
    try discriminate; now intros [= <-].
Qed.

Lemma map_int_Ok (ks : list string) (ids : list Z) :
  map_int ks = Ok ids <-> Forall2 (fun k n => int k = Ok n) ks ids.
Proof.
  revert ids. induction ks as [|k ks IH]; intro ids; simpl.
  - split; [intros [= <-]; constructor | now inversion 1].
  - split.
    + intro H. apply bind_Ok in H as (n & Hn & H).
      apply bind_Ok in H as (ns & Hns & [= <-]).
      constructor; [exact Hn | now apply IH].
    + inversion 1 as [|? n ? ns Hn Hns]; subst.
      rewrite Hn. simpl. apply IH in Hns. now rewrite Hns.
Qed.

Lemma map_int_Raise (ks : list string) (e : exn) :
  map_int ks = Raise e ->
  exists k, In k ks /\ int k = Raise e /\ e = ValueError_int k.
Proof.
  induction ks as [|k ks IH]; simpl; [discriminate|].
  destruct (int k) as [n|e'] eqn:Hk; simpl.
  - destruct (map_int ks) as [ns|e'']; simpl; [discriminate|].
    intros [= <-]. destruct (IH eq_refl) as (k' & Hin & Hr & He). eauto.
  - intros [= <-]. pose proof (int_Raise _ _ Hk). eauto.
Qed.

Lemma map_int_total (ks : list string) :
  Forall (fun k => exists n, int k = Ok n) ks ->
  exists ids, map_int ks = Ok ids.
Proof.
  induction 1 as [|k ks [n Hn] _ [ns Hns]]; simpl.
  - now exists [].
  - rewrite Hn, Hns. simpl. eauto.
Qed.

Lemma fold_left_max_le (xs : list Z) (x : Z) :
  (x <= fold_left Z.max xs x)%Z /\
  Forall (fun y => y <= fold_left Z.max xs x)%Z xs /\
  In (fold_left Z.max xs x) (x :: xs).
Proof.
  revert x. induction xs as [|y xs IH]; intro x; simpl.
  - repeat split; [lia | constructor | now left].
  - destruct (IH (Z.max x y)) as (H1 & H2 & H3). repeat split.
    + lia.
    + constructor; [lia | exact H2].
    + destruct H3 as [H3|H3]; [|now right; right].
      rewrite <- H3. destruct (Z.max_spec x y) as [[_ ->]|[_ ->]]; auto.
Qed.

Lemma max_default_spec (xs : list Z) (d : Z) :
  (xs = [] -> max_default xs d = d) /\
  (xs <> [] -> In (max_default xs d) xs) /\
  Forall (fun y => y <= max_default xs d)%Z xs.
Proof.
  destruct xs as [|x xs]; simpl.
  - repeat split; [congruence | constructor].
  - destruct (fold_left_max_le xs x) as (H1 & H2 & H3).
    repeat split; [discriminate | auto | now constructor].
Qed.

Lemma count_occ_with_status (st f : string) (changes : list change) :
  count_occ string_dec (with_status st changes) f = records st f changes.
Proof.
  unfold with_status, records.
  induction changes as [|[g s] changes IH]; [reflexivity|].
  simpl. destruct (String.eqb_spec s st) as [->|Hs]; simpl.
  - destruct (string_dec g f) as [->|Hg].
    + rewrite String.eqb_refl. simpl. now rewrite IH.
    + apply String.eqb_neq in Hg. rewrite Hg. simpl. exact IH.
  - rewrite andb_false_r. exact IH.
Qed.

Lemma records_pos (st f : string) (changes : list change) :
  Nat.ltb 0 (records st f changes) = true <-> In (f, st) changes.
Proof.
  rewrite <- count_occ_with_status, Nat.ltb_lt, <- with_status_In.
  symmetry. apply count_occ_In.
Qed.

Lemma count_occ_iter (SI : SetIteration) (s : pyset) (f : string) :
  count_occ string_dec (iter SI s) f =
  if in_dec string_dec f s then 1 else 0.
Proof.
  destruct (in_dec string_dec f s) as [Hin|Hout].
  - apply NoDup_count_occ'; [apply iter_NoDup | now apply iter_In].
  - apply count_occ_not_In. now rewrite iter_In.
Qed.

(** C3.  When the updater returns, the keys of the mapping are integer
    literals and, with [m] their maximum (0 for the empty mapping), the
    lines of the file are followed by one entry for each added record,
    duplicates included, and one for each distinct modified filename,
    none else; the k-th of them, counted from 1, has the identifier
    [m + k], written so that it reads back as that number, and above
    every identifier of the mapping. *)
Theorem update_file_entries_appends (SI : SetIteration) (file : string)
    (valid_entries : dict) (changes : list change) (out : string) :
  update_file_entries SI file valid_entries changes = Ok out ->
  exists ids updated names,
    Forall2 (fun k n => int k = Ok n) (keys valid_entries) ids /\
    Forall2 kept_or_commented (readlines file) updated /\
    let m := max_default ids 0 in
    out = writelines (updated ++ new_entries (m + 1) names) /\
    length (new_entries (m + 1) names) = length names /\
    (forall f,
        count_occ string_dec names f =
        records "A" f changes +
        (if Nat.ltb 0 (records "M" f changes) then 1 else 0))
    /\
    (forall k f,
        nth_error names k = Some f ->
        nth_error (new_entries (m + 1) names) k =
        Some (nl ++ str (m + Z.of_nat (S k)) ++ " " ++ f)%string /\
        int (str (m + Z.of_nat (S k))) = Ok (m + Z.of_nat (S k))%Z) /\
    (valid_entries = [] -> m = 0%Z) /\
    (valid_entries <> [] -> In m ids) /\
    Forall (fun n => forall k, (n < m + Z.of_nat (S k))%Z) ids.
Proof.
  intro H.
  apply update_file_entries_inv in H as (ids & updated & Hi & Hrw & ->).
  apply map_int_Ok in Hi.
  exists ids, updated,
    (with_status "A" changes ++ iter SI (with_status "M" changes)).
  destruct (max_default_spec ids 0) as (Hnil & Hin & Hle).
  split; [exact Hi|]. split.
  { eapply Forall2_weaken; [|exact Hrw]. apply rewritten_kept_or_commented. }
  cbv zeta. split; [reflexivity|]. split; [apply new_entries_length|].
  split; [|split; [|split; [|split]]].
  - intro f. rewrite count_occ_app, count_occ_with_status, count_occ_iter.
    f_equal. destruct (in_dec string_dec f _) as [Hm|Hm];
      rewrite with_status_In, <- records_pos in Hm.
    + now rewrite Hm.
    + now apply not_true_is_false in Hm as ->.
  - intros k f Hk. split; [|apply IntStr.int_str].
    rewrite (new_entries_nth _ _ _ _ Hk).
    do 4 f_equal. lia.
  - intros ->. inversion Hi. reflexivity.
  - intro Hne. apply Hin. intros ->. inversion Hi as [E|].
    destruct valid_entries; [congruence | discriminate].
  - eapply Forall_impl; [|exact Hle]. simpl. intros n Hn k. lia.
Qed.

(** Two added records of one name, one modified and one deleted name. *)
Lemma update_file_entries_appends_witness :
  exists updated names,
    Forall2 kept_or_commented (readlines "7 a.rgz") updated /\
    ("//7 a.rgz" ++ nl ++ "8 b.rgz" ++ nl ++ "9 b.rgz" ++ nl
       ++ "10 c.gpf")%string
      = writelines (updated ++ new_entries (7 + 1) names).
Proof.
  destruct (update_file_entries_appends insertion_order "7 a.rgz"
              [("7", "a.rgz")]
              [("b.rgz", "A"); ("a.rgz", "D"); ("c.gpf", "M"); ("b.rgz", "A")]
              ("//7 a.rgz" ++ nl ++ "8 b.rgz" ++ nl ++ "9 b.rgz" ++ nl
                 ++ "10 c.gpf") eq_refl)
    as (ids & updated & names & Hids & Hkept & Hout & _).
  exists updated, names. split; [exact Hkept|].
  inversion Hids as [|? n ? ? Hn Hnil]; subst. inversion Hnil; subst.
  injection Hn as <-. exact Hout.
Defined.

(** ** The manifest updater: order and newlines of the output *)

Lemma new_entries_startswith (n : Z) (fs : list string) :
  Forall (fun entry => startswith entry nl = true) (new_entries n fs).
Proof.
  revert n. induction fs as [|f fs IH]; intro n; simpl; constructor.
  - unfold nl, LF. simpl. now destruct (str n ++ String " " f)%string.
  - apply IH.
Qed.

(** C5, as amended.  When the updater returns, each line of the manifest
    is written at its own position, as it was or commented out, and the
    new entries follow, each begun with a newline: first one for each
    added record, in the order of the records, then one for each
    distinct modified filename, in the order in which the set of the
    modified filenames is iterated, which is some order without
    repetition. *)
Theorem update_file_entries_output_order (SI : SetIteration) (file : string)
    (valid_entries : dict) (changes : list change) (out : string) :
  update_file_entries SI file valid_entries changes = Ok out ->
  exists updated n modified,
    Forall2 kept_or_commented (readlines file) updated /\
    NoDup modified /\
    (forall f, In f modified <-> In (f, "M") changes) /\
    modified = iter SI (with_status "M" changes) /\
    let added :=
      map fst (filter (fun c => String.eqb (snd c) "A") changes) in
    let appended := new_entries n (added ++ modified) in
    out = writelines (updated ++ appended) /\
    Forall (fun entry => startswith entry nl = true) appended.
Proof.
  intro H. apply update_file_entries_inv in H as (ids & updated & _ & Hrw & ->).
  exists updated, (max_default ids 0 + 1)%Z,
    (iter SI (with_status "M" changes)).
  split.
  { eapply Forall2_weaken; [|exact Hrw]. apply rewritten_kept_or_commented. }
  split; [apply iter_NoDup|]. split.
  { intro f. now rewrite iter_In, with_status_In. }
  split; [reflexivity|]. cbv zeta.
  split; [reflexivity | apply new_entries_startswith].
Qed.

(** Added and modified records interleaved, a modified name repeated. *)
Lemma update_file_entries_output_order_witness :
  exists updated n modified,
    Forall2 kept_or_commented (readlines ("1 a.rgz" ++ nl ++ "2 b.gpf"))
            updated /\
    NoDup modified /\
    (forall f,
        In f modified <->
        In (f, "M") [("b.gpf", "M"); ("c.rgz", "A"); ("a.rgz", "M");
                     ("d.rgz", "A"); ("b.gpf", "M")]) /\
    modified = iter insertion_order
                 (with_status "M" [("b.gpf", "M"); ("c.rgz", "A");
                                   ("a.rgz", "M"); ("d.rgz", "A");
                                   ("b.gpf", "M")]) /\
    let added :=
      map fst (filter (fun c => String.eqb (snd c) "A")
                 [("b.gpf", "M"); ("c.rgz", "A"); ("a.rgz", "M");
                  ("d.rgz", "A"); ("b.gpf", "M")]) in
    let appended := new_entries n (added ++ modified) in
    ("//1 a.rgz" ++ nl ++ "//2 b.gpf" ++ nl ++ "3 c.rgz" ++ nl ++ "4 d.rgz"
       ++ nl ++ "5 b.gpf" ++ nl ++ "6 a.rgz")%string
      = writelines (updated ++ appended) /\
    Forall (fun entry => startswith entry nl = true) appended.
Proof.
  apply (update_file_entries_output_order insertion_order
           ("1 a.rgz" ++ nl ++ "2 b.gpf")
           [("1", "a.rgz"); ("2", "b.gpf")]
           [("b.gpf", "M"); ("c.rgz", "A"); ("a.rgz", "M"); ("d.rgz", "A");
            ("b.gpf", "M")]).
  reflexivity.
Defined.

(** C5 as it was stated fails: a set that is iterated in another order
    than that of insertion has the entries of the modified files written
    in another order than that of the change records. *)
Lemma modified_entries_out_of_encounter_order :
  update_file_entries reverse_order "" []
    [("a.rgz", "M"); ("b.rgz", "M")]
    = Ok (nl ++ "1 b.rgz" ++ nl ++ "2 a.rgz")%string /\
  update_file_entries reverse_order "" []
    [("a.rgz", "M"); ("b.rgz", "M")]
    <> Ok (nl ++ "1 a.rgz" ++ nl ++ "2 b.rgz")%string.
Proof. split; [reflexivity | discriminate]. Qed.

(** *** Suffixes *)

Lemma endswith_nl_app (a b : string) :
  b <> "" -> endswith (a ++ b) nl = endswith b nl.
Proof.
  intro Hb. induction a as [|c a IH]; [reflexivity|].
  cbn [append endswith]. rewrite IH.
  destruct (String.eqb_spec (String c (a ++ b)) nl) as [E|_]; [|reflexivity].
  injection E as _ E. destruct a; simpl in E; [congruence | discriminate].
Qed.

Lemma endswith_split (s p : string) :
  endswith s p = true -> exists a, s = (a ++ p)%string.
Proof.
  induction s as [|c s IH]; cbn [endswith].
  - rewrite orb_false_r. intro H. apply String.eqb_eq in H as <-. now exists "".
  - intro H. apply orb_true_iff in H as [H|H].
    + apply String.eqb_eq in H as <-. now exists "".
    + destruct (IH H) as [a ->]. now exists (String c a).
Qed.

Lemma endswith_app (a p : string) : endswith (a ++ p) p = true.
Proof.
  induction a as [|c a IH].
  - destruct p; simpl; rewrite ?String.eqb_refl, ?Ascii.eqb_refl; reflexivity.
  - cbn [append endswith]. rewrite IH. apply orb_true_r.
Qed.

Lemma contains_app (c : ascii) (a b : string) :
  contains c (a ++ b) = contains c a || contains c b.
Proof.
  induction a as [|x a IH]; [reflexivity|].
  simpl. now rewrite IH, orb_assoc.
Qed.

Lemma basename_no_slash (p : string) : contains "/" p = false -> basename p = p.
Proof.
  destruct p as [|c p]; [reflexivity|]. simpl.
  intro H. apply orb_false_iff in H as [Hc Hp]. now rewrite Hp, Hc.
Qed.

Lemma basename_app (a p : string) :
  contains "/" p = false -> basename (a ++ p) = (basename a ++ p)%string.
Proof.
  intro Hp. induction a as [|c a IH]; [now apply basename_no_slash|].
  cbn [append basename]. rewrite contains_app, Hp, orb_false_r.
  destruct (contains "/" a); [exact IH|].
  destruct (Ascii.eqb c "/"); reflexivity.
Qed.

Lemma endswith_basename (s p : string) :
  contains "/" p = false -> endswith s p = true ->
  endswith (basename s) p = true.
Proof.
  intros Hp H. apply endswith_split in H as [a ->].
  rewrite (basename_app _ _ Hp). apply endswith_app.
Qed.

(** The reader returns records of files with one of the two suffixes. *)
Lemma get_changes_asset (changed_files : string) (changes : list change) :
  get_changes changed_files = Ok changes -> Forall asset changes.
Proof.
  unfold get_changes.
  assert (Hloop : forall lines acc,
             Forall asset acc ->
             for_each lines get_changes_body acc = Ok changes ->
             Forall asset changes).
  { induction lines as [|line lines IH]; intros acc Hacc; simpl.
    - now intros [= <-].
    - intro H. apply bind_Ok in H as (acc' & Hbody & Hrest).
      apply (IH acc'); [|exact Hrest].
      unfold get_changes_body in Hbody.
      destruct (negb (strip line =? "")%string); [|now injection Hbody as <-].
      apply bind_Ok in Hbody as ([status filename] & _ & Hbody).
      destruct (endswith filename ".rgz") eqn:E1.
      + injection Hbody as <-. apply Forall_app. split; [exact Hacc|].
        constructor; [|constructor]. left. now apply endswith_basename.
      + destruct (endswith filename ".gpf") eqn:E2.
        * injection Hbody as <-. apply Forall_app. split; [exact Hacc|].
          constructor; [|constructor]. right. now apply endswith_basename.
        * now injection Hbody as <-. }
  apply Hloop. constructor.
Qed.

Lemma asset_no_final_newline (c : change) :
  asset c -> fst c <> "" /\ endswith (fst c) nl = false.
Proof.
  intros [H|H]; apply endswith_split in H as [a ->]; split;
    try (destruct a; discriminate);
    now rewrite endswith_nl_app by discriminate.
Qed.

Lemma endswith_cons (c : ascii) (s p : string) :
  endswith s p = true -> endswith (String c s) p = true.
Proof. intro H. cbn [endswith]. rewrite H. apply orb_true_r. Qed.

Lemma endswith_nl_cons (c : ascii) (s : string) :
  endswith (String c s) nl = true -> s = "" /\ c = LF \/ endswith s nl = true.
Proof.
  cbn [endswith]. intro H. apply orb_true_iff in H as [H|H]; [left|now right].
  apply String.eqb_eq in H. injection H as -> ->. auto.
Qed.

Lemma universal_newlines_endswith (s : string) :
  endswith s nl = true ->
  forall after_cr,
    after_cr = true /\ universal_newlines after_cr s = "" \/
    endswith (universal_newlines after_cr s) nl = true.
Proof.
  induction s as [|c s IH]; [discriminate|].
  intros H b. apply endswith_nl_cons in H.
  cbn [universal_newlines].
  destruct (Ascii.eqb_spec c CR) as [->|Hcr].
  - right. destruct H as [[_ H]|H]; [discriminate|].
    destruct (IH H true) as [[_ ->]|E]; [reflexivity|].
    now apply endswith_cons.
  - destruct (Ascii.eqb_spec c LF) as [->|Hlf].
    + destruct H as [[-> _]|H].
      * destruct b; [now left | now right].
      * destruct (IH H false) as [[E _]|E]; [discriminate|].
        destruct b; [now right | right; now apply endswith_cons].
    + right. destruct H as [[_ H]|H]; [congruence|].
      destruct (IH H false) as [[E _]|E]; [discriminate|].
      now apply endswith_cons.
Qed.

Lemma lines_of_last (t : string) :
  endswith t nl = true ->
  exists front lst, lines_of t = front ++ [lst] /\ endswith lst nl = true.
Proof.
  induction t as [|c t IH]; [discriminate|].
  intro H. apply endswith_nl_cons in H. cbn [lines_of].
  destruct (Ascii.eqb_spec c LF) as [->|Hlf].
  - destruct H as [[-> _]|H].
    + exists [], nl. auto.
    + destruct (IH H) as (front & lst & -> & Hl).
      exists (nl :: front), lst. auto.
  - destruct H as [[_ H]|H]; [congruence|].
    destruct (IH H) as (front & lst & -> & Hl).
    destruct front as [|f front]; simpl.
    + exists [], (String c lst). split; [reflexivity|].
      now apply endswith_cons.
    + exists (String c f :: front), lst. auto.
Qed.

Lemma kept_or_commented_endswith (line line' : string) :
  kept_or_commented line line' -> endswith line nl = true ->
  endswith line' nl = true.
Proof.
  intros [->| ->] H; [exact H|].
  rewrite endswith_nl_app; [exact H|]. intros ->. discriminate.
Qed.

(** The lines of a text that ends with a newline, rewritten, still end
    with a newline. *)
Lemma updated_endswith_nl (file : string) (updated : list string) :
  endswith file nl = true ->
  Forall2 kept_or_commented (readlines file) updated ->
  exists text, writelines updated = (text ++ nl)%string.
Proof.
  intros Hend Hall. unfold readlines in Hall.
  destruct (universal_newlines_endswith _ Hend false) as [[E _]|E];
    [discriminate|].
  apply lines_of_last in E as (front & lst & Heq & Hl).
  rewrite Heq in Hall. apply Forall2_app_inv_l in Hall
    as (front' & last' & _ & Hlast & ->).
  inversion Hlast as [|? lst' ? ? Hk Hnil]; subst. inversion Hnil; subst.
  apply (kept_or_commented_endswith _ _ Hk) in Hl.
  apply endswith_split. rewrite writelines_app.
  rewrite endswith_nl_app; [exact Hl|].
  change (writelines [lst']) with lst'. intros ->. discriminate.
Qed.

Lemma new_entries_no_final_newline (n : Z) (names : list string) :
  Forall (fun f => endswith f nl = false) names ->
  Forall (fun entry =>
            exists body, entry = (nl ++ body)%string /\ body <> "" /\
                         endswith body nl = false)
         (new_entries n names).
Proof.
  intro H. revert n. induction H as [|f names Hf _ IH]; intro n; simpl;
    constructor; [|apply IH].
  exists (str n ++ " " ++ f)%string. split; [reflexivity|]. split.
  - destruct (str n); discriminate.
  - rewrite endswith_nl_app by discriminate.
    cbn [append endswith]. now rewrite Hf.
Qed.

Lemma writelines_new_entries_endswith (entries : list string) :
  entries <> [] ->
  Forall (fun entry =>
            exists body, entry = (nl ++ body)%string /\ body <> "" /\
                         endswith body nl = false) entries ->
  writelines entries <> "" /\ endswith (writelines entries) nl = false.
Proof.
  intros Hne H.
  induction H as [|e es (body & -> & Hn & Hb) Hes IH]; [congruence|].
  rewrite writelines_cons. split; [discriminate|].
  destruct es as [|e' es].
  - change (writelines []) with "". rewrite append_nil_r.
    now rewrite endswith_nl_app.
  - destruct IH as [Hw He]; [discriminate|].
    now rewrite endswith_nl_app.
Qed.

(** C10.  In a run of the script in which the updater has a file to add
    or to take as modified, it writes the rewritten lines of the manifest
    and then at least one new entry; every new entry is a newline and
    then a text that does not end with a newline, so the output does not
    end with a newline; and when the manifest ended with a newline, its
    rewritten lines end with that newline and the first new entry begins
    with another: an empty line stands between them. *)
Theorem update_file_entries_newlines (SI : SetIteration)
    (changed_files file : string) (valid_entries : dict)
    (changes : list change) (out : string) :
  get_changes changed_files = Ok changes ->
  update_file_entries SI file valid_entries changes = Ok out ->
  (exists f, In (f, "A") changes \/ In (f, "M") changes) ->
  exists updated appended,
    out = (writelines updated ++ writelines appended)%string /\
    Forall2 kept_or_commented (readlines file) updated /\
    appended <> [] /\
    Forall (fun entry =>
              exists body, entry = (nl ++ body)%string /\ body <> "" /\
                           endswith body nl = false) appended /\
    endswith out nl = false /\
    (endswith file nl = true ->
     exists text body rest,
       writelines updated = (text ++ nl)%string /\
       appended = (nl ++ body)%string :: rest /\
       out = (text ++ nl ++ nl ++ body ++ writelines rest)%string).
Proof.
  intros Hch H (f0 & Hf0).
  apply get_changes_asset in Hch.
  apply update_file_entries_inv in H as (ids & updated & _ & Hrw & ->).
  set (names := with_status "A" changes ++ iter SI (with_status "M" changes)).
  set (n := (max_default ids 0 + 1)%Z).
  assert (Hkept : Forall2 kept_or_commented (readlines file) updated).
  { eapply Forall2_weaken; [|exact Hrw]. apply rewritten_kept_or_commented. }
  assert (Hnames : Forall (fun f => endswith f nl = false) names).
  { apply Forall_forall. intros f Hin.
    assert (Hc : exists st, In (f, st) changes).
    { apply in_app_or in Hin as [Hin|Hin].
      - exists "A". now apply with_status_In.
      - exists "M". apply iter_In in Hin. now apply with_status_In. }
    destruct Hc as (st & Hc).
    rewrite Forall_forall in Hch.
    exact (proj2 (asset_no_final_newline _ (Hch _ Hc))). }
  assert (Hne : new_entries n names <> []).
  { assert (Hin : In f0 names).
    { apply in_or_app. destruct Hf0 as [Hf0|Hf0]; [left|right].
      - now apply with_status_In.
      - apply iter_In. now apply with_status_In. }
    destruct names; [destruct Hin | discriminate]. }
  pose proof (new_entries_no_final_newline n names Hnames) as Hentries.
  destruct (writelines_new_entries_endswith _ Hne Hentries) as [Hw Hend].
  exists updated, (new_entries n names).
  split; [apply writelines_app|]. split; [exact Hkept|].
  split; [exact Hne|]. split; [exact Hentries|]. split.
  - rewrite writelines_app. now rewrite endswith_nl_app.
  - intro Hfile.
    destruct (updated_endswith_nl _ _ Hfile Hkept) as [text Htext].
    destruct (new_entries n names) as [|e rest] eqn:E; [congruence|].
    inversion Hentries as [|? ? (body & -> & _) _]; subst.
    exists text, body, rest. split; [exact Htext|]. split; [reflexivity|].
    rewrite writelines_app, Htext, writelines_cons.
    now rewrite !append_assoc.
Qed.

(** A manifest that ends with a newline, one file added. *)
Lemma update_file_entries_newlines_witness :
  exists updated appended,
    ("1 a.rgz" ++ nl ++ nl ++ "2 b.rgz")%string
      = (writelines updated ++ writelines appended)%string /\
    Forall2 kept_or_commented (readlines ("1 a.rgz" ++ nl)) updated /\
    appended <> [] /\
    Forall (fun entry =>
              exists body, entry = (nl ++ body)%string /\ body <> "" /\
                           endswith body nl = false) appended /\
    endswith ("1 a.rgz" ++ nl ++ nl ++ "2 b.rgz") nl = false /\
    (endswith ("1 a.rgz" ++ nl) nl = true ->
     exists text body rest,
       writelines updated = (text ++ nl)%string /\
       appended = (nl ++ body)%string :: rest /\
       ("1 a.rgz" ++ nl ++ nl ++ "2 b.rgz")%string
         = (text ++ nl ++ nl ++ body ++ writelines rest)%string).
Proof.
  apply (update_file_entries_newlines insertion_order
           ("A" ++ String TAB "data/b.rgz" ++ nl) ("1 a.rgz" ++ nl)
           [("1", "a.rgz")] [("b.rgz", "A")]).
  - reflexivity.
  - reflexivity.
  - exists "b.rgz". left. simpl. tauto.
Defined.

(** ** The manifest updater without changes, and on blank lines *)

Lemma rewritten_no_changes (ve : dict) (lines updated : list string) :
  Forall2 (rewritten ve []) lines updated -> updated = lines.
Proof.
  induction 1 as [|l l' ls ls' Hrw _ IH]; [reflexivity|].
  f_equal; [|exact IH].
  destruct Hrw as [[(num & f & _ & _ & _ & [[]|[]] & _) _]|[_ ->]].
  reflexivity.
Qed.

Lemma update_line_Ok_iff (lo : dict) (line : string) (acc : list string) :
  (exists acc', update_line lo line acc = Ok acc') <->
  well_formed_line line = true.
Proof.
  unfold update_line, well_formed_line. fold (is_comment line).
  destruct (is_comment line); [split; eauto|]. simpl.
  destruct (contains " " (strip line)) eqn:Hc.
  - split; [reflexivity|]. intros _.
    destruct (split1_sep _ _ Hc) as (a & b & -> & _). simpl.
    destruct (match dict_get lo b with Some n => _ | None => _ end); eauto.
  - rewrite (unpack2_split1_no_sep _ _ Hc). simpl.
    split; [intros [? [=]] | discriminate].
Qed.

Lemma update_lines_Ok_iff (lo : dict) (lines acc : list string) :
  (exists updated, for_each lines (update_line lo) acc = Ok updated) <->
  Forall (fun line => well_formed_line line = true) lines.
Proof.
  revert acc. induction lines as [|line lines IH]; intro acc; simpl.
  - split; [constructor | eauto].
  - split.
    + intros [updated H]. apply bind_Ok in H as (acc' & Hl & Hr).
      constructor.
      * apply (update_line_Ok_iff lo line acc). eauto.
      * apply (IH acc'). eauto.
    + inversion 1 as [|? ? Hl Hr]; subst.
      apply (update_line_Ok_iff lo line acc) in Hl as [acc' ->]. simpl.
      now apply IH.
Qed.

Lemma map_int_Ok_iff (ks : list string) :
  (exists ids, map_int ks = Ok ids) <-> Forall int_literal ks.
Proof.
  split.
  - intros [ids H]. apply map_int_Ok in H.
    induction H; constructor; [eexists; eassumption | assumption].
  - apply map_int_total.
Qed.

Lemma universal_newlines_no_CR (s : string) :
  contains CR s = false -> universal_newlines false s = s.
Proof.
  induction s as [|c s IH]; [reflexivity|].
  simpl. intro H. apply orb_false_iff in H as [Hc Hs].
  rewrite Hc, (IH Hs). now destruct (Ascii.eqb_spec c LF) as [->|_].
Qed.

Lemma update_line_blank (lo : dict) (line : string) (acc : list string) :
  is_blank line = true ->
  update_line lo line acc = Raise (ValueError_unpack 2 1).
Proof.
  unfold is_blank, update_line. intro H. apply String.eqb_eq in H.
  now rewrite H.
Qed.

(** The updater raises on a manifest with a blank line, whatever the
    mapping and the changes. *)
Lemma update_file_entries_blank_line (SI : SetIteration) (file line : string)
    (ve : dict) (changes : list change) :
  In line (readlines file) -> is_blank line = true ->
  (exists k, In k (keys ve) /\ ~ int_literal k /\
     update_file_entries SI file ve changes = Raise (ValueError_int k)) \/
  Forall int_literal (keys ve) /\
  update_file_entries SI file ve changes = Raise (ValueError_unpack 2 1).
Proof.
  intros Hin Hblank. unfold update_file_entries.
  destruct (map_int (keys ve)) as [ids|e] eqn:Hids; simpl.
  - right. split; [apply map_int_Ok_iff; eauto|].
    rewrite (for_each_raises _ (ValueError_unpack 2 1) _ line); try assumption.
    + reflexivity.
    + intros y t e'. apply update_line_Raise.
    + intro t. now apply update_line_blank.
  - left. apply map_int_Raise in Hids as (k & Hk & Hr & ->).
    exists k. repeat split; [exact Hk|]. intros [n Hn]. congruence.
Qed.

(** *** Blank lines *)

Lemma lstrip_all_space (s : string) : all_space s = true -> lstrip s = "".
Proof.
  induction s as [|c s IH]; [reflexivity|].
  simpl. intro H. apply andb_true_iff in H as [-> H]. now apply IH.
Qed.



Lemma all_space_app (a b : string) :
  all_space (a ++ b) = all_space a && all_space b.
Proof.
  induction a as [|c a IH]; [reflexivity|].
  simpl. now rewrite IH, andb_assoc.
Qed.








(** ** The publisher *)

Section PublisherFacts.

Context {world : Type} (runner : world -> list string -> outcome * world).

Lemma subprocess_run_succeeds (cmd : list string) (w w1 : world)
    (log : list event) :
  has_nul cmd = false -> runner w cmd = (Exited 0, w1) ->
  subprocess_run world runner cmd (w, log)
  = (Ok tt, (w1, log ++ [Called cmd])).
Proof. unfold subprocess_run. now intros -> ->. Qed.

Lemma subprocess_run_fails (cmd : list string) (w w1 : world)
    (log : list event) (rc : Z) :
  has_nul cmd = false -> runner w cmd = (Exited rc, w1) -> rc <> 0%Z ->
  subprocess_run world runner cmd (w, log)
  = (Raise (CalledProcessError cmd rc), (w1, log ++ [Called cmd])).
Proof. unfold subprocess_run. intros -> -> H. now destruct rc. Qed.

Lemma subprocess_run_not_started (cmd : list string) (w w1 : world)
    (log : list event) :
  has_nul cmd = false -> runner w cmd = (NotStarted, w1) ->
  subprocess_run world runner cmd (w, log)
  = (Raise (OSError cmd), (w1, log ++ [Called cmd])).
Proof. unfold subprocess_run. now intros -> ->. Qed.

Lemma subprocess_run_null_byte (cmd : list string) (w : world)
    (log : list event) :
  has_nul cmd = true ->
  subprocess_run world runner cmd (w, log)
  = (Raise ValueError_null_byte, (w, log ++ [Called cmd])).
Proof. unfold subprocess_run. now intros ->. Qed.

(** A handler that returns makes the [try] statement return or raise
    something else than [CalledProcessError]. *)
Lemma try_except_never_CalledProcessError
    (body : pstate world -> result unit * pstate world)
    (handler : exn -> pstate world -> result unit * pstate world)
    (st : pstate world) (cmd : list string) (rc : Z) :
  (forall e st', fst (handler e st') = Ok tt) ->
  fst (try_except_CalledProcessError world body handler st)
  <> Raise (CalledProcessError cmd rc).
Proof.
  intro Hh. unfold try_except_CalledProcessError.
  destruct (body st) as [[u|e] st']; simpl; [discriminate|].
  destruct e; simpl; try discriminate. now rewrite Hh.
Qed.

End PublisherFacts.

Ltac publisher_step Hdone :=
  cbn [all_succeed] in Hdone;
  let Hnul := fresh "Hnul" in
  let Hstep := fresh "Hstep" in
  destruct Hdone as (Hnul & ? & Hstep & Hdone);
  rewrite (subprocess_run_succeeds _ _ _ _ _ Hnul Hstep).

Ltac publisher_fails Hdone Hnul Hrun Hrc :=
  cbn [all_succeed] in Hdone; subst;
  rewrite (subprocess_run_fails _ _ _ _ _ _ Hnul Hrun Hrc);
  unfold print; simpl; rewrite <- ?app_assoc; reflexivity.

Ltac publisher_not_started Hdone Hnul Hrun :=
  cbn [all_succeed] in Hdone; subst;
  rewrite (subprocess_run_not_started _ _ _ _ _ Hnul Hrun);
  simpl; rewrite <- ?app_assoc; reflexivity.

(** When the five commands exit with status 0, they are all run and the
    success is printed. *)
Lemma commit_and_push_file_succeeds (world : Type)
    (runner : world -> list string -> outcome * world)
    (file_path commit_message : string) (w w' : world) (log : list event) :
  all_succeed runner w (git_commands file_path commit_message) w' ->
  commit_and_push_file world runner file_path commit_message (w, log)
  = (Ok tt,
     (w',
      log ++ map Called (git_commands file_path commit_message) ++
      [Printed ("Successfully committed and pushed " ++ file_path)%string])).
Proof.
  intro Hdone. unfold git_commands in *.
  unfold commit_and_push_file, try_except_CalledProcessError, seq.
  do 5 publisher_step Hdone.
  simpl in Hdone. subst. unfold print. simpl.
  now rewrite <- !app_assoc.
Qed.

(** C8, as amended.  Whatever the command runner does, the publisher
    does not raise [CalledProcessError].  When one of the five commands
    is the first to exit with another status than 0, no later command is
    run, the error message is printed with that error, and the publisher
    returns. *)
Theorem commit_and_push_file_catches (world : Type)
    (runner : world -> list string -> outcome * world)
    (file_path commit_message : string) (w : world) (log : list event) :
  (forall cmd rc,
      fst (commit_and_push_file world runner file_path commit_message (w, log))
      <> Raise (CalledProcessError cmd rc)) /\
  (forall done cmd rest rc w1 w2,
      git_commands file_path commit_message = done ++ cmd :: rest ->
      all_succeed runner w done w1 ->
      has_nul cmd = false ->
      runner w1 cmd = (Exited rc, w2) -> rc <> 0%Z ->
      commit_and_push_file world runner file_path commit_message (w, log)
      = (Ok tt,
         (w2,
          log ++ map Called (done ++ [cmd]) ++
          [PrintedError "Error committing and pushing file:"
                        (CalledProcessError cmd rc)]))).
Proof.
  split.
  - intros cmd rc. apply try_except_never_CalledProcessError. reflexivity.
  - intros done cmd rest rc w1 w2 Hcmds Hdone Hnul Hrun Hrc.
    unfold git_commands in Hcmds.
    unfold commit_and_push_file, try_except_CalledProcessError, seq.
    do 5 (destruct done as [|? done]; simpl in Hcmds;
          [ injection Hcmds as <-; intros;
            publisher_fails Hdone Hnul Hrun Hrc
          | injection Hcmds as <- Hcmds; publisher_step Hdone ]).
    destruct done; discriminate.
Qed.

(** The push fails: four commands and then the fifth are run, the error
    is printed, nothing is raised. *)
Lemma commit_and_push_file_catches_witness :
  commit_and_push_file nat push_fails "patch/patchlist/patch9.txt"
                       "Update patch file [skip ci]" (0, [])
  = (Ok tt,
     (5,
      [] ++
      map Called
        ([ ["git"; "config"; "--global"; "user.name"; "github-actions"];
           ["git"; "config"; "--global"; "user.email";
            "github-actions@github.com"];
           ["git"; "add"; "patch/patchlist/patch9.txt"];
           ["git"; "commit"; "-m"; "Update patch file [skip ci]"] ] ++
         [["git"; "push"]]) ++
      [PrintedError "Error committing and pushing file:"
                    (CalledProcessError ["git"; "push"] 1)])).
Proof.
  apply (proj2 (commit_and_push_file_catches nat push_fails
                  "patch/patchlist/patch9.txt" "Update patch file [skip ci]"
                  0 [])) with (rest := []) (w1 := 4).
  - reflexivity.
  - simpl. repeat (split; [reflexivity|]; eexists; split; [reflexivity|]).
    reflexivity.
  - reflexivity.
  - reflexivity.
  - discriminate.
Defined.

(** C8 as it was stated fails for a step that fails otherwise than by
    its status: when the executable cannot be launched, the first step
    raises [OSError], which the handler does not catch; the publisher
    raises it to its caller and nothing is printed. *)
Lemma launch_failure_escapes_publisher :
  commit_and_push_file nat git_missing "patch/patchlist/patch9.txt"
                       "Update patch file [skip ci]" (0, [])
  = (Raise
       (OSError ["git"; "config"; "--global"; "user.name"; "github-actions"]),
     (0,
      [Called
         ["git"; "config"; "--global"; "user.name"; "github-actions"]])).
Proof. reflexivity. Qed.

(** * Further properties of the script *)

(** ** The readers: what they return and when *)

Lemma for_each_Ok_iff {A S : Type} (body : A -> S -> result S)
    (ok : A -> bool) (xs : list A) (s : S) :
  (forall x t, (exists t', body x t = Ok t') <-> ok x = true) ->
  (exists s', for_each xs body s = Ok s') <->
  Forall (fun x => ok x = true) xs.
Proof.
  intro Hbody. revert s. induction xs as [|x xs IH]; intro s; simpl.
  - split; [constructor | eauto].
  - split.
    + intros [s' H]. apply bind_Ok in H as (t & Hx & Hr). constructor.
      * apply (Hbody x s). eauto.
      * apply (IH t). eauto.
    + inversion 1 as [|? ? Hx Hr]; subst.
      apply (Hbody x s) in Hx as [t ->]. simpl. now apply IH.
Qed.

Lemma contains_basename (c : ascii) (p : string) :
  contains c (basename p) = true -> contains c p = true.
Proof.
  induction p as [|a p IH]; [discriminate|].
  cbn [basename]. destruct (contains "/" p).
  - intro H. cbn [contains]. rewrite (IH H). apply orb_true_r.
  - destruct (Ascii.eqb a "/"); [|tauto].
    intro H. cbn [contains]. rewrite H. apply orb_true_r.
Qed.

Lemma basename_has_no_slash (p : string) : contains "/" (basename p) = false.
Proof.
  induction p as [|a p IH]; [reflexivity|].
  cbn [basename]. destruct (contains "/" p) eqn:Hp; [exact IH|].
  destruct (Ascii.eqb a "/") eqn:Ha; [exact Hp|].
  cbn [contains]. now rewrite Ha, Hp.
Qed.

(** Where a record of the reader comes from: a line of the report whose
    stripped text is a status, a tab and a path with one of the two
    suffixes. *)
Lemma get_changes_loop_origin (lines : list string) (acc out : list change) :
  for_each lines get_changes_body acc = Ok out ->
  exists new,
    out = acc ++ new /\
    Forall (fun c =>
              exists line path,
                In line lines /\
                strip line = (snd c ++ String TAB path)%string /\
                contains TAB (snd c) = false /\
                (endswith path ".rgz" = true \/ endswith path ".gpf" = true)
                /\ fst c = basename path) new.
Proof.
  revert acc. induction lines as [|line lines IH]; intro acc; simpl.
  - intros [= <-]. exists []. split; [now rewrite app_nil_r | constructor].
  - intro H. apply bind_Ok in H as (acc' & Hbody & Hrest).
    apply IH in Hrest as (new & -> & Hnew).
    assert (Hnew' : Forall
              (fun c =>
                 exists line0 path,
                   (line = line0 \/ In line0 lines) /\
                   strip line0 = (snd c ++ String TAB path)%string /\
                   contains TAB (snd c) = false /\
                   (endswith path ".rgz" = true \/
                    endswith path ".gpf" = true)
                   /\ fst c = basename path) new).
    { eapply Forall_impl; [|exact Hnew].
      intros c (l & p & Hin & Hrest). exists l, p. tauto. }
    unfold get_changes_body in Hbody.
    destruct (negb (strip line =? "")%string).
    + apply bind_Ok in Hbody as ([status path] & Hsplit & Hbody).
      apply unpack2_split1_Ok in Hsplit as [Heq Hst].
      destruct (endswith path ".rgz" || endswith path ".gpf") eqn:Hsuf.
      * injection Hbody as <-.
        exists ((basename path, status) :: new).
        split; [now rewrite <- app_assoc|].
        constructor; [|exact Hnew'].
        exists line, path. apply orb_true_iff in Hsuf. simpl. tauto.
      * injection Hbody as <-. exists new. auto.
    + injection Hbody as <-. exists new. auto.
Qed.

(** X1.  Every record the change-report reader returns names a file with
    one of the two suffixes, and names it without any directory. *)
Theorem get_changes_only_assets (changed_files : string)
    (changes : list change) :
  get_changes changed_files = Ok changes ->
  Forall (fun c => asset c /\ contains "/" (fst c) = false) changes.
Proof.
  intro H. apply get_changes_loop_origin in H as (new & -> & Hnew).
  simpl. eapply Forall_impl; [|exact Hnew].
  intros c (line & path & _ & _ & _ & Hsuf & Hfst). split.
  - unfold asset. rewrite Hfst. destruct Hsuf as [H|H]; [left|right];
      now apply endswith_basename.
  - rewrite Hfst. apply basename_has_no_slash.
Qed.

(** A report with a path in a directory and a file that is no asset. *)
Lemma get_changes_only_assets_witness :
  Forall (fun c => asset c /\ contains "/" (fst c) = false)
         [("b.gpf", "M")].
Proof.
  apply (get_changes_only_assets
           ("M" ++ String TAB "data/sub/b.gpf" ++ nl ++
            "A" ++ String TAB "readme.txt" ++ nl)).
  reflexivity.
Defined.

Lemma get_changes_body_Ok_iff (line : string) (output : list change) :
  (exists output', get_changes_body line output = Ok output') <->
  report_line_ok line = true.
Proof.
  unfold get_changes_body, report_line_ok, is_blank.
  destruct (strip line =? "")%string; simpl; [split; eauto|].
  destruct (contains TAB (strip line)) eqn:Hc.
  - split; [reflexivity|]. intros _.
    destruct (split1_sep _ _ Hc) as (a & b & -> & _). simpl.
    destruct (endswith b ".rgz" || endswith b ".gpf"); eauto.
  - rewrite (unpack2_split1_no_sep _ _ Hc). simpl.
    split; [intros [? [=]] | discriminate].
Qed.

(** X2.  The change-report reader returns exactly when every line of the
    report is blank or has a tab inside its stripped text; a tab at the
    end of a line does not count. *)
Theorem get_changes_returns_iff (changed_files : string) :
  (exists changes, get_changes changed_files = Ok changes) <->
  Forall (fun line => report_line_ok line = true) (readlines changed_files).
Proof. apply for_each_Ok_iff. exact get_changes_body_Ok_iff. Qed.

Lemma current_patchfile_body_Ok_iff (line : string) (current : dict) :
  (exists current', current_patchfile_body line current = Ok current') <->
  manifest_line_ok line = true.
Proof.
  unfold current_patchfile_body, manifest_line_ok. fold (is_comment line).
  destruct (is_comment line); simpl; [split; eauto|].
  destruct (contains " " line) eqn:Hc.
  - split; [reflexivity|]. intros _.
    destruct (split1_sep _ _ Hc) as (a & b & -> & _). simpl. eauto.
  - rewrite (unpack2_split1_no_sep _ _ Hc). simpl.
    split; [intros [? [=]] | discriminate].
Qed.

(** X3.  The manifest reader returns exactly when every line of the
    manifest is a comment or holds a space. *)
Theorem current_patchfile_returns_iff (patch_file : string) :
  (exists current, current_patchfile patch_file = Ok current) <->
  Forall (fun line => manifest_line_ok line = true) (readlines patch_file).
Proof. apply for_each_Ok_iff. exact current_patchfile_body_Ok_iff. Qed.

(** ** The limit on digits *)

Lemma digit_value_bounds (c : ascii) :
  is_digit c = true -> (0 <= digit_value c <= 9)%Z.
Proof.
  unfold is_digit, digit_value. intro H.
  apply andb_true_iff in H as [H1 H2].
  apply N.leb_le in H1. apply N.leb_le in H2. lia.
Qed.

(** A literal of [len] characters stands for a number below [10 ^ len]. *)
Lemma parse_digits_bound (s : string) (acc : Z) (prev : bool) (n : Z) :
  (0 <= acc)%Z -> parse_digits acc prev s = Some n ->
  (0 <= n < (acc + 1) * 10 ^ Z.of_nat (String.length s))%Z.
Proof.
  revert acc prev. induction s as [|c s IH]; intros acc prev Hacc H.
  - simpl in H. destruct prev; [|discriminate]. injection H as <-.
    simpl. lia.
  - cbn [String.length]. rewrite Nat2Z.inj_succ, Z.pow_succ_r by lia.
    assert (Hp : (0 < 10 ^ Z.of_nat (String.length s))%Z)
      by (apply Z.pow_pos_nonneg; lia).
    cbn [parse_digits] in H. destruct (is_digit c) eqn:Hd.
    + pose proof (digit_value_bounds c Hd) as Hv.
      apply IH in H; [|lia]. nia.
    + destruct (Ascii.eqb c "_"); [|discriminate].
      destruct prev; [|discriminate].
      apply IH in H; [|lia]. nia.
Qed.

Lemma length_int_lstrip (s : string) :
  (String.length (int_lstrip s) <= String.length s)%nat.
Proof.
  induction s as [|c s IH]; simpl; [lia|].
  destruct (int_isspace c); simpl; lia.
Qed.

Lemma length_int_rstrip (s : string) :
  (String.length (int_rstrip s) <= String.length s)%nat.
Proof.
  induction s as [|c s IH]; simpl; [lia|].
  destruct (int_rstrip s); [destruct (int_isspace c)|]; simpl in *; lia.
Qed.

Lemma int_bound (k : string) (n : Z) :
  int k = Ok n -> (Z.abs n < 10 ^ Z.of_nat (String.length k))%Z.
Proof.
  unfold int.
  pose proof (length_int_lstrip k) as Hl.
  pose proof (length_int_rstrip (int_lstrip k)) as Hr.
  assert (Hlen : (String.length (int_rstrip (int_lstrip k))
                  <= String.length k)%nat) by lia.
  clear Hl Hr.
  assert (Hmono : forall m, (m <= String.length k)%nat ->
             (10 ^ Z.of_nat m <= 10 ^ Z.of_nat (String.length k))%Z)
    by (intros m Hm; apply Z.pow_le_mono_r; lia).
  assert (Hdigits : forall t z,
             (String.length t <= String.length k)%nat ->
             parse_digits 0 false t = Some z ->
             (0 <= z < 10 ^ Z.of_nat (String.length k))%Z).
  { intros t z Ht Hz. apply parse_digits_bound in Hz; [|lia].
    specialize (Hmono _ Ht). lia. }
  destruct (int_rstrip (int_lstrip k)) as [|c d]; [discriminate|].
  assert (Hd : (String.length d <= String.length k)%nat)
    by (simpl in Hlen; lia).
  destruct c as [[] [] [] [] [] [] [] []]; cbv beta iota zeta;
    match goal with
    | |- context [parse_digits 0 false ?t] =>
        destruct (parse_digits 0 false t) as [z|] eqn:Hz;
        cbn [option_map]; [|discriminate];
        intros [= <-]; apply Hdigits in Hz; [lia | assumption]
    end.
Qed.

Lemma max_default_abs (ids : list Z) (b : Z) :
  (0 < b)%Z -> Forall (fun n => Z.abs n < b)%Z ids ->
  (Z.abs (max_default ids 0) < b)%Z.
Proof.
  intros Hb Hids. destruct (max_default_spec ids 0) as (Hnil & Hin & _).
  destruct ids as [|x xs].
  - rewrite Hnil by reflexivity. simpl. lia.
  - rewrite Forall_forall in Hids. apply Hids, Hin. discriminate.
Qed.

(** Within the limit the interpreter converts whatever the updater
    converts: every key read stands for a number of fewer digits than the
    limit, and no identifier written has more digits than the limit. *)
Lemma within_digit_limit_sound (valid_entries : dict)
    (changes : list change) (ids : list Z) :
  within_digit_limit valid_entries changes ->
  map_int (keys valid_entries) = Ok ids ->
  Forall (fun n => Z.abs n < 10 ^ (max_str_digits - 1))%Z ids /\
  forall i,
    (0 <= i <= Z.of_nat (length changes))%Z ->
    (Z.abs (max_default ids 0 + 1 + i) < 10 ^ max_str_digits)%Z.
Proof.
  intros [Hkeys Hlen] Hids. apply map_int_Ok in Hids.
  assert (Hb : Forall (fun n => Z.abs n < 10 ^ (max_str_digits - 1))%Z ids).
  { revert Hkeys Hids. generalize (keys valid_entries).
    intros ks Hkeys Hids.
    induction Hids as [|k n ks ns Hk _ IH]; constructor.
    - apply Forall_inv in Hkeys. apply int_bound in Hk.
      assert (10 ^ Z.of_nat (String.length k) <= 10 ^ (max_str_digits - 1))%Z
        by (apply Z.pow_le_mono_r; lia).
      lia.
    - apply IH. now apply Forall_inv_tail in Hkeys. }
  split; [exact Hb|]. intros i Hi.
  assert (Hpow : (10 ^ max_str_digits = 10 * 10 ^ (max_str_digits - 1))%Z).
  { rewrite <- Z.pow_succ_r by (unfold max_str_digits; lia).
    f_equal; lia. }
  assert (Hbig : (10 ^ 20 <= 10 ^ (max_str_digits - 1))%Z)
    by (apply Z.pow_le_mono_r; unfold max_str_digits; lia).
  assert (Hpos : (0 < 10 ^ (max_str_digits - 1))%Z)
    by (apply Z.pow_pos_nonneg; unfold max_str_digits; lia).
  apply (max_default_abs ids _ Hpos) in Hb.
  rewrite Hpow. clear Hpow.
  remember (10 ^ (max_str_digits - 1))%Z as b eqn:Eb. clear Eb.
  change (2 ^ 64)%Z with 18446744073709551616%Z in Hlen.
  change (10 ^ 20)%Z with 100000000000000000000%Z in Hbig.
  lia.
Qed.

(** ** The updater: when it returns, and what it leaves alone *)

Lemma update_lines_Raise (lo : dict) (lines acc : list string) (e : exn) :
  for_each lines (update_line lo) acc = Raise e ->
  Exists (fun line => well_formed_line line = false) lines /\
  e = ValueError_unpack 2 1.
Proof.
  revert acc. induction lines as [|line lines IH]; intro acc; simpl;
    [discriminate|].
  destruct (update_line lo line acc) as [acc'|e'] eqn:Hl; simpl.
  - intro H. destruct (IH _ H) as [Hex He]. auto.
  - intros [= <-]. split; [|eapply update_line_Raise, Hl].
    apply Exists_cons_hd.
    destruct (well_formed_line line) eqn:Hw; [|reflexivity].
    apply (update_line_Ok_iff lo line acc) in Hw as [acc' Hw]. congruence.
Qed.

(** X4.  With identifiers within the limit on digits, the updater
    returns exactly when every key of the mapping is an integer literal
    and every line of the manifest is a comment or has a space once
    stripped.  When it raises, it raises the [ValueError] of [int] for a
    key that is no literal, or else, the keys being literals, the
    unpacking [ValueError] of a line. *)
Theorem update_file_entries_outcome (SI : SetIteration) (file : string)
    (valid_entries : dict) (changes : list change) :
  within_digit_limit valid_entries changes ->
  ((exists out, update_file_entries SI file valid_entries changes = Ok out)
   <->
   Forall int_literal (keys valid_entries) /\
   Forall (fun line => well_formed_line line = true) (readlines file)) /\
  (forall e,
      update_file_entries SI file valid_entries changes = Raise e ->
      (exists k, In k (keys valid_entries) /\ ~ int_literal k /\
                 e = ValueError_int k) \/
      (Forall int_literal (keys valid_entries) /\
       Exists (fun line => well_formed_line line = false) (readlines file) /\
       e = ValueError_unpack 2 1)).
Proof.
  intros _. split.
  - split.
    + intros [out H].
      apply update_file_entries_Ok in H as (ids & updated & Hi & Hu & _).
      split; [apply map_int_Ok_iff | eapply update_lines_Ok_iff]; eauto.
    + intros [Hk Hl]. apply map_int_Ok_iff in Hk as [ids Hi].
      apply (update_lines_Ok_iff
               (find_last_occurrences (with_status "D" changes)
                  (with_status "M" changes) valid_entries) _ [])
        in Hl as [updated Hu].
      eexists. apply update_file_entries_Ok. eauto.
  - intros e H. unfold update_file_entries in H.
    destruct (map_int (keys valid_entries)) as [ids|e'] eqn:Hi; simpl in H.
    + right. destruct (for_each _ _ _) as [updated|e'] eqn:Hu; simpl in H;
        [discriminate|]. injection H as ->.
      apply update_lines_Raise in Hu as [Hex ->].
      split; [apply map_int_Ok_iff; eauto | auto].
    + left. injection H as ->.
      apply map_int_Raise in Hi as (k & Hk & Hr & ->).
      exists k. repeat split; [exact Hk|]. intros [n Hn]. congruence.
Qed.

(** A manifest of two entries, the second with a key that is no
    literal, and a file added. *)
Lemma update_file_entries_outcome_witness :
  ((exists out,
       update_file_entries insertion_order ("1 a.rgz" ++ nl ++ "x b.rgz")
         [("1", "a.rgz"); ("x", "b.rgz")] [("c.rgz", "A")] = Ok out)
   <->
   Forall int_literal (keys [("1", "a.rgz"); ("x", "b.rgz")]) /\
   Forall (fun line => well_formed_line line = true)
          (readlines ("1 a.rgz" ++ nl ++ "x b.rgz"))) /\
  (forall e,
      update_file_entries insertion_order ("1 a.rgz" ++ nl ++ "x b.rgz")
        [("1", "a.rgz"); ("x", "b.rgz")] [("c.rgz", "A")] = Raise e ->
      (exists k, In k (keys [("1", "a.rgz"); ("x", "b.rgz")]) /\
                 ~ int_literal k /\ e = ValueError_int k) \/
      (Forall int_literal (keys [("1", "a.rgz"); ("x", "b.rgz")]) /\
       Exists (fun line => well_formed_line line = false)
              (readlines ("1 a.rgz" ++ nl ++ "x b.rgz")) /\
       e = ValueError_unpack 2 1)).
Proof.
  apply (update_file_entries_outcome insertion_order
           ("1 a.rgz" ++ nl ++ "x b.rgz")
           [("1", "a.rgz"); ("x", "b.rgz")] [("c.rgz", "A")]).
  split; [repeat constructor | reflexivity].
Defined.

Lemma with_status_known (st : string) (changes : list change) :
  st = "D" \/ st = "A" \/ st = "M" ->
  with_status st (filter known_status changes) = with_status st changes.
Proof.
  intro Hst. unfold with_status. f_equal.
  induction changes as [|c changes IH]; [reflexivity|].
  simpl. unfold known_status at 1.
  destruct (String.eqb_spec (snd c) st) as [E|E].
  - assert (Hk : (snd c =? "D")%string || (snd c =? "A")%string
                 || (snd c =? "M")%string = true).
    { rewrite E. destruct Hst as [->|[->| ->]]; reflexivity. }
    rewrite Hk. simpl. apply String.eqb_eq in E. rewrite E. now rewrite IH.
  - destruct ((snd c =? "D")%string || (snd c =? "A")%string
              || (snd c =? "M")%string); [|exact IH].
    simpl. apply String.eqb_neq in E. now rewrite E.
Qed.

(** X5.  The updater acts on the records with the status [D], [A] or [M]
    and on no other: the records with any other status can be left out
    of the change list without any difference to what it returns or
    raises. *)
Theorem update_file_entries_ignores_other_statuses (SI : SetIteration)
    (file : string) (valid_entries : dict) (changes : list change) :
  update_file_entries SI file valid_entries changes =
  update_file_entries SI file valid_entries (filter known_status changes).
Proof.
  unfold update_file_entries.
  rewrite !with_status_known by auto. reflexivity.
Qed.

(** X6.  When the change list neither adds nor modifies a file and none
    of the files it deletes is a value of the mapping, an updater that
    returns has written the manifest as it read it: nothing is
    deactivated, nothing is appended. *)
Theorem update_file_entries_unlisted_deletions (SI : SetIteration)
    (file : string) (valid_entries : dict) (changes : list change)
    (out : string) :
  (forall f, ~ In (f, "A") changes /\ ~ In (f, "M") changes) ->
  (forall f, In (f, "D") changes -> ~ In f (values valid_entries)) ->
  update_file_entries SI file valid_entries changes = Ok out ->
  out = universal_newlines false file.
Proof.
  intros Hnone Hdel H.
  apply update_file_entries_inv in H as (ids & updated & _ & Hrw & ->).
  assert (Ha : with_status "A" changes = []).
  { destruct (with_status "A" changes) as [|f l] eqn:E; [reflexivity|].
    exfalso. apply (proj1 (Hnone f)), with_status_In. rewrite E. now left. }
  assert (Hm : with_status "M" changes = []).
  { destruct (with_status "M" changes) as [|f l] eqn:E; [reflexivity|].
    exfalso. apply (proj2 (Hnone f)), with_status_In. rewrite E. now left. }
  rewrite Ha, Hm, iter_empty. simpl. rewrite app_nil_r.
  assert (Hsame : updated = readlines file).
  { clear - Hrw Hnone Hdel.
    induction Hrw as [|l l' ls ls' Hl _ IH]; [reflexivity|].
    f_equal; [|exact IH].
    destruct Hl as [[(num & f & _ & _ & _ & Hout & Hlast) _]|[_ ->]];
      [|reflexivity].
    exfalso. destruct Hout as [Hd|Hmod].
    - apply (Hdel _ Hd). apply is_last_occurrence_In in Hlast.
      unfold values. change f with (snd (num, f)). now apply in_map.
    - exact (proj2 (Hnone f) Hmod). }
  rewrite Hsame. apply writelines_lines_of.
Qed.

(** A file deleted that the manifest does not list, and a renamed one. *)
Lemma update_file_entries_unlisted_deletions_witness :
  ("1 a.rgz" ++ nl ++ "2 b.gpf" ++ nl)%string
  = universal_newlines false ("1 a.rgz" ++ nl ++ "2 b.gpf" ++ nl).
Proof.
  apply (update_file_entries_unlisted_deletions insertion_order
           ("1 a.rgz" ++ nl ++ "2 b.gpf" ++ nl)
           [("1", "a.rgz"); ("2", "b.gpf")]
           [("c.rgz", "D"); ("d.rgz", "R100")]).
  - intro f. split; simpl; intros [H|[H|[]]]; discriminate.
  - intros f [H|[H|[]]]; [|discriminate].
    injection H as <-. simpl. intros [H|[H|[]]]; discriminate.
  - reflexivity.
Defined.

(** X7.  A line the updater has deactivated stays out: with the two
    slashes before it, it is a comment, which the manifest reader passes
    over and the updater hands on as it is, whatever the changes. *)
Theorem deactivated_line_stays_out (line : string) :
  (forall current,
      current_patchfile_body ("//" ++ line) current = Ok current) /\
  (forall last_occurrences updated_lines,
      update_line last_occurrences ("//" ++ line) updated_lines
      = Ok (updated_lines ++ [("//" ++ line)%string])).
Proof.
  assert (H : is_comment ("//" ++ line) = true)
    by (apply startswith_slashes_is_comment; simpl; now destruct line).
  unfold is_comment in H. split.
  - intro current. unfold current_patchfile_body. now rewrite H.
  - intros lo acc. unfold update_line. now rewrite H.
Qed.

(** ** What the updater writes, read again *)

Lemma contains_all_digits (c : ascii) (s : string) :
  is_digit c = false -> all_digits s = true -> contains c s = false.
Proof.
  intro Hc. induction s as [|a s IH]; [reflexivity|].
  simpl. intro H. apply andb_true_iff in H as [Ha Hs].
  rewrite (IH Hs), orb_false_r.
  destruct (Ascii.eqb_spec a c) as [->|_]; [congruence | reflexivity].
Qed.

(** [str n] is a minus sign or nothing, and then digits. *)
Lemma str_shape (n : Z) :
  exists digits,
    all_digits digits = true /\ digits <> "" /\
    (str n = digits \/ str n = String "-" digits).
Proof.
  assert (Hpos : forall p,
             NilEmpty.string_of_uint (Pos.to_uint p) <> "").
  { intros p H. pose proof (Unsigned.to_uint_nonnil p) as Hn.
    destruct (Pos.to_uint p); [congruence | discriminate..]. }
  unfold str. destruct n as [|p|p]; cbn [Z.to_int NilZero.string_of_int].
  - exists "0". repeat split; [discriminate | now left].
  - rewrite IntStr.string_of_to_uint. eexists.
    split; [apply IntStr.string_of_uint_digits|]. split; [apply Hpos|].
    now left.
  - rewrite IntStr.string_of_to_uint. eexists.
    split; [apply IntStr.string_of_uint_digits|]. split; [apply Hpos|].
    now right.
Qed.

Lemma contains_str (c : ascii) (n : Z) :
  is_digit c = false -> c <> "-"%char -> contains c (str n) = false.
Proof.
  intros Hc Hm. destruct (str_shape n) as (d & Hd & _ & [-> | ->]).
  - now apply contains_all_digits.
  - cbn [contains]. rewrite (contains_all_digits _ _ Hc Hd), orb_false_r.
    apply Ascii.eqb_neq. congruence.
Qed.

(** [str n] begins with a character that is neither whitespace nor a
    slash. *)
Lemma str_head (n : Z) :
  exists c s, str n = String c s /\ isspace c = false /\ c <> "/"%char.
Proof.
  destruct (str_shape n) as (d & Hd & Hne & [-> | ->]).
  - destruct d as [|c s]; [congruence|]. exists c, s.
    simpl in Hd. apply andb_true_iff in Hd as [Hc _].
    split; [reflexivity|]. split; [now apply IntStr.is_digit_not_space|].
    intros ->. discriminate.
  - exists "-"%char, d. repeat split. discriminate.
Qed.

Lemma rstrip_head (c : ascii) (s : string) :
  isspace c = false -> exists r, rstrip (String c s) = String c r.
Proof.
  intro Hc. cbn [rstrip]. destruct (rstrip s); [rewrite Hc|]; eauto.
Qed.

Lemma strip_head (c : ascii) (s : string) :
  isspace c = false -> exists r, strip (String c s) = String c r.
Proof.
  intro Hc. unfold strip. cbn [lstrip]. rewrite Hc.
  now apply rstrip_head.
Qed.

Lemma split1_app (a b : string) (sep : ascii) :
  contains sep a = false -> split1 (a ++ String sep b) sep = [a; b].
Proof.
  induction a as [|c a IH]; simpl.
  - intros _. now rewrite Ascii.eqb_refl.
  - intro H. apply orb_false_iff in H as [Hc Ha].
    now rewrite Hc, (IH Ha).
Qed.

Lemma rstrip_app_nl (s : string) : rstrip (s ++ nl) = rstrip s.
Proof.
  induction s as [|c s IH]; [reflexivity|].
  cbn [append rstrip]. now rewrite IH.
Qed.

Lemma lstrip_app_nl (s : string) :
  all_space s = false -> lstrip (s ++ nl) = (lstrip s ++ nl)%string.
Proof.
  induction s as [|c s IH]; [discriminate|].
  cbn [append lstrip all_space]. destruct (isspace c); [exact IH | reflexivity].
Qed.

(** The newline that ends a line does not show in the stripped line. *)
Lemma strip_app_nl (s : string) : strip (s ++ nl) = strip s.
Proof.
  unfold strip. destruct (all_space s) eqn:Hs.
  - rewrite (lstrip_all_space s Hs).
    rewrite lstrip_all_space; [reflexivity|].
    rewrite all_space_app, Hs. reflexivity.
  - now rewrite lstrip_app_nl, rstrip_app_nl.
Qed.

Lemma numbered_line_not_comment (n : Z) (rest : string) :
  is_comment (str n ++ rest) = false.
Proof.
  unfold is_comment. destruct (str_head n) as (c & s & -> & Hc & Hs).
  cbn [append]. destruct (strip_head c (s ++ rest) Hc) as [r ->].
  cbn [startswith]. apply Ascii.eqb_neq in Hs.
  rewrite Ascii.eqb_sym in Hs. now rewrite Hs.
Qed.

Lemma numbered_line_entry (n : Z) (rest : string) (current : dict) :
  current_patchfile_body (str n ++ " " ++ rest) current
  = Ok (dict_set current (str n) (strip rest)).
Proof.
  unfold current_patchfile_body.
  pose proof (numbered_line_not_comment n (" " ++ rest)) as H.
  unfold is_comment in H. rewrite H. cbn [negb].
  change (" " ++ rest)%string with (String " " rest).
  rewrite split1_app by (now apply contains_str). reflexivity.
Qed.

(** X8.  An entry the updater appends is read back by the manifest
    reader, as the last line of the file or with a newline after it, as
    the entry it was written for: the key is the identifier as it was
    written, which [int] reads as the number it was, and the value is the
    filename, stripped. *)
Theorem appended_entry_read_back (n : Z) (filename : string)
    (current : dict) :
  current_patchfile_body (str n ++ " " ++ filename) current
    = Ok (dict_set current (str n) (strip filename)) /\
  current_patchfile_body (str n ++ " " ++ filename ++ nl) current
    = Ok (dict_set current (str n) (strip filename)) /\
  (forall v, dict_get (dict_set current (str n) v) (str n) = Some v) /\
  int (str n) = Ok n.
Proof.
  repeat split.
  - apply numbered_line_entry.
  - rewrite numbered_line_entry. now rewrite strip_app_nl.
  - intro v. now rewrite dict_get_set, String.eqb_refl.
  - apply IntStr.int_str.
Qed.

Lemma readlines_leading_newline (rest : string) :
  exists lines, readlines (nl ++ rest) = nl :: lines.
Proof. unfold readlines. simpl. eauto. Qed.

(** X9.  On an empty manifest, an updater with a file to add or to take
    as modified writes a text that begins with an empty line; on that
    text the manifest reader raises the unpacking [ValueError], and so
    does the updater, whatever its mapping and changes. *)
Theorem empty_manifest_leaves_blank_line (SI : SetIteration)
    (valid_entries : dict) (changes : list change) (out : string) :
  update_file_entries SI "" valid_entries changes = Ok out ->
  (exists f, In (f, "A") changes \/ In (f, "M") changes) ->
  (exists rest, out = (nl ++ rest)%string) /\
  current_patchfile out = Raise (ValueError_unpack 2 1) /\
  (forall SI' valid_entries' changes',
      exists e,
        update_file_entries SI' out valid_entries' changes' = Raise e).
Proof.
  intros H (f0 & Hf0).
  apply update_file_entries_inv in H as (ids & updated & _ & Hrw & ->).
  inversion Hrw; subst. simpl.
  assert (Hin : In f0 (with_status "A" changes ++
                       iter SI (with_status "M" changes))).
  { apply in_or_app. destruct Hf0 as [Hf0|Hf0]; [left|right].
    - now apply with_status_In.
    - apply iter_In. now apply with_status_In. }
  destruct (with_status "A" changes ++ iter SI (with_status "M" changes))
    as [|f names]; [destruct Hin|].
  cbn [new_entries]. rewrite writelines_cons.
  set (rest := (str (max_default ids 0 + 1) ++ " " ++ f
                ++ writelines (new_entries (max_default ids 0 + 1 + 1) names))
               %string).
  assert (Hout : ((nl ++ str (max_default ids 0 + 1) ++ " " ++ f)
                  ++ writelines (new_entries (max_default ids 0 + 1 + 1) names))
                 %string = (nl ++ rest)%string).
  { unfold rest. simpl. now rewrite !append_assoc. }
  rewrite Hout. destruct (readlines_leading_newline rest) as [lines Hl].
  split; [now exists rest|]. split.
  - apply for_each_raises with (x := nl).
    + exact current_patchfile_body_Raise.
    + rewrite Hl. now left.
    + intro d. now apply current_patchfile_body_no_space.
  - intros SI' ve' ch'.
    destruct (update_file_entries_blank_line SI' (nl ++ rest) nl ve' ch')
      as [(k & _ & _ & E)|[_ E]]; eauto.
    rewrite Hl. now left.
Qed.

(** The empty manifest and one file added. *)
Lemma empty_manifest_leaves_blank_line_witness :
  (exists rest, (nl ++ "1 a.rgz")%string = (nl ++ rest)%string) /\
  current_patchfile (nl ++ "1 a.rgz") = Raise (ValueError_unpack 2 1) /\
  (forall SI' valid_entries' changes',
      exists e,
        update_file_entries SI' (nl ++ "1 a.rgz") valid_entries' changes'
        = Raise e).
Proof.
  apply (empty_manifest_leaves_blank_line insertion_order []
           [("a.rgz", "A")]).
  - reflexivity.
  - exists "a.rgz". left. now left.
Defined.

(** ** The publisher: every way it can end *)

Ltac publisher_failed H :=
  first
    [ discriminate H
    | let Hlog := fresh "Hlog" in
      injection H as _ Hlog; rewrite <- ?app_assoc in Hlog;
      apply app_inv_head in Hlog; discriminate Hlog ].

Ltac publisher_next H runner :=
  match type of H with
  | context [if has_nul ?c then _ else _] =>
      destruct (has_nul c) eqn:?; cbn -[has_nul] in H;
      [publisher_failed H|];
      match type of H with
      | context [runner ?v c] =>
          destruct (runner v c) as [[[|?|?]|] ?] eqn:?;
          cbn -[has_nul] in H; try publisher_failed H
      end
  end.

(** X10.  The publisher runs its five commands and then prints that the
    file was committed and pushed exactly when the five commands, run in
    their order, all exit with status 0 (a command with a NUL character
    in an argument is not run, and so does not). *)
Theorem commit_and_push_file_success_iff (world : Type)
    (runner : world -> list string -> outcome * world)
    (file_path commit_message : string) (w w' : world) (log : list event) :
  commit_and_push_file world runner file_path commit_message (w, log)
  = (Ok tt,
     (w',
      log ++ map Called (git_commands file_path commit_message) ++
      [Printed ("Successfully committed and pushed " ++ file_path)%string]))
  <->
  all_succeed runner w (git_commands file_path commit_message) w'.
Proof.
  split; [|apply commit_and_push_file_succeeds].
  unfold commit_and_push_file, try_except_CalledProcessError, seq,
    subprocess_run, print, git_commands.
  cbn [map app all_succeed]. intro H. cbn -[has_nul] in H.
  do 5 publisher_next H runner.
  injection H as -> _.
  repeat match goal with
         | |- _ /\ _ => split
         | |- exists _, _ => eexists
         end; first [reflexivity | eassumption].
Qed.

(** X11.  When one of the five commands, its arguments free of NUL
    characters, is the first that cannot be launched, the commands before
    it having exited with status 0, the publisher raises [OSError] to its
    caller: the handler does not catch it, no later command is run and
    nothing is printed. *)
Theorem commit_and_push_file_propagates_OSError (world : Type)
    (runner : world -> list string -> outcome * world)
    (file_path commit_message : string) (w : world) (log : list event)
    (done : list (list string)) (cmd : list string)
    (rest : list (list string)) (w1 w2 : world) :
  git_commands file_path commit_message = done ++ cmd :: rest ->
  all_succeed runner w done w1 ->
  has_nul cmd = false ->
  runner w1 cmd = (NotStarted, w2) ->
  commit_and_push_file world runner file_path commit_message (w, log)
  = (Raise (OSError cmd), (w2, log ++ map Called (done ++ [cmd]))).
Proof.
  intros Hcmds Hdone Hnul Hrun.
  unfold git_commands in Hcmds.
  unfold commit_and_push_file, try_except_CalledProcessError, seq.
  do 5 (destruct done as [|? done]; simpl in Hcmds;
        [ injection Hcmds as <-; intros;
          publisher_not_started Hdone Hnul Hrun
        | injection Hcmds as <- Hcmds; publisher_step Hdone ]).
  destruct done; discriminate.
Qed.

(** The executable is missing when the file is to be staged. *)
Lemma commit_and_push_file_propagates_OSError_witness :
  commit_and_push_file nat add_not_started PATCH_FILE
                       "Update patch file [skip ci]" (0, [])
  = (Raise (OSError ["git"; "add"; PATCH_FILE]),
     (3,
      [] ++
      map Called
        ([ ["git"; "config"; "--global"; "user.name"; "github-actions"];
           ["git"; "config"; "--global"; "user.email";
            "github-actions@github.com"] ] ++
         [["git"; "add"; PATCH_FILE]]))).
Proof.
  apply (commit_and_push_file_propagates_OSError nat add_not_started
           PATCH_FILE "Update patch file [skip ci]" 0 [])
    with (rest := [ ["git"; "commit"; "-m"; "Update patch file [skip ci]"];
                    ["git"; "push"] ]) (w1 := 2).
  - reflexivity.
  - simpl. repeat (split; [reflexivity|]; eexists; split; [reflexivity|]).
    reflexivity.
  - reflexivity.
  - reflexivity.
Defined.

Ltac publisher_leaf k :=
  eexists k, _; split; [lia|]; cbv zeta;
  cbn [firstn nth Nat.sub map app git_commands];
  rewrite <- ?app_assoc; cbn [app];
  first
    [ left; split; reflexivity
    | right; left; eexists; split; [|reflexivity]; discriminate
    | right; right; left; reflexivity
    | right; right; right; split; [assumption | reflexivity] ].

Ltac publisher_case runner :=
  match goal with
  | |- context [if has_nul ?c then _ else _] =>
      destruct (has_nul c) eqn:?; cbn -[has_nul firstn nth Nat.sub];
      [|match goal with
        | |- context [runner ?v c] =>
            destruct (runner v c) as [[[|?|?]|] ?];
            cbn -[has_nul firstn nth Nat.sub]
        end]
  end.

(** Every run of the publisher: it ends when all the commands have
    exited with status 0, or at the first command that exits with
    another status, that cannot be launched, or that holds a NUL
    character. *)
Lemma publisher_cases (world : Type)
    (runner : world -> list string -> outcome * world)
    (file_path commit_message : string) (w : world) (log : list event) :
  exists k w',
    (1 <= k <= 5)%nat /\
    let cmds := git_commands file_path commit_message in
    let ran := map Called (firstn k cmds) in
    let r := commit_and_push_file world runner file_path commit_message
                                  (w, log) in
    (k = 5%nat /\
     r = (Ok tt,
          (w', log ++ ran ++
               [Printed ("Successfully committed and pushed " ++ file_path)
                        %string])))
    \/
    (exists rc,
        rc <> 0%Z /\
        r = (Ok tt,
             (w', log ++ ran ++
                  [PrintedError "Error committing and pushing file:"
                     (CalledProcessError (nth (k - 1) cmds []) rc)])))
    \/
    r = (Raise (OSError (nth (k - 1) cmds [])), (w', log ++ ran))
    \/
    (has_nul (nth (k - 1) cmds []) = true /\
     r = (Raise ValueError_null_byte, (w', log ++ ran))).
Proof.
  unfold commit_and_push_file, try_except_CalledProcessError, seq,
    subprocess_run, print.
  cbn -[has_nul firstn nth Nat.sub].
  repeat publisher_case runner;
    first [ publisher_leaf 1%nat | publisher_leaf 2%nat | publisher_leaf 3%nat
          | publisher_leaf 4%nat | publisher_leaf 5%nat ].
Qed.

Lemma commands_of_app (l1 l2 : list event) :
  commands_of (l1 ++ l2) = commands_of l1 ++ commands_of l2.
Proof. unfold commands_of. now rewrite flat_map_app. Qed.

Lemma commands_of_Called (cmds : list (list string)) :
  commands_of (map Called cmds) = cmds.
Proof. induction cmds as [|c cmds IH]; simpl; [|rewrite IH]; reflexivity. Qed.

Lemma messages_of_app (l1 l2 : list event) :
  messages_of (l1 ++ l2) = messages_of l1 ++ messages_of l2.
Proof. unfold messages_of. now rewrite filter_app. Qed.

Lemma messages_of_Called (cmds : list (list string)) :
  messages_of (map Called cmds) = [].
Proof. induction cmds as [|c cmds IH]; simpl; [|rewrite IH]; reflexivity. Qed.

(** X12.  Whatever the command runner does, the publisher calls
    [subprocess.run] on the first one, two, ... or five of its five
    commands, in their order, and on no other command; it returns exactly
    when it has printed a message, of which it prints one at most; and
    the only exceptions it lets through are [OSError], and the
    [ValueError] of a NUL character, which takes one in the path or in
    the message. *)
Theorem commit_and_push_file_runs_a_prefix (world : Type)
    (runner : world -> list string -> outcome * world)
    (file_path commit_message : string) (w : world) :
  let r := commit_and_push_file world runner file_path commit_message
                                (w, []) in
  let log := snd (snd r) in
  (exists k,
      (1 <= k <= 5)%nat /\
      commands_of log = firstn k (git_commands file_path commit_message)) /\
  (length (messages_of log) <= 1)%nat /\
  (fst r = Ok tt <-> length (messages_of log) = 1%nat) /\
  (forall e,
      fst r = Raise e ->
      (exists cmd, e = OSError cmd) \/
      (e = ValueError_null_byte /\
       has_nul [file_path; commit_message] = true)).
Proof.
  cbv zeta.
  destruct (publisher_cases world runner file_path commit_message w [])
    as (k & w' & Hk & [[_ H]|[(rc & _ & H)|[H|[Hnul H]]]]);
    cbv zeta in H; rewrite H; cbn [fst snd app];
    rewrite ?commands_of_app, ?messages_of_app, ?commands_of_Called,
      ?messages_of_Called; simpl; rewrite ?app_nil_r;
    (split; [exists k; split; [exact Hk | reflexivity]|]);
    (split; [lia|]); split;
    try (split; [reflexivity | reflexivity]);
    try (split; intro; discriminate);
    try discriminate.
  - intros e [= <-]. eauto.
  - intros e [= <-]. right. split; [reflexivity|].
    destruct k as [|[|[|[|[|[|k]]]]]]; try lia; simpl in Hnul;
      try discriminate Hnul.
    + apply orb_true_iff in Hnul as [-> |Hnul]; [reflexivity|discriminate].
    + apply orb_true_iff in Hnul as [-> |Hnul]; [|discriminate].
      apply orb_true_r.
Qed.

(** ** The script *)

(** X13.  The script leaves the change report as it is.  When a reader or
    the updater raises, the script ends with that exception, the
    manifest is left as it was and no command is run.  Otherwise the
    manifest holds what the updater returned, the publisher's commands
    are run after that, for the fixed path of the manifest and the fixed
    message, and the script returns or ends with [OSError]. *)
Theorem main_outcomes (world : Type)
    (runner : files -> world -> list string -> outcome * world)
    (SI : SetIteration) (fs : files) (w : world) :
  let run := main world runner SI fs w in
  let r := fst (fst run) in
  let fs' := snd (fst run) in
  let log := snd (snd run) in
  changed_files_txt fs' = changed_files_txt fs /\
  match update_manifest SI (changed_files_txt fs) (patch9_txt fs) with
  | Raise e => r = Raise e /\ fs' = fs /\ log = [] /\ fst (snd run) = w
  | Ok out =>
      patch9_txt fs' = out /\
      (exists k,
          (1 <= k <= 5)%nat /\
          commands_of log =
          firstn k (git_commands PATCH_FILE "Update patch file [skip ci]"))
      /\ (r = Ok tt \/ exists cmd, r = Raise (OSError cmd))
  end.
Proof.
  cbv zeta. unfold main.
  destruct (update_manifest SI (changed_files_txt fs) (patch9_txt fs))
    as [out|e]; [|simpl; auto].
  set (fs' := {| changed_files_txt := changed_files_txt fs;
                 patch9_txt := out |}).
  destruct (publisher_cases world (runner fs') PATCH_FILE
              "Update patch file [skip ci]" w [])
    as (k & w' & Hk & [[_ H]|[(rc & _ & H)|[H|[Hnul H]]]]);
    [..|exfalso;
        destruct k as [|[|[|[|[|[|k]]]]]]; try lia; discriminate Hnul];
    cbv zeta in H; rewrite H; cbn [fst snd app];
    rewrite ?commands_of_app, ?commands_of_Called; simpl; rewrite ?app_nil_r;
    (split; [reflexivity|]); (split; [reflexivity|]);
    (split; [exists k; split; [exact Hk | reflexivity]|]); eauto.
Qed.

(** ** More about texts and lines *)

Lemma append_eq_empty (a b : string) : (a ++ b)%string = "" -> b = "".
Proof. destruct a; [tauto | discriminate]. Qed.

Lemma rstrip_app (a b : string) :
  rstrip b <> "" -> rstrip (a ++ b) = (a ++ rstrip b)%string.
Proof.
  intro Hb. induction a as [|c a IH]; [reflexivity|].
  cbn [append rstrip]. rewrite IH.
  destruct (a ++ rstrip b)%string eqn:E; [|reflexivity].
  apply append_eq_empty in E. congruence.
Qed.

Lemma rstrip_idem (s : string) : rstrip (rstrip s) = rstrip s.
Proof.
  induction s as [|c s IH]; [reflexivity|].
  cbn [rstrip]. destruct (rstrip s) as [|a r] eqn:E.
  - destruct (isspace c) eqn:Hc; [reflexivity|]. simpl. now rewrite Hc.
  - cbn [rstrip]. cbn [rstrip] in IH. now rewrite IH.
Qed.

Lemma lstrip_cases (s : string) :
  lstrip s = "" \/ exists c r, lstrip s = String c r /\ isspace c = false.
Proof.
  induction s as [|c s IH]; [now left|].
  cbn [lstrip]. destruct (isspace c) eqn:Hc; [exact IH | right; eauto].
Qed.

Lemma lstrip_head (c : ascii) (s : string) :
  isspace c = false -> lstrip (String c s) = String c s.
Proof. intro H. cbn [lstrip]. now rewrite H. Qed.

(** Stripping a stripped text changes nothing. *)
Lemma strip_idem (s : string) : strip (strip s) = strip s.
Proof.
  unfold strip. destruct (lstrip_cases s) as [-> | (c & r & -> & Hc)];
    [reflexivity|].
  destruct (rstrip_head c r Hc) as [r' E].
  rewrite E, (lstrip_head _ _ Hc), <- E. apply rstrip_idem.
Qed.

Lemma lines_of_nonempty (c : ascii) (s : string) :
  lines_of (String c s) <> [].
Proof.
  cbn [lines_of]. destruct (Ascii.eqb c LF); [discriminate|].
  destruct (lines_of s); discriminate.
Qed.

(** A line that ends is a line of its own. *)
Lemma lines_of_terminated (body rest : string) :
  contains LF body = false ->
  lines_of (body ++ nl ++ rest) = (body ++ nl)%string :: lines_of rest.
Proof.
  induction body as [|c body IH]; [reflexivity|].
  cbn [append contains lines_of]. intro H.
  apply orb_false_iff in H as [Hc Hb]. rewrite Hc.
  cbn [append] in IH. now rewrite (IH Hb).
Qed.

Lemma lines_of_open (body : string) :
  body <> "" -> contains LF body = false -> lines_of body = [body].
Proof.
  induction body as [|c body IH]; [congruence|].
  intros _ H. cbn [contains] in H. apply orb_false_iff in H as [Hc Hb].
  cbn [lines_of]. rewrite Hc.
  destruct body as [|a body]; [reflexivity|].
  now rewrite IH by (discriminate || assumption).
Qed.

Lemma lines_of_app (a b : string) :
  a = "" \/ endswith a nl = true ->
  lines_of (a ++ b) = lines_of a ++ lines_of b.
Proof.
  induction a as [|c a IH]; [reflexivity|].
  intros [H|H]; [discriminate|]. apply endswith_nl_cons in H.
  cbn [append lines_of]. destruct (Ascii.eqb c LF) eqn:Hc.
  - rewrite IH; [reflexivity|]. destruct H as [[-> _]|H]; auto.
  - destruct H as [[_ ->]|H]; [discriminate|].
    rewrite IH by auto.
    destruct a as [|x a]; [discriminate|].
    pose proof (lines_of_nonempty x a) as Hne.
    destruct (lines_of (String x a)); [congruence | reflexivity].
Qed.

Lemma universal_newlines_app (a b : string) (after_cr : bool) :
  endswith a nl = true ->
  universal_newlines after_cr (a ++ b)
  = (universal_newlines after_cr a ++ universal_newlines false b)%string.
Proof.
  revert after_cr. induction a as [|c a IH]; [discriminate|].
  intros after_cr H. apply endswith_nl_cons in H.
  cbn [append universal_newlines].
  destruct H as [[-> ->]|H].
  - simpl. now destruct after_cr.
  - destruct (Ascii.eqb c CR); [now rewrite IH|].
    destruct (Ascii.eqb c LF); [destruct after_cr|]; now rewrite IH.
Qed.

(** The lines of two texts put together, the first ending with a
    newline, are the lines of the one and then the lines of the other. *)
Lemma readlines_app (a b : string) :
  endswith a nl = true -> readlines (a ++ b) = readlines a ++ readlines b.
Proof.
  intro H. unfold readlines. rewrite universal_newlines_app by exact H.
  apply lines_of_app.
  destruct (universal_newlines_endswith a H false) as [[E _]|E];
    [discriminate | now right].
Qed.

Lemma contains_universal_newlines_CR (s : string) (after_cr : bool) :
  contains CR (universal_newlines after_cr s) = false.
Proof.
  revert after_cr. induction s as [|c s IH]; intro b; [reflexivity|].
  cbn [universal_newlines].
  destruct (Ascii.eqb c CR) eqn:Hc; [cbn [contains]; now rewrite IH|].
  destruct (Ascii.eqb c LF) eqn:Hl.
  - destruct b; [apply IH|]. cbn [contains]. now rewrite IH.
  - cbn [contains]. now rewrite Hc, IH.
Qed.

Lemma contains_writelines (c : ascii) (ls : list string) :
  contains c (writelines ls) = existsb (contains c) ls.
Proof.
  induction ls as [|l ls IH]; [reflexivity|].
  now rewrite writelines_cons, contains_app, IH.
Qed.

(** A character of a line of a text is a character of the text. *)
Lemma contains_line (c : ascii) (t line : string) :
  In line (lines_of t) -> contains c t = false -> contains c line = false.
Proof.
  intros Hin Ht. rewrite <- (writelines_lines_of t), contains_writelines in Ht.
  destruct (contains c line) eqn:E; [|reflexivity].
  assert (H : existsb (contains c) (lines_of t) = true)
    by (apply existsb_exists; eauto).
  congruence.
Qed.

Lemma readlines_no_CR (file line : string) :
  In line (readlines file) -> contains CR line = false.
Proof.
  intro H. eapply contains_line; [exact H|].
  apply contains_universal_newlines_CR.
Qed.

(** The shape of a line: a text without newline, ended by a newline or,
    if not empty, left open. *)
Lemma lines_of_shape (t line : string) :
  In line (lines_of t) ->
  exists body,
    contains LF body = false /\
    (line = (body ++ nl)%string \/ line = body /\ body <> "").
Proof.
  revert line. induction t as [|c t IH]; intros line; [intros []|].
  cbn [lines_of]. destruct (Ascii.eqb c LF) eqn:Hc.
  - intros [<-|H]; [exists ""; auto | now apply IH].
  - destruct (lines_of t) as [|l ls] eqn:E.
    + intros [<-|[]]. exists (String c ""). cbn [contains].
      rewrite Hc. split; [reflexivity|]. right. split; [reflexivity|].
      discriminate.
    + intros [<-|H]; [|apply IH; now right].
      destruct (IH l (or_introl eq_refl)) as (body & Hb & Hl).
      exists (String c body). cbn [contains]. rewrite Hc, Hb.
      split; [reflexivity|].
      destruct Hl as [-> | [-> _]]; [left | right; split]; try reflexivity.
      discriminate.
Qed.

(** A stripped line holds no newline. *)
Lemma strip_line_no_LF (t line : string) :
  In line (lines_of t) -> contains LF (strip line) = false.
Proof.
  intro H. apply lines_of_shape in H as (body & Hb & [-> | [-> _]]).
  - rewrite strip_app_nl. now apply contains_strip.
  - now apply contains_strip.
Qed.

(** ** The change-report reader, record by record *)

Lemma get_changes_body_acc (line : string) (acc : list change) :
  get_changes_body line acc =
  new <- get_changes_body line [] ;; Ok (acc ++ new).
Proof.
  unfold get_changes_body.
  destruct (negb (strip line =? "")%string); simpl;
    [|now rewrite app_nil_r].
  destruct (unpack2 (split1 (strip line) TAB)) as [[status path]|e]; simpl;
    [|reflexivity].
  destruct (endswith path ".rgz" || endswith path ".gpf"); simpl;
    [reflexivity | now rewrite app_nil_r].
Qed.

Lemma get_changes_loop_acc (lines : list string) (acc : list change) :
  for_each lines get_changes_body acc =
  new <- for_each lines get_changes_body [] ;; Ok (acc ++ new).
Proof.
  revert acc. induction lines as [|line lines IH]; intro acc; simpl.
  - now rewrite app_nil_r.
  - rewrite get_changes_body_acc.
    destruct (get_changes_body line []) as [new|e]; simpl; [|reflexivity].
    rewrite IH, (IH new).
    destruct (for_each lines get_changes_body []) as [more|e]; simpl;
      [now rewrite app_assoc | reflexivity].
Qed.

(** X14.  Of two reports put together, the first ending with a newline,
    the reader returns the records of the first and then the records of
    the second, repeated records included; it raises what it raises on
    the first, or else on the second. *)
Theorem get_changes_app (report1 report2 : string) :
  endswith report1 nl = true ->
  get_changes (report1 ++ report2) =
  changes1 <- get_changes report1 ;;
  changes2 <- get_changes report2 ;;
  Ok (changes1 ++ changes2).
Proof.
  intro H. unfold get_changes.
  rewrite (readlines_app _ _ H), for_each_app.
  destruct (for_each (readlines report1) get_changes_body []) as [c1|e];
    simpl; [|reflexivity].
  apply get_changes_loop_acc.
Qed.

(** The same file reported twice. *)
Lemma get_changes_app_witness :
  get_changes (("M" ++ String TAB "a.rgz" ++ nl) ++
               ("M" ++ String TAB "dir/a.rgz" ++ nl))
  = Ok [("a.rgz", "M"); ("a.rgz", "M")].
Proof.
  rewrite (get_changes_app ("M" ++ String TAB "a.rgz" ++ nl)
                           ("M" ++ String TAB "dir/a.rgz" ++ nl)).
  - reflexivity.
  - reflexivity.
Defined.

Lemma lstrip_app_head (a b : string) :
  a <> "" -> lstrip a = a -> lstrip (a ++ b) = (a ++ b)%string.
Proof.
  destruct a as [|c a]; [congruence|]. intros _. cbn [append lstrip].
  destruct (isspace c); [|reflexivity].
  intro H. exfalso.
  assert (Hlen : forall s, String.length (lstrip s) <= String.length s).
  { induction s as [|x s IHs]; simpl; [lia|].
    destruct (isspace x); simpl; lia. }
  specialize (Hlen a). rewrite H in Hlen. simpl in Hlen. lia.
Qed.

(** X15.  A report of one line, a status, a tab, a path and a newline,
    gives one record, the name of the file without its directories with
    the status as it stands, when the path ends with one of the two
    suffixes, and no record when it does not. *)
Theorem get_changes_one_record (status path : string) :
  plain_record status path ->
  get_changes (status ++ String TAB path ++ nl) =
  Ok (if endswith path ".rgz" || endswith path ".gpf"
      then [(basename path, status)] else []).
Proof.
  intros (Hs & Hls & Htab & Hp & Hrp & Hlf & Hcr).
  rewrite contains_app in Hlf, Hcr.
  apply orb_false_iff in Hlf as [Hlf1 Hlf2].
  apply orb_false_iff in Hcr as [Hcr1 Hcr2].
  set (body := (status ++ String TAB path)%string).
  assert (Hbody : (status ++ String TAB path ++ nl)%string
                  = (body ++ nl ++ "")%string).
  { unfold body. now rewrite append_assoc. }
  assert (Hblf : contains LF body = false).
  { unfold body. rewrite contains_app. cbn [contains].
    now rewrite Hlf1, Hlf2. }
  assert (Hbcr : contains CR (body ++ nl ++ "") = false).
  { unfold body. rewrite !contains_app. cbn [contains].
    now rewrite Hcr1, Hcr2. }
  unfold get_changes, readlines.
  rewrite Hbody, (universal_newlines_no_CR _ Hbcr),
    (lines_of_terminated _ _ Hblf).
  cbn [lines_of for_each]. unfold get_changes_body.
  assert (Hstrip : strip (body ++ nl) = body).
  { rewrite strip_app_nl. unfold strip, body.
    rewrite (lstrip_app_head _ _ Hs Hls).
    rewrite rstrip_app.
    - cbn [rstrip]. rewrite Hrp. now destruct path.
    - cbn [rstrip]. rewrite Hrp. destruct path; [congruence | discriminate]. }
  rewrite Hstrip.
  assert (Hne : (body =? "")%string = false).
  { apply String.eqb_neq. unfold body. destruct status; [congruence|].
    discriminate. }
  rewrite Hne. cbn [negb]. unfold body.
  rewrite (split1_app _ _ _ Htab). simpl.
  now destruct (endswith path ".rgz" || endswith path ".gpf").
Qed.

(** A git status with a score, and a path with directories. *)
Lemma get_changes_one_record_witness :
  get_changes ("R100" ++ String TAB "data/maps/prt_fild08.gpf" ++ nl)
  = Ok [("prt_fild08.gpf", "R100")].
Proof.
  apply (get_changes_one_record "R100" "data/maps/prt_fild08.gpf").
  repeat split; discriminate.
Defined.

(** ** The manifest reader: what its mapping holds *)

Lemma Forall_dict_set (P : string * string -> Prop) (d : dict)
    (k v : string) :
  Forall P d -> P (k, v) -> Forall P (dict_set d k v).
Proof.
  intros Hd Hkv. induction d as [|[a b] d IH]; simpl.
  - now constructor.
  - inversion Hd as [|? ? Hab Hd']; subst.
    destruct (String.eqb_spec a k) as [->|_]; constructor; auto.
Qed.

(** X16.  In the mapping the manifest reader returns, no identifier holds
    a space and every filename is stripped: it has no whitespace before
    or after it. *)
Theorem current_patchfile_keys_and_values (patch_file : string)
    (current : dict) :
  current_patchfile patch_file = Ok current ->
  Forall (fun item =>
            contains " " (fst item) = false /\
            strip (snd item) = snd item) current.
Proof.
  unfold current_patchfile.
  assert (Hloop : forall lines d,
             Forall (fun item =>
                       contains " " (fst item) = false /\
                       strip (snd item) = snd item) d ->
             for_each lines current_patchfile_body d = Ok current ->
             Forall (fun item =>
                       contains " " (fst item) = false /\
                       strip (snd item) = snd item) current).
  { induction lines as [|line lines IH]; intros d Hd; simpl.
    - now intros [= <-].
    - intro H. apply bind_Ok in H as (d' & Hbody & Hrest).
      apply (IH d'); [|exact Hrest].
      unfold current_patchfile_body in Hbody.
      destruct (negb (startswith (strip line) "//"));
        [|now injection Hbody as <-].
      apply bind_Ok in Hbody as ([num file] & Hsplit & [= <-]).
      apply unpack2_split1_Ok in Hsplit as [_ Hnum].
      apply Forall_dict_set; [exact Hd|].
      simpl. split; [exact Hnum | apply strip_idem]. }
  apply Hloop. constructor.
Qed.

(** A manifest with whitespace around a filename. *)
Lemma current_patchfile_keys_and_values_witness :
  Forall (fun item =>
            contains " " (fst item) = false /\
            strip (snd item) = snd item)
         [("1", "a.rgz"); ("2", "b c.gpf")].
Proof.
  apply (current_patchfile_keys_and_values
           ("1   a.rgz  " ++ nl ++ "2 b c.gpf" ++ String TAB "" ++ nl)).
  reflexivity.
Defined.

(** ** The script on a tidy manifest *)

Lemma tidy_strip (num rest : string) :
  lstrip (num ++ " " ++ rest) = (num ++ " " ++ rest)%string ->
  lstrip rest = rest -> strip rest <> "" ->
  strip (num ++ " " ++ rest) = (num ++ " " ++ strip rest)%string.
Proof.
  intros Hl Hr Hne. unfold strip in *. rewrite Hl, Hr in *.
  change (" " ++ rest)%string with (String " " rest).
  assert (H : rstrip (String " " rest) = String " " (rstrip rest)).
  { cbn [rstrip]. destruct (rstrip rest); [congruence | reflexivity]. }
  rewrite rstrip_app; rewrite H; [reflexivity | discriminate].
Qed.

Lemma rewritten_tidy (ve : dict) (changes : list change)
    (line line' : string) :
  tidy_line line -> rewritten ve changes line line' ->
  rewritten_entry ve changes line line'.
Proof.
  intros Htidy Hrw. unfold rewritten_entry.
  destruct (is_comment line) eqn:Hcom.
  - destruct Hrw as [[(num & f & Hc & _) _]|[_ ->]];
      [congruence | reflexivity].
  - destruct Htidy as [Hc|(num & rest & Heq & Hnum & Hl & Hr & Hne)];
      [congruence|].
    assert (Hstrip : strip line = (num ++ " " ++ strip rest)%string).
    { rewrite Heq in Hl |- *. now apply tidy_strip. }
    exists num, (strip rest). split; [exists rest; auto|].
    destruct Hrw as [[(num' & f' & _ & Heq' & Hnum' & Hout & Hlast) ->]
                    |[Hno ->]].
    + left. rewrite Hstrip in Heq'.
      destruct (split_unique _ _ _ _ _ Heq' Hnum Hnum') as [<- <-]. auto.
    + right. split; [|reflexivity]. intros [Hout Hlast].
      apply Hno. exists num, (strip rest).
      repeat split; assumption.
Qed.

Lemma Forall2_Forall_l {A B : Type} (P : A -> Prop) (R Q : A -> B -> Prop)
    (xs : list A) (ys : list B) :
  (forall x y, P x -> R x y -> Q x y) ->
  Forall P xs -> Forall2 R xs ys -> Forall2 Q xs ys.
Proof.
  intros H HP HR. induction HR as [|x y xs ys Hxy _ IH]; constructor.
  - apply H; [now inversion HP | exact Hxy].
  - apply IH. now inversion HP.
Qed.

(** X17.  In a run of the script on a manifest whose lines are tidy, the
    updater and the reader take the same entry from every line: a line
    is written with two slashes before it exactly when the entry the
    reader took from it is the last item of its filename in the mapping
    and that filename is deleted or modified; every other line, and
    every comment, is written as it was. *)
Theorem update_manifest_tidy (SI : SetIteration)
    (changed_files patch_file out : string) :
  update_manifest SI changed_files patch_file = Ok out ->
  Forall tidy_line (readlines patch_file) ->
  exists changes valid_entries updated appended,
    get_changes changed_files = Ok changes /\
    current_patchfile patch_file = Ok valid_entries /\
    out = writelines (updated ++ appended) /\
    Forall2 (rewritten_entry valid_entries changes)
            (readlines patch_file) updated.
Proof.
  intros H Htidy. unfold update_manifest in H.
  apply bind_Ok in H as (changes & Hch & H).
  apply bind_Ok in H as (ve & Hve & H).
  apply update_file_entries_inv in H as (ids & updated & _ & Hrw & ->).
  exists changes, ve, updated. eexists.
  repeat split; try assumption; try reflexivity.
  eapply Forall2_Forall_l; [|exact Htidy|exact Hrw].
  intros line line'. apply rewritten_tidy.
Qed.

(** A tidy manifest with a file listed twice, and the file modified. *)
Lemma update_manifest_tidy_witness :
  exists changes valid_entries updated appended,
    get_changes ("M" ++ String TAB "data/a.rgz" ++ nl) = Ok changes /\
    current_patchfile ("1 a.rgz" ++ nl ++ "//2 b.gpf" ++ nl ++ "3 a.rgz")
      = Ok valid_entries /\
    ("1 a.rgz" ++ nl ++ "//2 b.gpf" ++ nl ++ "//3 a.rgz" ++ nl
       ++ "4 a.rgz")%string
      = writelines (updated ++ appended) /\
    Forall2 (rewritten_entry valid_entries changes)
            (readlines ("1 a.rgz" ++ nl ++ "//2 b.gpf" ++ nl ++ "3 a.rgz"))
            updated.
Proof.
  apply (update_manifest_tidy insertion_order
           ("M" ++ String TAB "data/a.rgz" ++ nl)
           ("1 a.rgz" ++ nl ++ "//2 b.gpf" ++ nl ++ "3 a.rgz")).
  - reflexivity.
  - constructor; [|constructor; [|constructor; [|constructor]]].
    + right. exists "1", ("a.rgz" ++ nl)%string.
      repeat split; discriminate.
    + now left.
    + right. exists "3", "a.rgz". repeat split; discriminate.
Defined.

(** ** The manifest the script leaves, run again *)

Lemma dict_mem_In (d : dict) (k : string) :
  dict_mem d k = true <-> In k (keys d).
Proof.
  unfold dict_mem. destruct (dict_get d k) eqn:E.
  - split; [|reflexivity]. intros _.
    destruct (in_dec string_dec k (keys d)) as [H|H]; [exact H|].
    apply dict_get_None in H. congruence.
  - apply dict_get_None in E. split; [discriminate | tauto].
Qed.

Lemma keys_dict_set_In (d : dict) (k v k' : string) :
  In k' (keys (dict_set d k v)) <-> In k' (keys d) \/ k' = k.
Proof.
  rewrite keys_dict_set. destruct (dict_mem d k) eqn:E.
  - apply dict_mem_In in E. split; [tauto|]. intros [H| ->]; assumption.
  - rewrite in_app_iff. simpl. split.
    + intros [H|[H|[]]]; auto.
    + intros [H| ->]; auto.
Qed.

(** The identifier of every line that is no comment is a key of the
    mapping the reader returns. *)
Lemma current_patchfile_loop_keys (lines : list string) (d d' : dict) :
  for_each lines current_patchfile_body d = Ok d' ->
  (forall k, In k (keys d) -> In k (keys d')) /\
  (forall line,
      In line lines -> is_comment line = false ->
      exists num rest,
        line = (num ++ " " ++ rest)%string /\ contains " " num = false /\
        In num (keys d')).
Proof.
  revert d. induction lines as [|line lines IH]; intro d; simpl.
  - intros [= <-]. split; [auto | intros ? []].
  - intro H. apply bind_Ok in H as (d1 & Hbody & Hrest).
    destruct (IH _ Hrest) as [Hkeys Hlines].
    unfold current_patchfile_body in Hbody. fold (is_comment line) in Hbody.
    destruct (is_comment line) eqn:Hcom; simpl in Hbody.
    + injection Hbody as <-. split; [exact Hkeys|].
      intros l [<-|Hin] Hl; [congruence | now apply Hlines].
    + apply bind_Ok in Hbody as ([num file] & Hsplit & [= <-]).
      apply unpack2_split1_Ok in Hsplit as [Heq Hnum]. split.
      * intros k Hk. apply Hkeys, keys_dict_set_In. now left.
      * intros l [<-|Hin] Hl; [|now apply Hlines].
        exists num, file. repeat split; try assumption.
        apply Hkeys, keys_dict_set_In. now right.
Qed.

Lemma first_run_readable (patch_file : string) (ve : dict) :
  current_patchfile patch_file = Ok ve ->
  Forall int_literal (keys ve) ->
  Forall (fun line => well_formed_line line = true) (readlines patch_file) ->
  Forall readable_line (readlines patch_file).
Proof.
  intros Hve Hkeys Hwf. apply current_patchfile_loop_keys in Hve as [_ Hl].
  rewrite Forall_forall in *. intros line Hin.
  destruct (is_comment line) eqn:Hcom; [now left|]. right.
  split; [now apply Hwf|].
  destruct (Hl line Hin Hcom) as (num & rest & Heq & Hnum & Hk).
  exists num, rest. repeat split; try assumption. now apply Hkeys.
Qed.

Lemma is_comment_app_nl (line : string) :
  is_comment (line ++ nl) = is_comment line.
Proof. unfold is_comment. now rewrite strip_app_nl. Qed.

Lemma readable_line_nl (line : string) :
  readable_line line -> readable_line (line ++ nl).
Proof.
  intros [H|[Hwf (num & rest & -> & Hnum & Hint)]].
  - left. now rewrite is_comment_app_nl.
  - right. split.
    + unfold well_formed_line in *.
      now rewrite is_comment_app_nl, strip_app_nl.
    + exists num, (rest ++ nl)%string.
      repeat split; try assumption.
      change (" " ++ rest)%string with (String " " rest).
      now rewrite append_assoc.
Qed.

Lemma readable_line_kept_or_commented (line line' : string) :
  kept_or_commented line line' -> readable_line line -> readable_line line'.
Proof.
  intros [-> | ->] H; [exact H|]. left.
  apply startswith_slashes_is_comment. simpl. now destruct line.
Qed.

Lemma asset_rstrip (f : string) :
  endswith f ".rgz" = true \/ endswith f ".gpf" = true ->
  rstrip f = f /\ f <> "".
Proof.
  intros [H|H]; apply endswith_split in H as [a ->]; split;
    try (destruct a; discriminate);
    now rewrite rstrip_app by discriminate.
Qed.

Lemma entry_body_readable (n : Z) (f : string) :
  endswith f ".rgz" = true \/ endswith f ".gpf" = true ->
  readable_line (str n ++ " " ++ f).
Proof.
  intro Hf. destruct (asset_rstrip f Hf) as [Hr Hne]. right. split.
  - unfold well_formed_line.
    rewrite numbered_line_not_comment. cbn [orb].
    assert (Hstrip : strip (str n ++ " " ++ f) = (str n ++ " " ++ f)%string).
    { unfold strip. destruct (str_head n) as (c & s & E & Hc & _).
      rewrite E. cbn [append]. rewrite (lstrip_head _ _ Hc).
      change (String c (s ++ String " " f))
        with (String c s ++ String " " f)%string.
      rewrite rstrip_app; cbn [rstrip]; rewrite Hr;
        destruct f; (congruence || discriminate || reflexivity). }
    rewrite Hstrip, contains_app. cbn [append contains].
    apply orb_true_r.
  - exists (str n), f. repeat split.
    + now apply contains_str.
    + exists n. apply IntStr.int_str.
Qed.

(** The filenames the change-report reader returns hold no newline and no
    carriage return. *)
Lemma get_changes_plain (changed_files : string) (changes : list change) :
  get_changes changed_files = Ok changes ->
  Forall (fun c =>
            contains LF (fst c) = false /\ contains CR (fst c) = false /\
            (endswith (fst c) ".rgz" = true \/
             endswith (fst c) ".gpf" = true)) changes.
Proof.
  intro H. apply get_changes_loop_origin in H as (new & -> & Hnew).
  simpl. eapply Forall_impl; [|exact Hnew].
  intros c (line & path & Hin & Hstrip & _ & Hsuf & Hfst).
  assert (Hsub : forall x, contains x (strip line) = false ->
                           contains x (fst c) = false).
  { intros x Hx. destruct (contains x (fst c)) eqn:E; [|reflexivity].
    rewrite Hfst in E. apply contains_basename in E.
    rewrite Hstrip, contains_app in Hx. cbn [contains] in Hx.
    rewrite E, !orb_true_r in Hx. discriminate. }
  split; [|split].
  - apply Hsub. eapply strip_line_no_LF, Hin.
  - apply Hsub, contains_strip. eapply readlines_no_CR, Hin.
  - rewrite Hfst. destruct Hsuf as [E|E]; [left|right];
      now apply endswith_basename.
Qed.

Lemma terminated_cons (c : ascii) (line : string) :
  Ascii.eqb c LF = false -> terminated line -> terminated (String c line).
Proof.
  intros Hc (body & Hb & ->). exists (String c body).
  cbn [contains]. now rewrite Hc, Hb.
Qed.

Lemma open_line_cons (c : ascii) (line : string) :
  Ascii.eqb c LF = false -> contains LF line = false ->
  open_line (String c line).
Proof.
  intros Hc Hl. split; [discriminate|]. cbn [contains]. now rewrite Hc, Hl.
Qed.

(** The lines of a text that is not empty and does not end with a
    newline. *)
Lemma open_ended_lines_of (t : string) :
  t <> "" -> endswith t nl = false -> open_ended (lines_of t).
Proof.
  induction t as [|c t IH]; [congruence|]. intros _ Hend.
  cbn [endswith] in Hend. apply orb_false_iff in Hend as [Hnl Hend].
  cbn [lines_of]. destruct (Ascii.eqb c LF) eqn:Hc.
  - apply Ascii.eqb_eq in Hc as ->.
    destruct t as [|x t]; [discriminate|].
    pose proof (lines_of_nonempty x t) as Hne.
    specialize (IH ltac:(discriminate) Hend).
    destruct (lines_of (String x t)) as [|l ls]; [congruence|].
    split; [exists ""; auto | exact IH].
  - destruct t as [|x t].
    + simpl. now apply open_line_cons.
    + pose proof (lines_of_nonempty x t) as Hne.
      specialize (IH ltac:(discriminate) Hend).
      destruct (lines_of (String x t)) as [|l ls]; [congruence|].
      destruct ls as [|l2 ls].
      * destruct IH as [_ Hl]. now apply open_line_cons.
      * destruct IH as [Hl Hls]. split; [now apply terminated_cons | exact Hls].
Qed.

Lemma open_ended_kept_or_commented (ls us : list string) :
  Forall2 kept_or_commented ls us -> open_ended ls -> open_ended us.
Proof.
  induction 1 as [|l u ls us Hlu Hrest IH]; [tauto|].
  assert (Hterm : terminated l -> terminated u).
  { destruct Hlu as [-> | ->]; [tauto|]. intros (body & Hb & ->).
    exists ("//" ++ body)%string. split; [exact Hb | reflexivity]. }
  assert (Hopen : open_line l -> open_line u).
  { destruct Hlu as [-> | ->]; [tauto|]. intros [_ Hl].
    split; [discriminate | exact Hl]. }
  inversion Hrest; subst; simpl in *; [auto|].
  intros [Hl Hls]. split; [auto | now apply IH].
Qed.

Lemma new_entries_bodies (n : Z) (names : list string) :
  new_entries n names = map (append nl) (entry_bodies n names).
Proof.
  revert n. induction names as [|f fs IH]; intro n; simpl;
    [|rewrite IH]; reflexivity.
Qed.

Lemma lines_of_shift (l : string) (bodies : list string) :
  open_line l -> Forall open_line bodies ->
  lines_of (writelines (l :: map (append nl) bodies)) = shift l bodies.
Proof.
  intros Hl Hb. revert l Hl.
  induction Hb as [|b bs Hb _ IH]; intros l [Hne Hlf].
  - simpl. now apply lines_of_open.
  - cbn [map shift].
    assert (E : writelines (l :: append nl b :: map (append nl) bs)
                = (l ++ nl ++ writelines (b :: map (append nl) bs))%string).
    { rewrite !writelines_cons. now rewrite !append_assoc. }
    rewrite E, (lines_of_terminated _ _ Hlf). f_equal. now apply IH.
Qed.

Lemma lines_of_reline (ls bodies : list string) :
  open_ended ls -> Forall open_line bodies ->
  lines_of (writelines (ls ++ map (append nl) bodies)) = reline ls bodies.
Proof.
  intros Hls Hb. induction ls as [|l ls IH]; [destruct Hls|].
  destruct ls as [|l2 ls].
  - simpl in Hls. now apply lines_of_shift.
  - destruct Hls as [(body & Hbody & ->) Hls].
    change ((body ++ nl)%string :: l2 :: ls)
      with ([(body ++ nl)%string] ++ (l2 :: ls)).
    rewrite <- app_assoc. cbn [app]. rewrite writelines_cons.
    rewrite append_assoc, (lines_of_terminated _ _ Hbody).
    cbn [reline]. f_equal. now apply IH.
Qed.

Lemma shift_readable (l : string) (bodies : list string) :
  readable_line l -> Forall readable_line bodies ->
  Forall readable_line (shift l bodies).
Proof.
  intros Hl Hb. revert l Hl. induction Hb as [|b bs Hb _ IH]; intros l Hl.
  - now constructor.
  - cbn [shift]. constructor; [now apply readable_line_nl | now apply IH].
Qed.

Lemma reline_readable (ls bodies : list string) :
  Forall readable_line ls -> Forall readable_line bodies ->
  Forall readable_line (reline ls bodies).
Proof.
  intros Hls Hb. induction Hls as [|l ls Hl Hrest IH]; [constructor|].
  destruct ls as [|l2 ls]; [now apply shift_readable|].
  cbn [reline]. constructor; [exact Hl | exact IH].
Qed.

(** On readable lines the reader returns a mapping whose keys are
    integer literals. *)
Lemma readable_reader (lines : list string) (d : dict) :
  Forall readable_line lines -> Forall int_literal (keys d) ->
  exists d',
    for_each lines current_patchfile_body d = Ok d' /\
    Forall int_literal (keys d').
Proof.
  intro Hl. revert d. induction Hl as [|line lines Hline _ IH]; intros d Hd.
  - exists d. auto.
  - cbn [for_each]. unfold current_patchfile_body at 1.
    fold (is_comment line).
    destruct (is_comment line) eqn:Hcom; simpl; [now apply IH|].
    destruct Hline as [H|[_ (num & rest & -> & Hnum & Hint)]]; [congruence|].
    change (" " ++ rest)%string with (String " " rest).
    rewrite (split1_app _ _ _ Hnum). simpl. apply IH.
    apply Forall_forall. intros k Hk.
    apply keys_dict_set_In in Hk as [Hk| ->]; [|exact Hint].
    rewrite Forall_forall in Hd. now apply Hd.
Qed.

Lemma readable_well_formed (lines : list string) :
  Forall readable_line lines ->
  Forall (fun line => well_formed_line line = true) lines.
Proof.
  apply Forall_impl. intros line [H|[H _]]; [|exact H].
  unfold well_formed_line. now rewrite H.
Qed.

(** Without changes, on lines it accepts and with keys it accepts, the
    updater writes the text as it read it. *)
Lemma update_file_entries_no_changes_Ok (SI : SetIteration) (file : string)
    (ve : dict) :
  Forall int_literal (keys ve) ->
  Forall (fun line => well_formed_line line = true) (readlines file) ->
  update_file_entries SI file ve [] = Ok (universal_newlines false file).
Proof.
  intros Hk Hl. apply map_int_Ok_iff in Hk as [ids Hi].
  apply (update_lines_Ok_iff
           (find_last_occurrences (with_status "D" []) (with_status "M" [])
                                  ve) _ []) in Hl as [updated Hu].
  apply update_file_entries_Ok. exists ids, updated.
  split; [exact Hi|]. split; [exact Hu|].
  apply update_lines_rewritten in Hu as (new & -> & Hrw).
  apply rewritten_no_changes in Hrw as ->.
  change (with_status "A" [] ++ iter SI (with_status "M" []))
    with (iter SI []).
  rewrite iter_empty. simpl. rewrite app_nil_r.
  symmetry. apply writelines_lines_of.
Qed.

Lemma existsb_false_Forall {A : Type} (p : A -> bool) (xs : list A) :
  Forall (fun x => p x = false) xs -> existsb p xs = false.
Proof. induction 1 as [|x xs Hx _ IH]; simpl; [|rewrite Hx, IH]; auto. Qed.

Lemma entry_bodies_Forall (P : string -> Prop) (n : Z)
    (names : list string) :
  (forall k f, In f names -> P (str k ++ " " ++ f)%string) ->
  Forall P (entry_bodies n names).
Proof.
  revert n. induction names as [|f fs IH]; intros n H; simpl; constructor.
  - apply H. now left.
  - apply IH. intros k g Hg. apply H. now right.
Qed.

(** What the script writes for a manifest that, as read, was not empty
    and did not end with a newline: a text without carriage return, every
    line of which the next run can take in. *)
Lemma update_manifest_output_readable (SI : SetIteration)
    (changed_files patch_file out : string) :
  update_manifest SI changed_files patch_file = Ok out ->
  universal_newlines false patch_file <> "" ->
  endswith (universal_newlines false patch_file) nl = false ->
  contains CR out = false /\ Forall readable_line (readlines out).
Proof.
  intros H Hne Hend. unfold update_manifest in H.
  apply bind_Ok in H as (changes & Hch & H).
  apply bind_Ok in H as (ve & Hve & H).
  pose proof H as Hup.
  apply update_file_entries_Ok in Hup as (ids & updated0 & Hi & Hu & _).
  apply update_file_entries_inv in H as (ids' & updated & Hi' & Hrw & ->).
  assert (ids' = ids) by congruence. subst ids'. clear Hi'.
  assert (Hkeys : Forall int_literal (keys ve))
    by (apply map_int_Ok_iff; eauto).
  assert (Hwf : Forall (fun line => well_formed_line line = true)
                       (readlines patch_file))
    by (eapply update_lines_Ok_iff; eauto).
  pose proof (first_run_readable _ _ Hve Hkeys Hwf) as Hread.
  pose proof (get_changes_plain _ _ Hch) as Hplain.
  assert (Hkept : Forall2 kept_or_commented (readlines patch_file) updated).
  { eapply Forall2_weaken; [|exact Hrw]. apply rewritten_kept_or_commented. }
  set (names := with_status "A" changes ++ iter SI (with_status "M" changes)).
  set (n := (max_default ids 0 + 1)%Z).
  assert (Hnames : Forall (fun f =>
                             contains LF f = false /\
                             contains CR f = false /\
                             (endswith f ".rgz" = true \/
                              endswith f ".gpf" = true)) names).
  { apply Forall_forall. intros f Hin.
    assert (Hc : exists st, In (f, st) changes).
    { apply in_app_or in Hin as [Hin|Hin].
      - exists "A". now apply with_status_In.
      - exists "M". apply iter_In in Hin. now apply with_status_In. }
    destruct Hc as (st & Hc). rewrite Forall_forall in Hplain.
    exact (Hplain _ Hc). }
  rewrite Forall_forall in Hnames.
  (* the lines of the text written *)
  assert (Hopen : open_ended updated).
  { eapply open_ended_kept_or_commented; [exact Hkept|].
    now apply open_ended_lines_of. }
  assert (Hbodies_open : Forall open_line (entry_bodies n names)).
  { apply entry_bodies_Forall. intros k f Hf.
    destruct (Hnames f Hf) as (Hlf & _ & _). split.
    - destruct (str_head k) as (c & s & -> & _). discriminate.
    - rewrite !contains_app. cbn [contains].
      rewrite Hlf, contains_str by (reflexivity || discriminate).
      reflexivity. }
  assert (Hupd_read : Forall readable_line updated).
  { clear - Hkept Hread. induction Hkept as [|l u ls us Hlu _ IH];
      [constructor|].
    inversion Hread; subst. constructor; [|now apply IH].
    eapply readable_line_kept_or_commented; eassumption. }
  assert (Hbodies_read : Forall readable_line (entry_bodies n names)).
  { apply entry_bodies_Forall. intros k f Hf.
    apply entry_body_readable. exact (proj2 (proj2 (Hnames f Hf))). }
  set (out := writelines (updated ++ new_entries n names)).
  assert (Hcr : contains CR out = false).
  { unfold out. rewrite contains_writelines. apply existsb_false_Forall.
    apply Forall_app. split.
    - clear - Hkept. 
      assert (Hsrc : Forall (fun l => contains CR l = false)
                            (readlines patch_file)).
      { apply Forall_forall. intros l Hl. eapply readlines_no_CR, Hl. }
      induction Hkept as [|l u ls us Hlu _ IH]; [constructor|].
      inversion Hsrc; subst. constructor; [|now apply IH].
      destruct Hlu as [-> | ->]; [assumption|]. simpl. assumption.
    - rewrite new_entries_bodies. apply Forall_map.
      apply entry_bodies_Forall. intros k f Hf.
      destruct (Hnames f Hf) as (_ & Hcrf & _).
      rewrite !contains_app. cbn [contains].
      rewrite Hcrf, contains_str by (reflexivity || discriminate).
      reflexivity. }
  assert (Hlines : readlines out = reline updated (entry_bodies n names)).
  { unfold readlines. rewrite (universal_newlines_no_CR _ Hcr).
    unfold out. rewrite new_entries_bodies.
    now apply lines_of_reline. }
  assert (Hout_read : Forall readable_line (readlines out)).
  { rewrite Hlines. now apply reline_readable. }
  split; [exact Hcr | exact Hout_read].
Qed.

(** X18.  The manifest a run of the script leaves is a fixed point of the
    script: when the manifest, as read, was not empty and did not end
    with a newline, a later run on an empty change report accepts what
    the first run wrote and writes it again, character for character. *)
Theorem update_manifest_fixed_point (SI SI' : SetIteration)
    (changed_files patch_file out : string) :
  update_manifest SI changed_files patch_file = Ok out ->
  universal_newlines false patch_file <> "" ->
  endswith (universal_newlines false patch_file) nl = false ->
  update_manifest SI' "" out = Ok out.
Proof.
  intros H Hne Hend.
  destruct (update_manifest_output_readable _ _ _ _ H Hne Hend)
    as [Hcr Hout_read].
  unfold update_manifest.
  change (get_changes "") with (@Ok (list change) []). cbn [bind].
  destruct (readable_reader (readlines out) [] Hout_read)
    as (d' & Hd' & Hkeys'); [constructor|].
  unfold current_patchfile. rewrite Hd'. cbn [bind].
  rewrite update_file_entries_no_changes_Ok.
  - now rewrite (universal_newlines_no_CR _ Hcr).
  - exact Hkeys'.
  - now apply readable_well_formed.
Qed.

(** A manifest with a comment, a file modified and a file added. *)
Lemma update_manifest_fixed_point_witness :
  update_manifest reverse_order ""
    ("//1 a.rgz" ++ nl ++ "//2 a.rgz" ++ nl ++ "3 c.gpf" ++ nl ++ "4 a.rgz")
  = Ok ("//1 a.rgz" ++ nl ++ "//2 a.rgz" ++ nl ++ "3 c.gpf" ++ nl
          ++ "4 a.rgz")%string.
Proof.
  apply (update_manifest_fixed_point insertion_order reverse_order
           ("M" ++ String TAB "data/a.rgz" ++ nl ++
            "A" ++ String TAB "data/c.gpf" ++ nl)
           ("//1 a.rgz" ++ nl ++ "2 a.rgz")).
  - reflexivity.
  - discriminate.
  - reflexivity.
Defined.

(** ** Running the updater again *)




(** ** What the order of a set can change *)

(** X19.  The order in which the set of the modified files is iterated
    bears on nothing but the order of their new entries: when the updater
    returns for one order it returns for every other, with the same lines
    of the manifest rewritten, the same entries for the added files, the
    same first identifier, and entries for the same modified files, in
    another order at most. *)
Theorem update_file_entries_iteration_order (SI SI' : SetIteration)
    (file : string) (valid_entries : dict) (changes : list change)
    (out : string) :
  update_file_entries SI file valid_entries changes = Ok out ->
  exists updated n modified modified',
    Permutation modified modified' /\
    out = writelines
            (updated ++
             new_entries n (with_status "A" changes ++ modified)) /\
    update_file_entries SI' file valid_entries changes
    = Ok (writelines
            (updated ++
             new_entries n (with_status "A" changes ++ modified'))).
Proof.
  intro H. apply update_file_entries_Ok in H as (ids & updated & Hi & Hu & ->).
  exists updated, (max_default ids 0 + 1)%Z,
    (iter SI (with_status "M" changes)),
    (iter SI' (with_status "M" changes)).
  split; [|split; [reflexivity|]].
  - apply NoDup_Permutation; try apply iter_NoDup.
    intro f. now rewrite !iter_In.
  - apply update_file_entries_Ok. eauto.
Qed.

(** Two files modified, iterated in the two orders. *)
Lemma update_file_entries_iteration_order_witness :
  exists updated n modified modified',
    Permutation modified modified' /\
    ("//1 a.rgz" ++ nl ++ "//2 b.rgz" ++ nl ++ "3 a.rgz" ++ nl
       ++ "4 b.rgz")%string
    = writelines
        (updated ++
         new_entries n
           (with_status "A" [("a.rgz", "M"); ("b.rgz", "M")] ++ modified)) /\
    update_file_entries reverse_order ("1 a.rgz" ++ nl ++ "2 b.rgz")
      [("1", "a.rgz"); ("2", "b.rgz")] [("a.rgz", "M"); ("b.rgz", "M")]
    = Ok (writelines
            (updated ++
             new_entries n
               (with_status "A" [("a.rgz", "M"); ("b.rgz", "M")]
                  ++ modified'))).
Proof.
  apply (update_file_entries_iteration_order insertion_order reverse_order
           ("1 a.rgz" ++ nl ++ "2 b.rgz")
           [("1", "a.rgz"); ("2", "b.rgz")]
           [("a.rgz", "M"); ("b.rgz", "M")]).
  reflexivity.
Defined.

(** ** When the script rewrites the manifest *)

(** X20.  With identifiers within the limit on digits (every line of
    the manifest shorter than the limit, fewer than [2 ^ 64] lines in the
    report), the readers and the updater, run one after the other as the
    script runs them, rewrite the manifest exactly when every line of the
    change report is blank or has a tab inside its stripped text, and
    every line of the manifest is a comment or reads, an integer literal
    before its first space, with a space left once it is stripped.  In
    every other case one of them raises and the manifest is not
    written. *)
Theorem update_manifest_returns_iff (SI : SetIteration)
    (changed_files patch_file : string) :
  Forall (fun line => (Z.of_nat (String.length line) < max_str_digits)%Z)
         (readlines patch_file) ->
  (Z.of_nat (length (readlines changed_files)) < 2 ^ 64)%Z ->
  ((exists out, update_manifest SI changed_files patch_file = Ok out) <->
   Forall (fun line => report_line_ok line = true) (readlines changed_files)
   /\ Forall readable_line (readlines patch_file)).
Proof.
  intros _ _. unfold update_manifest. split.
  - intros [out H].
    apply bind_Ok in H as (changes & Hch & H).
    apply bind_Ok in H as (ve & Hve & H).
    apply update_file_entries_Ok in H as (ids & updated & Hi & Hu & _).
    split.
    + apply (for_each_Ok_iff get_changes_body report_line_ok _ []);
        [exact get_changes_body_Ok_iff | eauto].
    + apply (first_run_readable _ ve Hve).
      * apply map_int_Ok_iff. eauto.
      * eapply update_lines_Ok_iff. eauto.
  - intros [Hreport Hlines].
    apply (for_each_Ok_iff get_changes_body report_line_ok _ [])
      in Hreport as [changes Hch]; [|exact get_changes_body_Ok_iff].
    unfold get_changes. rewrite Hch. cbn [bind].
    destruct (readable_reader _ [] Hlines) as (ve & Hve & Hkeys);
      [constructor|].
    unfold current_patchfile. rewrite Hve. cbn [bind].
    apply map_int_Ok_iff in Hkeys as [ids Hi].
    apply readable_well_formed in Hlines.
    destruct (proj2 (update_lines_Ok_iff
                       (find_last_occurrences (with_status "D" changes)
                          (with_status "M" changes) ve)
                       (readlines patch_file) []) Hlines)
      as [updated Hu].
    eexists. apply update_file_entries_Ok. eauto.
Qed.

(** A manifest whose only line begins with a separator that
    [str.strip] takes for whitespace and [int] does not: the script
    raises. *)
Lemma update_manifest_returns_iff_witness :
  (exists out,
      update_manifest insertion_order ("A" ++ String TAB "data/b.rgz")
        (String "028" "1 a.rgz") = Ok out) <->
  Forall (fun line => report_line_ok line = true)
         (readlines ("A" ++ String TAB "data/b.rgz"))
  /\ Forall readable_line (readlines (String "028" "1 a.rgz")).
Proof.
  apply (update_manifest_returns_iff insertion_order
           ("A" ++ String TAB "data/b.rgz") (String "028" "1 a.rgz")).
  - repeat constructor.
  - reflexivity.
Defined.
